(** * panel/pane/vtk/vtk.py: the VTK panes

    A shallow embedding of the volume subsampler ([VTKVolume]), of the
    render-window serialisation glue ([VTK]) and of the colour-mapper helpers
    ([SyncHelpers]) of [panel/pane/vtk/vtk.py].

    Conventions.
    - Python numbers are exact: an [int] is a [Z], a [float] is a rational
      ([Q]); rounding errors of binary64 are outside the model.  The one
      irrational primitive, [np.cbrt], is a parameter of the development, so
      every theorem holds whatever value numpy returns.
    - Exceptions are values: a computation returns [Ok v] or [Raise e].
    - An attribute assignment on [self] is explicit state passing. *)

From Stdlib Require Import ZArith QArith Qround Qabs List String Ascii Lia Lqa Bool.
From Stdlib.Strings Require Import Byte.
From stdpp Require Import gmap strings pretty.

Local Open Scope Z_scope.
Set Warnings "-register-all".

(** ** Exceptions *)

Inductive exn : Type :=
| ZeroDivisionError
| OverflowError
| ValueError
| TypeError
| KeyError
| AttributeError.

Inductive result (A : Type) : Type :=
| Ok (a : A)
| Raise (e : exn).

Arguments Ok {A} a.
Arguments Raise {A} e.

#[global] Instance result_ret : MRet result := fun A a => Ok a.
#[global] Instance result_bind : MBind result := fun A B f m =>
  match m with
  | Ok a => f a
  | Raise e => Raise e
  end.

#[global] Instance result_fmap : FMap result := fun A B f m =>
  match m with
  | Ok a => Ok (f a)
  | Raise e => Raise e
  end.

(** ** Python tuples of length three *)

Definition tuple3 (A : Type) : Type := (A * A * A)%type.

Definition map3 {A B} (f : A -> B) (t : tuple3 A) : tuple3 B :=
  let '(a, b, c) := t in (f a, f b, f c).

Definition zip3 {A B} (s : tuple3 A) (t : tuple3 B) : tuple3 (A * B) :=
  let '(a, b, c) := s in let '(x, y, z) := t in ((a, x), (b, y), (c, z)).

(** A generator expression whose body may raise: the axes are evaluated in
    order and the first exception wins. *)
Definition mapM3 {A B} (f : A -> result B) (t : tuple3 A) : result (tuple3 B) :=
  let '(a, b, c) := t in
  x ← f a; y ← f b; z ← f c; mret (x, y, z).

Definition any3 (t : tuple3 bool) : bool :=
  let '(a, b, c) := t in a || b || c.

(** [t[::-1]] *)
Definition rev3 {A} (t : tuple3 A) : tuple3 A :=
  let '(a, b, c) := t in (c, b, a).

Definition Forall3 {A} (P : A -> Prop) (t : tuple3 A) : Prop :=
  let '(a, b, c) := t in P a /\ P b /\ P c.

Definition Forall3_2 {A B} (P : A -> B -> Prop) (s : tuple3 A) (t : tuple3 B) : Prop :=
  Forall3 (fun p => P (fst p) (snd p)) (zip3 s t).

(** ** Numbers *)

(** [int(x)] of a float: truncation towards zero. *)
Definition py_int (x : Q) : Z := Z.quot (Qnum x) (Z.pos (Qden x)).

(** [int(np.ceil(x))] *)
Definition py_ceil (x : Q) : Z := Qceiling x.

(** [round(x)] of Python 3: to the nearest integer, ties to the even one. *)
Definition py_round (x : Q) : Z :=
  let f := Qfloor x in
  match (x - inject_Z f ?= 1 # 2)%Q with
  | Lt => f
  | Gt => f + 1
  | Eq => if Z.even f then f else f + 1
  end.

Definition Qgtb (x y : Q) : bool := negb (Qle_bool x y).

(** True division [x / y] of Python numbers. *)
Definition py_div (x y : Q) : result Q :=
  if Qeq_bool y 0 then Raise ZeroDivisionError else Ok (x / y)%Q.

(** [n / x] where [x] is a [np.float64]: numpy does not raise on a zero
    divisor, it returns [inf] or [nan], and it is [int()] that raises. *)
Definition int_of_np_div (n : Z) (x : Q) : result Z :=
  if Qeq_bool x 0 then
    if n =? 0 then Raise ValueError else Raise OverflowError
  else Ok (py_int (inject_Z n / x)).

(** ** numpy arrays of rank three

    An array is a view on a buffer of elements: [item a (i, j, k)] is the
    element of the buffer at [offset + i*s0 + j*s1 + k*s2], the strides being
    counted in elements.  Elements are integers of the array's dtype. *)

Inductive np_dtype : Type :=
| uint8 | int8 | uint16 | int16 | uint32 | int32 | uint64 | int64.

Definition dtype_name (d : np_dtype) : string :=
  match d with
  | uint8 => "uint8" | int8 => "int8"
  | uint16 => "uint16" | int16 => "int16"
  | uint32 => "uint32" | int32 => "int32"
  | uint64 => "uint64" | int64 => "int64"
  end.

Definition itemsize (d : np_dtype) : nat :=
  match d with
  | uint8 | int8 => 1
  | uint16 | int16 => 2
  | uint32 | int32 => 4
  | uint64 | int64 => 8
  end%nat.

Record ndarray : Type := mk_ndarray {
  dtype : np_dtype;
  shape : tuple3 nat;
  strides : tuple3 Z;
  offset : Z;
  buf : list Z
}.

Definition item (a : ndarray) (ix : tuple3 nat) : Z :=
  let '(i, j, k) := ix in
  let '(s0, s1, s2) := strides a in
  nth (Z.to_nat (offset a + Z.of_nat i * s0 + Z.of_nat j * s1 + Z.of_nat k * s2))
      (buf a) 0.

Definition nd_size (a : ndarray) : Z :=
  let '(n0, n1, n2) := shape a in Z.of_nat n0 * Z.of_nat n1 * Z.of_nat n2.

Definition nbytes (a : ndarray) : Z := nd_size a * Z.of_nat (itemsize (dtype a)).

(** [a.flags['F_CONTIGUOUS']], as numpy computes it: an array with an empty
    axis is contiguous; otherwise the strides of the axes longer than one,
    first axis first, are the running products of the lengths. *)
Definition f_contiguous (a : ndarray) : bool :=
  let '(n0, n1, n2) := shape a in
  let '(s0, s1, s2) := strides a in
  if ((n0 =? 0) || (n1 =? 0) || (n2 =? 0))%nat then true
  else
    let step (n : nat) (s : Z) (acc : bool * Z) : bool * Z :=
      let '(ok, sd) := acc in
      if (n =? 1)%nat then (ok, sd) else (ok && (s =? sd), sd * Z.of_nat n) in
    fst (step n2 s2 (step n1 s1 (step n0 s0 (true, 1)))).

(** Index triples in C order (last index fastest) and in Fortran order (first
    index fastest). *)
Definition indices_C (sh : tuple3 nat) : list (tuple3 nat) :=
  let '(n0, n1, n2) := sh in
  i ← seq 0 n0; j ← seq 0 n1; k ← seq 0 n2; [(i, j, k)].

Definition indices_F (sh : tuple3 nat) : list (tuple3 nat) :=
  let '(n0, n1, n2) := sh in
  k ← seq 0 n2; j ← seq 0 n1; i ← seq 0 n0; [(i, j, k)].

(** [a.ravel(order=...)] as the list of its elements. *)
Definition ravel_C (a : ndarray) : list Z := item a <$> indices_C (shape a).
Definition ravel_F (a : ndarray) : list Z := item a <$> indices_F (shape a).

(** Length of [x[::k]] for an axis of [n] elements, [k] not zero. *)
Definition slice_len (n : nat) (k : Z) : nat :=
  Z.to_nat ((Z.of_nat n + Z.abs k - 1) / Z.abs k).

(** [a[::k0, ::k1, ::k2]]: a view on the same buffer.  A zero step raises;
    a negative step walks the axis backwards from its last element. *)
Definition strided (a : ndarray) (k : tuple3 Z) : result ndarray :=
  let '(k0, k1, k2) := k in
  let '(n0, n1, n2) := shape a in
  let '(s0, s1, s2) := strides a in
  if (k0 =? 0) || (k1 =? 0) || (k2 =? 0) then Raise ValueError
  else
    let start (n : nat) (s kk : Z) : Z :=
      if (kk <? 0) && negb (n =? 0)%nat then (Z.of_nat n - 1) * s else 0 in
    Ok {| dtype := dtype a;
          shape := (slice_len n0 k0, slice_len n1 k1, slice_len n2 k2);
          strides := (s0 * k0, s1 * k1, s2 * k2);
          offset := offset a + start n0 s0 k0 + start n1 s1 k1 + start n2 s2 k2;
          buf := buf a |}.

(** [a.T]: the axes reversed, on the same buffer. *)
Definition transpose (a : ndarray) : ndarray :=
  {| dtype := dtype a; shape := rev3 (shape a); strides := rev3 (strides a);
     offset := offset a; buf := buf a |}.

(** The index triples of an array of shape [sh]. *)
Definition in_range (ix sh : tuple3 nat) : Prop :=
  let '(i, j, k) := ix in
  let '(n0, n1, n2) := sh in
  (i < n0 /\ j < n1 /\ k < n2)%nat.

(** A freshly allocated array in C layout holding [data]. *)
Definition c_array (d : np_dtype) (sh : tuple3 nat) (data : list Z) : ndarray :=
  let '(n0, n1, n2) := sh in
  {| dtype := d; shape := sh;
     strides := (Z.of_nat (n1 * n2), Z.of_nat n2, 1);
     offset := 0; buf := data |}.

(** [a.min()] and [a.max()]: an empty array raises. *)
Definition nd_min (a : ndarray) : result Z :=
  match ravel_C a with
  | [] => Raise ValueError
  | x :: l => Ok (fold_left Z.min l x)
  end.

Definition nd_max (a : ndarray) : result Z :=
  match ravel_C a with
  | [] => Raise ValueError
  | x :: l => Ok (fold_left Z.max l x)
  end.

(** [v] is the least (the greatest) sample of the array. *)
Definition is_min_of (a : ndarray) (v : Z) : Prop :=
  (exists ix, in_range ix (shape a) /\ item a ix = v) /\
  (forall ix, in_range ix (shape a) -> v <= item a ix).

Definition is_max_of (a : ndarray) (v : Z) : Prop :=
  (exists ix, in_range ix (shape a) /\ item a ix = v) /\
  (forall ix, in_range ix (shape a) -> item a ix <= v).

(** ** Raw bytes and base64 *)

Definition byte_of_Z (v : Z) : byte :=
  match Byte.of_N (Z.to_N (v mod 256)) with
  | Some b => b
  | None => x00
  end.

Definition Z_of_byte (b : byte) : Z := Z.of_N (Byte.to_N b).

(** The [w] bytes of an element in memory, least significant first. *)
Fixpoint le_bytes (w : nat) (v : Z) : list byte :=
  match w with
  | O => []
  | S w' => byte_of_Z v :: le_bytes w' (v / 256)
  end.

(** The memory of a contiguous one-dimensional array of elements. *)
Definition tobytes (d : np_dtype) (l : list Z) : list byte :=
  x ← l; le_bytes (itemsize d) x.

Definition b64_char (i : Z) : ascii :=
  ascii_of_N (Z.to_N
    (if i <? 26 then 65 + i
     else if i <? 52 then 97 + (i - 26)
     else if i <? 62 then 48 + (i - 52)
     else if i =? 62 then 43 else 47)).

Definition b64_digit (n : Z) (k : Z) : ascii := b64_char ((n / 64 ^ k) mod 64).

(** [base64.b64encode(x).decode('utf-8')] *)
Fixpoint base64encode (l : list byte) : string :=
  match l with
  | [] => EmptyString
  | [a] =>
      let n := Z_of_byte a * 65536 in
      String (b64_digit n 3) (String (b64_digit n 2) "==")
  | [a; b] =>
      let n := Z_of_byte a * 65536 + Z_of_byte b * 256 in
      String (b64_digit n 3) (String (b64_digit n 2) (String (b64_digit n 1) "="))
  | a :: b :: c :: rest =>
      let n := Z_of_byte a * 65536 + Z_of_byte b * 256 + Z_of_byte c in
      String (b64_digit n 3) (String (b64_digit n 2)
        (String (b64_digit n 1) (String (b64_digit n 0) (base64encode rest))))
  end.

(** ** VTKVolume *)

Record VTKVolume : Type := mk_VTKVolume {
  spacing : tuple3 Q;
  max_data_size : Q;
  origin : option (tuple3 Q);
  _sub_spacing : tuple3 Q
}.

Definition set_sub_spacing (self : VTKVolume) (sp : tuple3 Q) : VTKVolume :=
  {| spacing := spacing self;
     max_data_size := max_data_size self;
     origin := origin self;
     _sub_spacing := sp |}.

(** The volume transfer record built by [_volume_from_array]. *)
Record volume_data : Type := mk_volume_data {
  vd_buffer : string;
  vd_dims : tuple3 nat;
  vd_spacing : tuple3 Q;
  vd_origin : option (tuple3 Q);
  vd_data_range : Z * Z;
  vd_dtype : string
}.

(** [VTKVolume._volume_from_array] *)
Definition _volume_from_array (self : VTKVolume) (sub_array : ndarray)
  : result volume_data :=
  let buffer :=
    base64encode (tobytes (dtype sub_array)
      (if f_contiguous sub_array then ravel_F sub_array else ravel_C sub_array)) in
  let dims :=
    if f_contiguous sub_array then shape sub_array else rev3 (shape sub_array) in
  let sp :=
    if f_contiguous sub_array then _sub_spacing self else rev3 (_sub_spacing self) in
  lo ← nd_min sub_array;
  hi ← nd_max sub_array;
  mret {| vd_buffer := buffer;
          vd_dims := dims;
          vd_spacing := sp;
          vd_origin := origin self;
          vd_data_range := (lo, hi);
          vd_dtype := dtype_name (dtype sub_array) |}.

(** The shape of [scipy.ndimage.zoom(array, zoom)]: [int(round(n * z))] on
    each axis. *)
Definition zoom_shape (sh : tuple3 nat) (zoom : tuple3 Q) : tuple3 Z :=
  map3 (fun '(n, z) => py_round (inject_Z (Z.of_nat n) * z)) (zip3 sh zoom).

Section Subsampler.

(** [np.cbrt] *)
Variable np_cbrt : Q -> Q.

(** [scipy.ndimage], when it can be imported: the order-0 interpolation
    that fills the zoomed array, in C order.  [None] is the [ImportError]. *)
Variable scipy_ndimage : option (ndarray -> tuple3 Q -> list Z).

(** [scipy.ndimage.zoom(array, zoom, order=0)]: a new array in C layout
    whose shape is [int(round(n * z))] on each axis. *)
Definition nd_zoom (fill : ndarray -> tuple3 Q -> list Z)
    (array : ndarray) (zoom : tuple3 Q) : result ndarray :=
  let out := zoom_shape (shape array) zoom in
  let '(m0, m1, m2) := out in
  if (m0 <? 0) || (m1 <? 0) || (m2 <? 0) then Raise ValueError
  else Ok (c_array (dtype array) (map3 Z.to_nat out) (fill array zoom)).

(** The values computed before the branch of [_subsample_array]. *)
Definition max_shape_of (self : VTKVolume) (array : ndarray) : result (tuple3 Z) :=
  let original_shape := map3 Z.of_nat (shape array) in
  x ← py_div (inject_Z (nbytes array) / 1000000) (max_data_size self);
  let dim_ratio := np_cbrt x in
  mapM3 (fun o_s => int_of_np_div o_s dim_ratio) original_shape.

Definition dowsnscale_factor_of (self : VTKVolume) (array : ndarray)
  : result (tuple3 Q) :=
  let original_shape := map3 Z.of_nat (shape array) in
  max_shape ← max_shape_of self array;
  mapM3 (fun '(m_s, o_s) => py_div (inject_Z (Z.max o_s m_s)) (inject_Z m_s))
        (zip3 max_shape original_shape).

(** The [try]/[except ImportError] block. *)
Definition resample (array : ndarray) (dowsnscale_factor : tuple3 Q)
  : result ndarray :=
  match scipy_ndimage with
  | Some fill =>
      zoom ← mapM3 (fun d_f => py_div 1 d_f) dowsnscale_factor;
      nd_zoom fill array zoom
  | None => strided array (map3 py_ceil dowsnscale_factor)
  end.

(** [VTKVolume._subsample_array]: the returned array and [self] after the
    assignment to [self._sub_spacing]. *)
Definition _subsample_array (self : VTKVolume) (array : ndarray)
  : result (ndarray * VTKVolume) :=
  let original_shape := map3 Z.of_nat (shape array) in
  let extent :=
    map3 (fun '(o_s, s) => inject_Z (o_s - 1) * s)%Q
         (zip3 original_shape (spacing self)) in
  dowsnscale_factor ← dowsnscale_factor_of self array;
  if any3 (map3 (fun d_f => Qgtb d_f 1) dowsnscale_factor) then
    sub_array ← resample array dowsnscale_factor;
    sub_spacing ← mapM3 (fun '(e, s) => py_div e (inject_Z (Z.of_nat s - 1)))
                        (zip3 extent (shape sub_array));
    mret (sub_array, set_sub_spacing self sub_spacing)
  else
    mret (array, set_sub_spacing self (spacing self)).

End Subsampler.

(** ** Python values of a property tree *)

Inductive pyval : Type :=
| PNone
| PBool (b : bool)
| PInt (n : Z)
| PFloat (x : Q)
| PStr (s : string)
| PList (l : list pyval)
| PDict (d : list (string * pyval)).

(** [d[k]] and [d[k] = v] on the items of a dict, kept in insertion order. *)
Fixpoint dict_get (d : list (string * pyval)) (k : string) : option pyval :=
  match d with
  | [] => None
  | (k', v) :: r => if String.eqb k k' then Some v else dict_get r k
  end.

Fixpoint dict_set (d : list (string * pyval)) (k : string) (v : pyval)
  : list (string * pyval) :=
  match d with
  | [] => [(k, v)]
  | (k', v') :: r =>
      if String.eqb k k' then (k, v) :: r else (k', v') :: dict_set r k v
  end.

(** [x[k]] *)
Definition getitem (x : pyval) (k : string) : result pyval :=
  match x with
  | PDict d =>
      match dict_get d k with
      | Some v => Ok v
      | None => Raise KeyError
      end
  | _ => Raise TypeError
  end.

(** [x[k] = v] *)
Definition setitem (x : pyval) (k : string) (v : pyval) : result pyval :=
  match x with
  | PDict d => Ok (PDict (dict_set d k v))
  | _ => Raise TypeError
  end.

(** ** The identity registry *)

Module Registry.

(** Modelled from the spec: the identity registry of the synchronisation
    context ([getOrAssignId], section 4.1), whose class lives in
    [synchronizable_serializer.py], which is not part of the sources.  An
    object is known by its identity (its address); identifiers are minted
    from a registry-wide monotonic counter. *)
Record t : Type := mk {
  next : nat;
  ids : gmap positive nat
}.

(** Modelled from the spec: the registry of a new session knows no
    object. *)
Definition empty : t := {| next := 0; ids := ∅ |}.

(** Modelled from the spec: [getOrAssignId(object)] returns the identifier
    recorded for this object if there is one; otherwise it mints the next
    identifier and records it. *)
Definition getOrAssignId (o : positive) (r : t) : nat * t :=
  match ids r !! o with
  | Some i => (i, r)
  | None => (next r, {| next := S (next r); ids := <[o := next r]> (ids r) |})
  end.

(** A session: the identifiers returned for a sequence of requests. *)
Fixpoint run (os : list positive) (r : t) : list nat * t :=
  match os with
  | [] => ([], r)
  | o :: os' =>
      let '(i, r1) := getOrAssignId o r in
      let '(l, r2) := run os' r1 in
      (i :: l, r2)
  end.

(** Every recorded identifier is below the counter, and no identifier is
    recorded for two objects. *)
Definition wf (r : t) : Prop :=
  (forall o i, ids r !! o = Some i -> (i < next r)%nat) /\
  (forall o1 o2 i, ids r !! o1 = Some i -> ids r !! o2 = Some i -> o1 = o2).

End Registry.

(** ** VTK: serialisation of a render window *)

(** What [getCachedDataArray] returns: base64 text, or bytes when
    [binary=True]. *)
Inductive payload : Type :=
| Text (s : string)
| Binary (b : list byte).

(** The bytes [writestr] stores for a payload: text is encoded first. *)
Definition payload_bytes (data : payload) : list byte :=
  match data with
  | Text s => list_byte_of_string s
  | Binary b => b
  end.

(** One member of a zip archive. *)
Inductive zip_method : Type := ZIP_STORED | ZIP_DEFLATED.

Record zip_entry : Type := mk_zip_entry {
  ze_name : string;
  ze_method : zip_method;
  ze_data : list byte
}.

(** The bokeh model of the pane, [VTKSynchronizedPlot]. *)
Record plot_model : Type := mk_plot_model {
  model_id : string;
  scene : pyval;
  arrays : gmap string payload;
  arrays_processed : list string
}.

Section VTK.

(** The render window, a VTK object, with its identity and the three calls
    made on it before a walk. *)
Variable vtkRenderWindow : Type.
Variable addr_of : vtkRenderWindow -> positive.
Variable OffScreenRenderingOn Modified Render : vtkRenderWindow -> vtkRenderWindow.

(** The arrays held by the cache of the synchronisation context. *)
Variable cached_array : Type.

(** The synchronisation context: the registry and the array cache. *)
Record SynchronizationContext : Type := mk_context {
  registry : Registry.t;
  dataArrayCache : gmap string cached_array
}.

(** [context.getReferenceId(instance)] *)
Definition getReferenceId (context : SynchronizationContext) (o : positive)
  : nat * SynchronizationContext :=
  let '(i, r) := Registry.getOrAssignId o (registry context) in
  (i, {| registry := r; dataArrayCache := dataArrayCache context |}).

(** The functions of [synchronizable_serializer.py] called by the pane:
    [serializeInstance(None, ren_win, id, context, 0)], which walks the scene
    and updates the context, [context.getCachedDataArray(name, binary,
    compression)] and [context.checkForArraysToRelease()]. *)
Variable serializeInstance :
  vtkRenderWindow -> nat -> SynchronizationContext -> pyval * SynchronizationContext.
Variable getCachedDataArray :
  SynchronizationContext -> string -> bool -> bool -> payload.
Variable checkForArraysToRelease : SynchronizationContext -> SynchronizationContext.

(** [name not in exclude_arrays] *)
Definition not_in (name : string) (exclude_arrays : list string) : bool :=
  negb (existsb (String.eqb name) exclude_arrays).

(** [VTK._serialize_ren_win]: the scene, the arrays, and the render window
    and the context as the call leaves them. *)
Definition _serialize_ren_win (ren_win : vtkRenderWindow)
    (context : SynchronizationContext) (exclude_arrays : option (list string))
  : result (pyval * gmap string payload * vtkRenderWindow * SynchronizationContext) :=
  let exclude_arrays :=
    match exclude_arrays with None => [] | Some l => l end in
  let ren_win := OffScreenRenderingOn ren_win in
  let ren_win := Modified ren_win in
  let ren_win := Render ren_win in
  let '(rid, context) := getReferenceId context (addr_of ren_win) in
  let '(scene, context) := serializeInstance ren_win rid context in
  properties ← getitem scene "properties";
  properties ← setitem properties "numberOfLayers" (PInt 2);
  scene ← setitem scene "properties" properties;
  let arrays :=
    map_imap (fun name _ =>
                if not_in name exclude_arrays
                then Some (getCachedDataArray context name false true)
                else None)
             (dataArrayCache context) in
  mret (scene, arrays, ren_win, context).

(** The scene and the context at the end of the walk made by
    [_serialize_ren_win]. *)
Definition walked (ren_win : vtkRenderWindow) (context : SynchronizationContext)
  : pyval * SynchronizationContext :=
  let ren_win := Render (Modified (OffScreenRenderingOn ren_win)) in
  let '(rid, context) := getReferenceId context (addr_of ren_win) in
  serializeInstance ren_win rid context.

(** The pane: its render window and the context of each model. *)
Record VTK : Type := mk_VTK {
  object : vtkRenderWindow;
  _contexts : gmap string SynchronizationContext
}.

(** [VTK._update] *)
Definition _update (self : VTK) (model : plot_model) : result (VTK * plot_model) :=
  match _contexts self !! model_id model with
  | None => Raise KeyError
  | Some context =>
      '(scene, arrays, ren_win, context) ←
        _serialize_ren_win (object self) context (Some (arrays_processed model));
      let context := checkForArraysToRelease context in
      mret ({| object := ren_win;
               _contexts := <[model_id model := context]> (_contexts self) |},
            {| model_id := model_id model;
               scene := scene;
               arrays := arrays;
               arrays_processed := arrays_processed model |})
  end.

(** [json.dumps] and zlib's deflate, as [zipfile] uses it. *)
Variable json_dumps : pyval -> string.
Variable deflate : list byte -> list byte.

(** [zf.writestr(name, data, compress_type)]: text is encoded first; the
    member is appended to the archive. *)
Definition writestr (zf : list zip_entry) (name : string) (data : payload)
    (compress_type : zip_method) : list zip_entry :=
  let raw := payload_bytes data in
  zf ++ [{| ze_name := name;
            ze_method := compress_type;
            ze_data := match compress_type with
                       | ZIP_STORED => raw
                       | ZIP_DEFLATED => deflate raw
                       end |}].

(** The members [export_scene] writes: the property tree, stored, and one
    deflated member for an array of the cache. *)
Definition index_entry (scene : pyval) : zip_entry :=
  {| ze_name := "index.json";
     ze_method := ZIP_STORED;
     ze_data := list_byte_of_string (json_dumps scene) |}.

Definition data_entry (context : SynchronizationContext) (name : string) : zip_entry :=
  {| ze_name := "data/" ++ name;
     ze_method := ZIP_DEFLATED;
     ze_data := deflate (payload_bytes (getCachedDataArray context name true false)) |}.

(** ['.' not in filename] *)
Fixpoint has_dot (s : string) : bool :=
  match s with
  | EmptyString => false
  | String c r => Ascii.eqb c "." || has_dot r
  end.

(** [VTK.export_scene], given the root model: the file name and the archive
    written under it.  The keys of the cache are visited in the order of
    [map_to_list]. *)
Definition export_scene (self : VTK) (root : plot_model) (filename : string)
  : result (string * list zip_entry) :=
  let filename := if has_dot filename then filename else (filename ++ ".sync")%string in
  match _contexts self !! model_id root with
  | None => Raise KeyError
  | Some context =>
      let scene := scene root in
      let hash_keys := dataArrayCache context in
      let zf := writestr [] "index.json" (Text (json_dumps scene)) ZIP_STORED in
      let zf :=
        fold_left (fun zf name =>
                     let data := getCachedDataArray context name true false in
                     writestr zf ("data/" ++ name)%string data ZIP_DEFLATED)
                  (fst <$> map_to_list hash_keys) zf in
      mret (filename, zf)
  end.

(** Reading a member back ([ZipFile.read]): the last member written under
    the name, inflated when it was deflated. *)
Variable inflate : list byte -> option (list byte).

Definition zip_read (zf : list zip_entry) (name : string) : option (list byte) :=
  match filter (fun e => ze_name e = name) (reverse zf) with
  | [] => None
  | e :: _ =>
      match ze_method e with
      | ZIP_STORED => Some (ze_data e)
      | ZIP_DEFLATED => inflate (ze_data e)
      end
  end.

(** [json.loads], applied to the text of a member. *)
Variable json_loads : string -> option pyval.

Definition read_json (zf : list zip_entry) (name : string) : option pyval :=
  data ← zip_read zf name; json_loads (string_of_list_byte data).

End VTK.

(** ** SyncHelpers: colour mappers *)

(** A Python number passed to [_rgb2hex]: an [int] (or a numpy integer) or a
    [float]. *)
Inductive pynum : Type :=
| PyInt (n : Z)
| PyFloat (x : Q).

Definition is_int (v : pynum) : bool :=
  match v with PyInt _ => true | PyFloat _ => false end.

Definition hex_digit (d : Z) : ascii :=
  ascii_of_N (Z.to_N (if d <? 10 then 48 + d else 97 + (d - 10))).

(** The hexadecimal digits of a non-negative integer, most significant
    first. *)
Fixpoint hex_digits (fuel : nat) (n : Z) (acc : string) : string :=
  match fuel with
  | O => acc
  | S fuel' =>
      let acc' := String (hex_digit (n mod 16)) acc in
      if n / 16 =? 0 then acc' else hex_digits fuel' (n / 16) acc'
  end.

Fixpoint zfill (w : nat) (s : string) : string :=
  match w with
  | O => s
  | S w' => if (String.length s <? w)%nat then zfill w' (String "0" s) else s
  end.

(** [format(n, '02x')] of an integer: the sign counts in the width. *)
Definition format_02x (n : Z) : string :=
  let digits := hex_digits (S (Z.to_nat (Z.log2 (Z.abs n)))) (Z.abs n) "" in
  if n <? 0 then String "-" (zfill 1 digits) else zfill 2 digits.

(** [format(v, '02x')] of a number: a float has no such format code. *)
Definition format_num_02x (v : pynum) : result string :=
  match v with
  | PyInt n => Ok (format_02x n)
  | PyFloat _ => Raise ValueError
  end.

(** [int(255 * v)] *)
Definition int_255 (v : pynum) : Z :=
  match v with
  | PyInt n => 255 * n
  | PyFloat x => py_int (255 * x)
  end.

(** [SyncHelpers._rgb2hex].  The test reads
    [isinstance(r, int_type) and (isinstance(g, int_type) is isinstance(b,
    int_type))]. *)
Definition _rgb2hex (r g b : pynum) : result string :=
  if is_int r && Bool.eqb (is_int g) (is_int b) then
    x ← format_num_02x r; y ← format_num_02x g; z ← format_num_02x b;
    mret ("#" ++ x ++ y ++ z)%string
  else
    mret ("#" ++ format_02x (int_255 r) ++ format_02x (int_255 g)
              ++ format_02x (int_255 b))%string.

(** The colour ['#rrggbb'] of the specification: two lowercase hexadecimal
    digits for each of red, green and blue. *)
Definition hex_pair (v : byte) : string :=
  String (hex_digit (Z_of_byte v / 16)) (String (hex_digit (Z_of_byte v mod 16)) "").

Definition hex_color (r g b : byte) : string :=
  ("#" ++ hex_pair r ++ hex_pair g ++ hex_pair b)%string.

(** A [vtkLookupTable]: the bytes of its RGBA table and its table range. *)
Record vtkLookupTable : Type := mk_lut {
  GetTable : list byte;
  GetTableRange : Q * Q
}.

(** A view-prop of the renderer, as far as [get_color_mappers] looks:
    [GetLookupTable()] is [None] when the actor has no lookup table. *)
Record view_prop : Type := mk_view_prop {
  IsA_vtkScalarBarActor : bool;
  GetLookupTable : option vtkLookupTable;
  GetTitle : string
}.

Record LinearColorMapper : Type := mk_mapper {
  low : Q;
  high : Q;
  name : string;
  palette : list string
}.

(** [np.frombuffer(table, dtype=np.uint8).reshape((-1, 4))]: the rows of four
    bytes; a length that four does not divide raises. *)
Fixpoint reshape_4 (l : list byte) : result (list (list byte)) :=
  match l with
  | [] => Ok []
  | r :: g :: b :: a :: rest =>
      rows ← reshape_4 rest; mret ([r; g; b; a] :: rows)
  | _ => Raise ValueError
  end.

(** [_rgb2hex] applied to the three components of a row of
    [rgba_arr[:, :3]]. *)
Definition rgb2hex_row (row : list byte) : result string :=
  match take 3 row with
  | [r; g; b] =>
      _rgb2hex (PyInt (Z_of_byte r)) (PyInt (Z_of_byte g)) (PyInt (Z_of_byte b))
  | _ => Raise TypeError
  end.

Fixpoint mapM {A B} (f : A -> result B) (l : list A) : result (list B) :=
  match l with
  | [] => Ok []
  | x :: r => y ← f x; ys ← mapM f r; mret (y :: ys)
  end.

(** The colour mapper built for one scalar-bar actor. *)
Definition color_mapper_of (view_prop : view_prop) : result LinearColorMapper :=
  match GetLookupTable view_prop with
  | None => Raise AttributeError
  | Some lut =>
      rgba_arr ← reshape_4 (GetTable lut);
      palette ← mapM rgb2hex_row rgba_arr;
      let '(low, high) := GetTableRange lut in
      let name := GetTitle view_prop in
      mret {| low := low; high := high; name := name; palette := palette |}
  end.

(** What the specification asks of the mapper of a scalar-bar actor: one
    colour per row of four bytes of the table, the alpha byte dropped, and
    the table range as [low] and [high]. *)
Definition mapper_matches (view_prop : view_prop) (cmap : LinearColorMapper) : Prop :=
  exists lut,
  GetLookupTable view_prop = Some lut /\
  let table := GetTable lut in
  (low cmap, high cmap) = GetTableRange lut /\
  name cmap = GetTitle view_prop /\
  length (palette cmap) = (length table / 4)%nat /\
  forall i, (i < length table / 4)%nat ->
    exists r g b,
      table !! (4 * i)%nat = Some r /\
      table !! (4 * i + 1)%nat = Some g /\
      table !! (4 * i + 2)%nat = Some b /\
      palette cmap !! i = Some (hex_color r g b).

(** The actor has a lookup table, and its table is made of rows of four
    bytes. *)
Definition has_rgba_table (view_prop : view_prop) : Prop :=
  exists lut,
    GetLookupTable view_prop = Some lut /\
    (length (GetTable lut) mod 4 = 0)%nat.

(** [SyncHelpers.get_color_mappers], over the view-props of the renderer. *)
Fixpoint get_color_mappers (view_props : list view_prop)
  : result (list LinearColorMapper) :=
  match view_props with
  | [] => Ok []
  | view_prop :: rest =>
      if IsA_vtkScalarBarActor view_prop then
        cmap ← color_mapper_of view_prop;
        cmaps ← get_color_mappers rest;
        mret (cmap :: cmaps)
      else get_color_mappers rest
  end.

(** What [_subsample_array] leaves behind, without the samples: the shape of
    the returned array and the stored sub-spacing. *)
Definition subsampled_geometry (r : result (ndarray * VTKVolume))
  : result (tuple3 nat * tuple3 Q) :=
  '(sub, self') ← r; mret (shape sub, _sub_spacing self').

(** ** Physical extent *)

(** The extent the subsampler works with: [(o_s - 1) * s] on each axis, the
    distance from the first sample to the last. *)
Definition extent_of (sh : tuple3 nat) (sp : tuple3 Q) : tuple3 Q :=
  map3 (fun '(n, s) => inject_Z (Z.of_nat n - 1) * s)%Q (zip3 sh sp).

(** The extent as the specification words it: the spacing multiplied by the
    sample count. *)
Definition extent_by_count (sh : tuple3 nat) (sp : tuple3 Q) : tuple3 Q :=
  map3 (fun '(n, s) => inject_Z (Z.of_nat n) * s)%Q (zip3 sh sp).

(** ** Concrete instances used by the examples *)

(** The largest [r] below [2^bits] with [r^3 <= n], bit by bit. *)
Fixpoint icbrt_aux (bits : nat) (n r : Z) : Z :=
  match bits with
  | O => r
  | S b =>
      let r' := r + 2 ^ Z.of_nat b in
      icbrt_aux b n (if r' ^ 3 <=? n then r' else r)
  end.

Definition icbrt (n : Z) : Z := icbrt_aux (S (Z.to_nat (Z.log2 n))) n 0.

(** A cube root to forty binary places, odd like [np.cbrt]. *)
Definition cbrt_approx (x : Q) : Q :=
  let r := icbrt (Qfloor (Qabs x * inject_Z (2 ^ 120))) in
  (if Qle_bool 0 x then 1 else -1) * (inject_Z r / inject_Z (2 ^ 40)).

(** A volume of [n0 * n1 * n2] bytes in C layout, every sample zero. *)
Definition zeros (sh : tuple3 nat) : ndarray :=
  let '(n0, n1, n2) := sh in
  c_array uint8 sh (repeat 0 (n0 * n1 * n2)%nat).

(** The volume [arange(24).reshape(2, 3, 4)]. *)
Definition arange24 : ndarray :=
  c_array uint8 (2, 3, 4)%nat (Z.of_nat <$> seq 0 24).

Definition pane (sp : tuple3 Q) (budget : Q) : VTKVolume :=
  {| spacing := sp; max_data_size := budget; origin := None; _sub_spacing := sp |}.

(** The order-0 zoom of a volume of zeros: zeros. *)
Definition zoom_zeros (a : ndarray) (z : tuple3 Q) : list Z :=
  let '(m0, m1, m2) := map3 Z.to_nat (zoom_shape (shape a) z) in
  repeat 0 (m0 * m1 * m2)%nat.

(** A scene for the examples: a render window is the list of its data
    arrays, by key; the walk caches them and returns a property tree naming
    the window and its arrays. *)
Definition toy_window : Type := list (string * list byte).

Definition toy_serializeInstance (ren_win : toy_window) (rid : nat)
    (context : SynchronizationContext (list byte))
  : pyval * SynchronizationContext (list byte) :=
  (PDict [("id", PInt (Z.of_nat rid));
          ("type", PStr "vtkRenderWindow");
          ("properties", PDict [("numberOfLayers", PInt 1)]);
          ("arrays", PList ((fun kv => PStr (fst kv)) <$> ren_win))],
   {| registry := registry _ context;
      dataArrayCache :=
        foldr (fun kv m => <[fst kv := snd kv]> m) (dataArrayCache _ context) ren_win |}).

(** A stand-in for deflate: a one-byte header before the stored bytes. *)
Definition toy_deflate (b : list byte) : list byte := x78 :: b.

Definition toy_inflate (b : list byte) : option (list byte) :=
  match b with
  | x78 :: r => Some r
  | _ => None
  end.

Definition toy_getCachedDataArray (context : SynchronizationContext (list byte))
    (name : string) (binary compression : bool) : payload :=
  let raw := default [] (dataArrayCache _ context !! name) in
  let data := if compression then toy_deflate raw else raw in
  if binary then Binary data else Text (base64encode data).

(** A printer and a reader of property trees for the examples: integers,
    strings, lists and dicts, in the layout of [json.dumps]. *)
Fixpoint toy_dumps (v : pyval) : string :=
  match v with
  | PNone => "null"
  | PBool true => "true"
  | PBool false => "false"
  | PInt n => pretty n
  | PFloat x => "NaN"
  | PStr s => String "034" (s ++ String "034" "")
  | PList l => "[" ++ String.concat ", " (toy_dumps <$> l) ++ "]"
  | PDict d =>
      "{" ++ String.concat ", "
               ((fun kv => String "034" (fst kv ++ String "034" ": ")
                             ++ toy_dumps (snd kv)) <$> d) ++ "}"
  end%string.

Definition toy_window0 : toy_window :=
  [("a1b2", [x01; x02; x03]); ("c3d4", [xff; x00])].

Definition toy_context0 : SynchronizationContext (list byte) :=
  {| registry := Registry.empty; dataArrayCache := ∅ |}.

(** [_serialize_ren_win] and [export_scene] over the toy scene. *)
Definition toy_serialize :=
  _serialize_ren_win toy_window (fun _ => 1%positive) id id id (list byte)
    toy_serializeInstance toy_getCachedDataArray.

Definition toy_export :=
  export_scene toy_window (list byte) toy_getCachedDataArray toy_dumps toy_deflate.

(** The context after a walk of the toy scene, the scene it yields, and the
    pane and the model that hold them. *)
Definition toy_context1 : SynchronizationContext (list byte) :=
  {| registry := {| Registry.next := 1; Registry.ids := {[1%positive := 0%nat]} |};
     dataArrayCache := <["a1b2" := [x01; x02; x03]]> (<["c3d4" := [xff; x00]]> ∅) |}.

Definition toy_scene1 : pyval :=
  PDict [("id", PInt 0);
         ("type", PStr "vtkRenderWindow");
         ("properties", PDict [("numberOfLayers", PInt 2)]);
         ("arrays", PList [PStr "a1b2"; PStr "c3d4"])].

Definition toy_pane1 : VTK toy_window (list byte) :=
  {| object := toy_window0; _contexts := {["m1" := toy_context1]} |}.

Definition toy_model1 : plot_model :=
  {| model_id := "m1"; scene := toy_scene1; arrays := ∅;
     arrays_processed := ["a1b2"; "c3d4"] |}.

(** The reader knows the one tree the examples export. *)
Definition toy_loads (expected : pyval) (s : string) : option pyval :=
  if String.eqb s (toy_dumps expected) then Some expected else None.

(** ** VTKVolume: the pane around the subsampler *)

(** [t[index]] for an index among 0, 1 and 2. *)
Definition nth3 {A} (t : tuple3 A) (index : nat) : A :=
  let '(a, b, c) := t in
  match index with
  | O => a
  | S O => b
  | _ => c
  end.

(** [slice_params = {'slice_i': 0, 'slice_j': 1, 'slice_k': 2}] *)
Definition slice_params (k : string) : option nat :=
  if String.eqb k "slice_i" then Some 0%nat
  else if String.eqb k "slice_j" then Some 1%nat
  else if String.eqb k "slice_k" then Some 2%nat
  else None.

(** [int(np.round(v * num / den))] for a value [v] of a message: numbers are
    scaled (a [bool] is an [int]), a zero [den] raises, and a value that is
    not a number has no [/]. *)
Definition scale_slice (v : pyval) (num den : Z) : result pyval :=
  match v with
  | PInt n =>
      q ← py_div (inject_Z (n * num)) (inject_Z den); mret (PInt (py_round q))
  | PBool b =>
      q ← py_div (inject_Z ((if b then 1 else 0) * num)) (inject_Z den);
      mret (PInt (py_round q))
  | PFloat x =>
      q ← py_div (x * inject_Z num) (inject_Z den); mret (PInt (py_round q))
  | _ => Raise TypeError
  end.

(** A value of a message between a pane and its model: a plain value, or a
    bokeh model, held as its properties. *)
Inductive msg_value : Type :=
| Plain (v : pyval)
| Model (props : list (string * pyval)).

(** [msg[k]] and [msg[k] = v] on the items of a message, kept in insertion
    order. *)
Fixpoint msg_get (msg : list (string * msg_value)) (k : string) : option msg_value :=
  match msg with
  | [] => None
  | (k', v) :: r => if String.eqb k k' then Some v else msg_get r k
  end.

Fixpoint msg_set (msg : list (string * msg_value)) (k : string) (v : msg_value)
  : list (string * msg_value) :=
  match msg with
  | [] => [(k, v)]
  | (k', v') :: r =>
      if String.eqb k k' then (k, v) :: r else (k', v') :: msg_set r k v
  end.

(** [int(np.round(v * num / den))] for a value of a message: a model has no
    [*]. *)
Definition scale_value (v : msg_value) (num den : Z) : result msg_value :=
  match v with
  | Plain p => Plain <$> scale_slice p num den
  | Model _ => Raise TypeError
  end.

Module AbstractVTK.

Section Base.

(** [PaneBase._process_param_change], of [panel/pane/base.py] and its
    parents, which are not part of the sources. *)
Variable PaneBase_process_param_change :
  list (string * msg_value) -> result (list (string * msg_value)).

(** [sys.modules['panel.models.vtk'].VTKAxes], applied to keyword arguments:
    [None] when the module is not loaded. *)
Variable VTKAxes : option (list (string * pyval) -> result (list (string * pyval))).

(** [AbstractVTK._process_param_change]: the axes given as a dict are
    replaced by the model built from them. *)
Definition _process_param_change (msg : list (string * msg_value))
  : result (list (string * msg_value)) :=
  msg ← PaneBase_process_param_change msg;
  match msg_get msg "axes" with
  | None | Some (Plain PNone) => Ok msg
  | Some axes =>
      match VTKAxes with
      | None => Raise KeyError
      | Some new_VTKAxes =>
          match axes with
          | Plain (PDict kwargs) =>
              props ← new_VTKAxes kwargs;
              Ok (msg_set msg "axes" (Model props))
          | _ => Raise TypeError
          end
      end
  end.

End Base.

End AbstractVTK.

(** Assignment to a [param.Integer] with inclusive bounds. *)
Definition set_integer (bounds : Z * Z) (v : Z) : result Z :=
  if (fst bounds <=? v) && (v <=? snd bounds) then Ok v else Raise ValueError.

Module Volume.

(** The bokeh model of the pane, [VTKVolumePlot], as far as [_update] writes
    it. *)
Record plot : Type := mk_plot {
  data : option volume_data
}.

(** The pane: its parameters, its object when it is a numpy array, and the
    attributes set by [_update].  An attribute that was never assigned is
    [None] here and its read raises [AttributeError]. *)
Record t : Type := mk {
  params : VTKVolume;
  object : option ndarray;
  _volume_data : option volume_data;
  _orginal_dimensions : option (tuple3 nat);
  _subsample_dimensions : option (tuple3 nat);
  slice_bounds : tuple3 (option (Z * Z));
  slice_i : Z;
  slice_j : Z;
  slice_k : Z
}.

(** Reading an attribute. *)
Definition getattr {A} (a : option A) : result A :=
  match a with
  | Some x => Ok x
  | None => Raise AttributeError
  end.

(** [VTKVolume._get_object_dimensions] *)
Definition _get_object_dimensions (self : t) : result (tuple3 nat) :=
  match object self with
  | Some array => Ok (shape array)
  | None => Raise AttributeError
  end.

(** The loop of [_process_param_change] and of [_process_property_change]
    over the items of the message: each slice position is scaled by
    [num[index] / den[index]]. *)
Fixpoint scale_items (self : t) (to_sub : bool) (msg : list (string * msg_value))
  : result (list (string * msg_value)) :=
  match msg with
  | [] => Ok []
  | (k, v) :: rest =>
      sub_dim ← getattr (_subsample_dimensions self);
      ori_dim ← getattr (_orginal_dimensions self);
      v' ← match slice_params k with
           | Some index =>
               if to_sub
               then scale_value v (Z.of_nat (nth3 sub_dim index))
                                  (Z.of_nat (nth3 ori_dim index))
               else scale_value v (Z.of_nat (nth3 ori_dim index))
                                  (Z.of_nat (nth3 sub_dim index))
           | None => Ok v
           end;
      rest' ← scale_items self to_sub rest;
      mret ((k, v') :: rest')
  end.

Section Messages.

(** The methods of [PaneBase], of [panel/pane/base.py] and its parents,
    which are not part of the sources, and the constructor of the axes
    model. *)
Variable PaneBase_process_param_change :
  list (string * msg_value) -> result (list (string * msg_value)).
Variable PaneBase_process_property_change :
  list (string * msg_value) -> result (list (string * msg_value)).
Variable VTKAxes : option (list (string * pyval) -> result (list (string * pyval))).

(** [VTKVolume._process_param_change]: after the call to [super], which is
    [AbstractVTK._process_param_change], positions in the original volume
    become positions in the subsampled one. *)
Definition _process_param_change (self : t) (msg : list (string * msg_value))
  : result (list (string * msg_value)) :=
  msg ← AbstractVTK._process_param_change PaneBase_process_param_change VTKAxes msg;
  match object self with
  | Some _ => scale_items self true msg
  | None => Ok msg
  end.

(** [VTKVolume._process_property_change]: after the call to [super], which
    [AbstractVTK] leaves to [PaneBase], positions in the subsampled volume
    become positions in the original one. *)
Definition _process_property_change (self : t) (msg : list (string * msg_value))
  : result (list (string * msg_value)) :=
  msg ← PaneBase_process_property_change msg;
  match object self with
  | Some _ => scale_items self false msg
  | None => Ok msg
  end.

End Messages.

Section Update.

Variable np_cbrt : Q -> Q.
Variable scipy_ndimage : option (ndarray -> tuple3 Q -> list Z).

(** [VTKVolume._get_volume_data] for an object that is [None] or a numpy
    array: the record, and the pane after [_subsample_array]. *)
Definition _get_volume_data (self : t) : result (option volume_data * t) :=
  match object self with
  | None => Ok (None, self)
  | Some array =>
      '(sub_array, p) ← _subsample_array np_cbrt scipy_ndimage (params self) array;
      volume ← _volume_from_array p sub_array;
      mret (Some volume,
            {| params := p; object := object self;
               _volume_data := _volume_data self;
               _orginal_dimensions := _orginal_dimensions self;
               _subsample_dimensions := _subsample_dimensions self;
               slice_bounds := slice_bounds self;
               slice_i := slice_i self; slice_j := slice_j self;
               slice_k := slice_k self |})
  end.

(** [VTKVolume._update] *)
Definition _update (self : t) (model : option plot) : result (t * option plot) :=
  '(volume_data, self) ← _get_volume_data self;
  self ←
    match volume_data with
    | Some volume =>
        dims ← _get_object_dimensions self;
        let bounds := map3 (fun n => (0, Z.of_nat n - 1)) dims in
        i ← set_integer (nth3 bounds 0) ((Z.of_nat (nth3 dims 0) - 1) / 2);
        j ← set_integer (nth3 bounds 1) ((Z.of_nat (nth3 dims 1) - 1) / 2);
        k ← set_integer (nth3 bounds 2) ((Z.of_nat (nth3 dims 2) - 1) / 2);
        mret {| params := params self; object := object self;
                _volume_data := Some volume;
                _orginal_dimensions := Some dims;
                _subsample_dimensions := Some (vd_dims volume);
                slice_bounds := map3 Some bounds;
                slice_i := i; slice_j := j; slice_k := k |}
    | None =>
        mret {| params := params self; object := object self;
                _volume_data := None;
                _orginal_dimensions := _orginal_dimensions self;
                _subsample_dimensions := _subsample_dimensions self;
                slice_bounds := slice_bounds self;
                slice_i := slice_i self; slice_j := slice_j self;
                slice_k := slice_k self |}
    end;
  mret (self, (fun _ => {| data := _volume_data self |}) <$> model).

End Update.

(** [VTKVolume.__init__] for given parameters and object, before the first
    [_update]. *)
Definition init (p : VTKVolume) (obj : option ndarray) : t :=
  {| params := set_sub_spacing p (spacing p); object := obj;
     _volume_data := None;
     _orginal_dimensions := None; _subsample_dimensions := None;
     slice_bounds := (None, None, None);
     slice_i := 0; slice_j := 0; slice_k := 0 |}.

End Volume.

(** ** VTKJS: a scene stored in a file *)

(** [s.endswith(suffix)] *)
Definition endswith (s suffix : string) : bool :=
  (String.length suffix <=? String.length s)%nat &&
  String.eqb (substring (String.length s - String.length suffix)
                        (String.length suffix) s) suffix.

Module VTKJS.

(** The object of the pane: a string, a file-like object with the bytes its
    [read()] has yet to return, or anything else. *)
Inductive obj : Type :=
| Str (s : string)
| FileLike (unread : list byte)
| Other.

(** The exceptions of this class: the local [vtkjs] read before any
    assignment, [f.write(None)], and a failure of [urlopen]. *)
Inductive error : Type :=
| UnboundLocalError
| WriteTypeError
| URLError.

Inductive outcome (A : Type) : Type :=
| Return (a : A)
| Throw (e : error).

Arguments Return {A} a.
Arguments Throw {A} e.

(** The pane: its object and the bytes it has cached. *)
Record t : Type := mk {
  object : option obj;
  _vtkjs : option (list byte)
}.

(** [VTKJS.__init__] *)
Definition init (o : option obj) : t := {| object := o; _vtkjs := None |}.

(** [VTKJS.applies]: [True] for a string that ends in ['.vtkjs'], and
    otherwise the [None] of a function that falls off its end. *)
Definition applies (o : obj) : option bool :=
  match o with
  | Str s => if endswith s ".vtkjs" then Some true else None
  | _ => None
  end.

Section World.

(** The files, by path, and [urlopen(url).read()], which may fail. *)
Variable urlopen : string -> option (list byte).

(** [isfile(path)], of [panel.util]. *)
Definition isfile (fs : gmap string (list byte)) (path : string) : bool :=
  bool_decide (is_Some (fs !! path)).

(** [VTKJS._get_vtkjs]: what it returns or raises, and the pane after it. *)
Definition _get_vtkjs (fs : gmap string (list byte)) (self : t)
  : outcome (option (list byte)) * t :=
  match _vtkjs self, object self with
  | None, Some o =>
      match o with
      | Str s =>
          if endswith s ".vtkjs" then
            if isfile fs s then
              let vtkjs := default [] (fs !! s) in
              (Return (Some vtkjs), {| object := object self; _vtkjs := Some vtkjs |})
            else
              match urlopen s with
              | Some vtkjs =>
                  (Return (Some vtkjs),
                   {| object := object self; _vtkjs := Some vtkjs |})
              | None => (Throw URLError, self)
              end
          else (Throw UnboundLocalError, self)
      | FileLike unread =>
          (Return (Some unread),
           {| object := Some (FileLike []); _vtkjs := Some unread |})
      | Other => (Throw UnboundLocalError, self)
      end
  | _, _ => (Return (_vtkjs self), self)
  end.

(** [VTKJS._update]: the [data] given to the model, and the pane. *)
Definition _update (fs : gmap string (list byte)) (self : t)
  : outcome (option string) * t :=
  let self := {| object := object self; _vtkjs := None |} in
  match _get_vtkjs fs self with
  | (Return vtkjs, self) => (Return (base64encode <$> vtkjs), self)
  | (Throw e, self) => (Throw e, self)
  end.

(** [VTKJS.export_vtkjs], for a [filename] that [open] accepts: the file is
    opened for writing, which empties it, before [_get_vtkjs] is called.
    Files are told apart by their path. *)
Definition export_vtkjs (fs : gmap string (list byte)) (self : t) (filename : string)
  : outcome unit * t * gmap string (list byte) :=
  let fs := <[filename := []]> fs in
  match _get_vtkjs fs self with
  | (Return (Some vtkjs), self) => (Return tt, self, <[filename := vtkjs]> fs)
  | (Return None, self) => (Throw WriteTypeError, self, fs)
  | (Throw e, self) => (Throw e, self, fs)
  end.

End World.

End VTKJS.

(** ** Reading a colour back *)

Definition hex_value (c : ascii) : option Z :=
  let n := Z.of_N (N_of_ascii c) in
  if (48 <=? n) && (n <=? 57) then Some (n - 48)
  else if (97 <=? n) && (n <=? 102) then Some (n - 87)
  else None.

(** The three components of a colour ['#rrggbb']. *)
Definition parse_hex_color (s : string) : option (Z * Z * Z) :=
  match s with
  | String "#" (String r1 (String r0 (String g1 (String g0
      (String b1 (String b0 EmptyString)))))) =>
      r1 ← hex_value r1; r0 ← hex_value r0;
      g1 ← hex_value g1; g0 ← hex_value g0;
      b1 ← hex_value b1; b0 ← hex_value b0;
      Some (16 * r1 + r0, 16 * g1 + g0, 16 * b1 + b0)
  | _ => None
  end.

(** ** Where exact arithmetic stands for binary64

    Floats are held as exact rationals.  The predicates below name inputs on
    which the exact value and the binary64 value of the source agree. *)

(** [int(q)] of a positive quotient: binary64 division is within a relative
    [2^-53] of the exact quotient [q], and its truncation is that of [q] when
    [q], enlarged by as much, stays below the next integer. *)
Definition truncates_exactly (q : Q) : Prop :=
  (q * (1 + (1 # 4503599627370496)) < inject_Z (Qfloor q) + 1)%Q.

(** A number whose product with 255 is finite in binary64: an integer, or a
    float below the value from which the product rounds to infinity. *)
Definition finite_255 (v : pynum) : Prop :=
  match v with
  | PyInt _ => True
  | PyFloat x => (Qabs (255 * x) < inject_Z (2 ^ 1024 - 2 ^ 970))%Q
  end.

(** A float whose product with 255 is exact in binary64: [a / 2^k] with
    [|a| < 2^45] and [k <= 1074]. *)
Definition exact_255 (x : Q) : Prop :=
  exists (a : Z) (k : nat),
    (k <= 1074)%nat /\ Z.abs a < 2 ^ 45 /\
    (x == inject_Z a / inject_Z (2 ^ Z.of_nat k))%Q.

(** ** Concrete instances of the further examples *)

(** A file system holding one scene, and a network that answers nothing. *)
Definition toy_fs : gmap string (list byte) :=
  {["scene.vtkjs"%string := [x01; x02; x03]]}.

Definition no_network (url : string) : option (list byte) := None.

(** A volume pane over 4 x 4 x 4 bytes with a budget of 8 bytes, as
    [__init__] leaves it before [_update]. *)
Definition toy_volume_pane : Volume.t :=
  Volume.init (pane (1, 1, 1)%Q (8 # 1000000)) (Some (zeros (4, 4, 4)%nat)).

(** A base class that passes every message on, and an axes model that
    keeps the properties it is given. *)
Definition toy_PaneBase (msg : list (string * msg_value))
  : result (list (string * msg_value)) := Ok msg.

Definition toy_VTKAxes
  : option (list (string * pyval) -> result (list (string * pyval))) :=
  Some (fun kwargs => Ok kwargs).

(** A walk that returns no dict. *)
Definition toy_broken_walk (ren_win : toy_window) (rid : nat)
    (context : SynchronizationContext (list byte))
  : pyval * SynchronizationContext (list byte) :=
  (PNone, context).

(** * Properties *)

(** ** The error monad *)

Ltac unfold_result :=
  unfold mbind, result_bind, mret, result_ret in *.

Lemma bind_Ok {A B} (m : result A) (f : A -> result B) (b : B) :
  (x ← m; f x) = Ok b -> exists a, m = Ok a /\ f a = Ok b.
Proof.
  unfold_result. destruct m as [a|e]; [eauto | discriminate].
Qed.

Lemma mapM3_Ok {A B} (f : A -> result B) (t : tuple3 A) (r : tuple3 B) :
  mapM3 f t = Ok r <-> Forall3_2 (fun a b => f a = Ok b) t r.
Proof.
  destruct t as [[a b] c], r as [[x y] z]. unfold mapM3, Forall3_2. simpl.
  unfold_result. split.
  - destruct (f a), (f b), (f c); try discriminate.
    intros [= -> -> ->]. auto.
  - intros (-> & -> & ->). reflexivity.
Qed.

Ltac bind_inv H :=
  let a := fresh "a" in
  let Ha := fresh "Ha" in
  apply bind_Ok in H; destruct H as (a & Ha & H).

(** ** Arithmetic of the subsampler *)

Lemma py_div_Ok (x y q : Q) :
  py_div x y = Ok q <-> ~ (y == 0)%Q /\ q = (x / y)%Q.
Proof.
  unfold py_div. destruct (Qeq_bool y 0) eqn:E.
  - apply Qeq_bool_eq in E. split; [discriminate | tauto].
  - apply Qeq_bool_neq in E. split.
    + intros [= <-]. auto.
    + intros [_ ->]. reflexivity.
Qed.

Lemma Qeq_bool_false (x y : Q) : ~ (x == y)%Q -> Qeq_bool x y = false.
Proof.
  intros H. apply not_true_iff_false. intros E. apply H. now apply Qeq_bool_eq.
Qed.

Lemma inject_Z_neq0 (m : Z) : ~ (inject_Z m == 0)%Q <-> m <> 0.
Proof. unfold Qeq. simpl. lia. Qed.

Lemma Qgtb_true (x y : Q) : Qgtb x y = true <-> (y < x)%Q.
Proof.
  unfold Qgtb. rewrite negb_true_iff, <- not_true_iff_false, Qle_bool_iff.
  split; [apply Qnot_le_lt | apply Qlt_not_le].
Qed.

Lemma Qgtb_false (x y : Q) : Qgtb x y = false <-> (x <= y)%Q.
Proof. unfold Qgtb. rewrite negb_false_iff. apply Qle_bool_iff. Qed.

Lemma Qdiv_Z_ge1 (a m : Z) : 0 < m -> m <= a -> (1 <= inject_Z a / inject_Z m)%Q.
Proof.
  intros Hm Ha. apply Qle_shift_div_l.
  - unfold Qlt. simpl. lia.
  - unfold Qle. simpl. lia.
Qed.

Lemma Qdiv_Z_nonpos (a m : Z) : 0 <= a -> m < 0 -> (inject_Z a / inject_Z m <= 0)%Q.
Proof.
  intros Ha Hm. destruct m as [|p|p]; try lia.
  unfold Qle, Qdiv, Qmult, Qinv. simpl. lia.
Qed.

(** A shrink factor is at least one, or it stems from a negative ratio and
    is at most zero. *)
Lemma shrink_factor_cases (o_s m_s : Z) (d_f : Q) :
  0 <= o_s ->
  py_div (inject_Z (Z.max o_s m_s)) (inject_Z m_s) = Ok d_f ->
  (0 < m_s /\ (1 <= d_f)%Q) \/ (m_s < 0 /\ (d_f <= 0)%Q).
Proof.
  intros Ho H. apply py_div_Ok in H as [Hm ->]. apply -> inject_Z_neq0 in Hm.
  destruct (Z.lt_trichotomy m_s 0) as [Hlt | [Heq | Hgt]]; [right | lia | left].
  - split; [assumption|]. rewrite Z.max_l by lia. now apply Qdiv_Z_nonpos.
  - split; [assumption|]. apply Qdiv_Z_ge1; lia.
Qed.

Lemma py_round_le (x : Q) (n : Z) : (x <= inject_Z n)%Q -> py_round x <= n.
Proof.
  intros Hx. unfold py_round. cbv zeta.
  pose proof (Qfloor_le x) as Hf.
  assert (Hfn : Qfloor x <= n).
  { rewrite <- (Qfloor_Z n). now apply Qfloor_resp_le. }
  destruct (Z.eq_dec (Qfloor x) n) as [E | NE].
  - assert (Hlt : (x - inject_Z (Qfloor x) < 1 # 2)%Q) by (rewrite E; lra).
    rewrite (proj1 (Qlt_alt _ _) Hlt). lia.
  - destruct (x - inject_Z (Qfloor x) ?= 1 # 2)%Q; [destruct (Z.even _) | |]; lia.
Qed.

Lemma slice_len_le (n : nat) (k : Z) : k <> 0 -> (slice_len n k <= n)%nat.
Proof.
  intros Hk. unfold slice_len.
  assert (Hd : (Z.of_nat n + Z.abs k - 1) / Z.abs k <= Z.of_nat n).
  { destruct n as [|n].
    - rewrite Z.div_small; lia.
    - apply Z.lt_succ_r. apply Z.div_lt_upper_bound; nia. }
  lia.
Qed.

(** For a positive step the strided axis has [ceil(n / k)] samples. *)
Lemma slice_len_ceil (n : nat) (k : Z) :
  0 < k -> Z.of_nat (slice_len n k) = Qceiling (Z.of_nat n # Z.to_pos k).
Proof.
  intros Hk. unfold slice_len, Qceiling, Qfloor. simpl.
  rewrite Z.abs_eq, Z2Pos.id by lia.
  rewrite Z2Nat.id by (apply Z.div_pos; lia).
  pose proof (Z.div_mod (- Z.of_nat n) k ltac:(lia)) as Hdm.
  pose proof (Z.mod_pos_bound (- Z.of_nat n) k Hk) as Hb.
  symmetry. apply Z.div_unique with (r := Z.of_nat n + k - 1 + (- Z.of_nat n / k) * k); nia.
Qed.

Lemma py_int_sign (n : Z) (x : Q) :
  0 <= n -> ~ (x == 0)%Q ->
  ((0 < x)%Q /\ 0 <= py_int (inject_Z n / x)) \/
  ((x < 0)%Q /\ py_int (inject_Z n / x) <= 0).
Proof.
  intros Hn Hx. destruct x as [[|p|p] d].
  - exfalso. apply Hx. reflexivity.
  - left. split; [reflexivity|]. unfold py_int. apply Z.quot_pos; simpl; lia.
  - right. split; [reflexivity|]. unfold py_int. simpl.
    replace (n * Z.neg d) with (- (n * Z.pos d)) by lia.
    rewrite Z.quot_opp_l by lia.
    apply Z.opp_nonpos_nonneg. apply Z.quot_pos; lia.
Qed.

(** The integer cube root used by the examples. *)
Lemma icbrt_aux_spec (bits : nat) (n r : Z) :
  0 <= r -> r ^ 3 <= n < (r + 2 ^ Z.of_nat bits) ^ 3 ->
  0 <= icbrt_aux bits n r /\
  icbrt_aux bits n r ^ 3 <= n < (icbrt_aux bits n r + 1) ^ 3.
Proof.
  revert r. induction bits as [|b IH]; intros r Hr H.
  - simpl in *. auto.
  - cbn [icbrt_aux]. assert (Hp : 0 < 2 ^ Z.of_nat b) by (apply Z.pow_pos_nonneg; lia).
    assert (E : 2 ^ Z.of_nat (S b) = 2 * 2 ^ Z.of_nat b).
    { rewrite Nat2Z.inj_succ, Z.pow_succ_r by lia. reflexivity. }
    rewrite E in H.
    destruct (Z.leb_spec ((r + 2 ^ Z.of_nat b) ^ 3) n) as [Hle | Hgt].
    + apply IH; [lia|]. split; [assumption|].
      replace (r + 2 ^ Z.of_nat b + 2 ^ Z.of_nat b) with (r + 2 * 2 ^ Z.of_nat b) by lia.
      apply H.
    + apply IH; [lia|]. lia.
Qed.

Lemma icbrt_spec (n : Z) :
  0 <= n -> 0 <= icbrt n /\ icbrt n ^ 3 <= n < (icbrt n + 1) ^ 3.
Proof.
  intros Hn. unfold icbrt. apply icbrt_aux_spec; [lia|].
  split; [lia|]. rewrite Z.add_0_l.
  set (b := S (Z.to_nat (Z.log2 n))).
  assert (Hb : Z.of_nat b = Z.succ (Z.log2 n)).
  { unfold b. rewrite Nat2Z.inj_succ, Z2Nat.id by apply Z.log2_nonneg. reflexivity. }
  assert (H1 : n < 2 ^ Z.of_nat b).
  { rewrite Hb. destruct (Z.eq_dec n 0) as [-> | Hne]; [reflexivity|].
    apply Z.log2_spec. lia. }
  assert (H2 : 0 < 2 ^ Z.of_nat b) by (apply Z.pow_pos_nonneg; lia).
  nia.
Qed.

(** ** The volume subsampler *)

Section SubsamplerProperties.

Variable np_cbrt : Q -> Q.
Variable scipy_ndimage : option (ndarray -> tuple3 Q -> list Z).


(** The target sizes of the three axes have one sign, that of the ratio. *)
Lemma max_shape_sign (self : VTKVolume) (array : ndarray) (ms : tuple3 Z) :
  max_shape_of np_cbrt self array = Ok ms ->
  Forall3 (fun m => 0 <= m) ms \/ Forall3 (fun m => m <= 0) ms.
Proof.
  unfold max_shape_of. intros H. bind_inv H. clear Ha.
  apply mapM3_Ok in H.
  destruct (shape array) as [[n0 n1] n2], ms as [[m0 m1] m2].
  unfold Forall3_2 in H. simpl in H. destruct H as (H0 & H1 & H2).
  unfold int_of_np_div in *.
  destruct (Qeq_bool (np_cbrt a) 0) eqn:E.
  { destruct (Z.of_nat n0 =? 0); discriminate. }
  apply Qeq_bool_neq in E.
  injection H0 as <-. injection H1 as <-. injection H2 as <-.
  destruct (py_int_sign (Z.of_nat n0) _ (Nat2Z.is_nonneg n0) E) as [[S0 ?]|[S0 ?]],
           (py_int_sign (Z.of_nat n1) _ (Nat2Z.is_nonneg n1) E) as [[S1 ?]|[S1 ?]],
           (py_int_sign (Z.of_nat n2) _ (Nat2Z.is_nonneg n2) E) as [[S2 ?]|[S2 ?]];
    simpl; try (left; tauto); try (right; tauto); lra.
Qed.

(** Every shrink factor is at least one, or every one is at most zero. *)
Lemma factors_cases (self : VTKVolume) (array : ndarray) (dfs : tuple3 Q) :
  dowsnscale_factor_of np_cbrt self array = Ok dfs ->
  Forall3 (fun d => (1 <= d)%Q) dfs \/ Forall3 (fun d => (d <= 0)%Q) dfs.
Proof.
  unfold dowsnscale_factor_of. intros H. bind_inv H. rename a into ms.
  apply max_shape_sign in Ha. apply mapM3_Ok in H.
  destruct (shape array) as [[n0 n1] n2], ms as [[m0 m1] m2], dfs as [[d0 d1] d2].
  unfold Forall3_2 in H. simpl in *. destruct H as (H0 & H1 & H2).
  apply shrink_factor_cases in H0, H1, H2; try apply Nat2Z.is_nonneg.
  destruct Ha as [Ha | Ha]; [left | right]; intuition lia.
Qed.

Lemma zoom_axis_le (n : nat) (d z : Q) :
  (1 <= d)%Q \/ (d <= 0)%Q ->
  py_div 1 d = Ok z ->
  (Z.to_nat (py_round (inject_Z (Z.of_nat n) * z)) <= n)%nat.
Proof.
  intros Hd Hz. apply py_div_Ok in Hz as [Hnz ->].
  assert (Hz : (1 / d <= 1)%Q).
  { destruct Hd as [Hd | Hd].
    - apply Qle_shift_div_r; lra.
    - assert (Hneg : (d < 0)%Q).
      { destruct (Qlt_le_dec d 0) as [|Hge]; [assumption|].
        exfalso. apply Hnz. apply Qle_antisym; assumption. }
      assert (0 < / - d)%Q by (apply Qinv_lt_0_compat; lra).
      assert (E : (1 / d == - / - d)%Q) by (field; assumption).
      rewrite E. lra. }
  assert (Hn : (0 <= inject_Z (Z.of_nat n))%Q).
  { unfold Qle. simpl. lia. }
  assert (Hle : (inject_Z (Z.of_nat n) * (1 / d) <= inject_Z (Z.of_nat n))%Q) by nra.
  apply py_round_le in Hle. lia.
Qed.

Lemma resample_shape_le (array sub : ndarray) (dfs : tuple3 Q) :
  Forall3 (fun d => (1 <= d)%Q \/ (d <= 0)%Q) dfs ->
  resample scipy_ndimage array dfs = Ok sub ->
  Forall3_2 (fun s o => (s <= o)%nat) (shape sub) (shape array).
Proof.
  intros Hd H. unfold resample in H.
  destruct dfs as [[d0 d1] d2]. destruct Hd as (Hd0 & Hd1 & Hd2).
  destruct scipy_ndimage as [fill|].
  - bind_inv H. destruct a as [[z0 z1] z2].
    apply mapM3_Ok in Ha. destruct Ha as (Hz0 & Hz1 & Hz2). simpl in *.
    unfold nd_zoom in H. destruct (shape array) as [[n0 n1] n2] eqn:Hs.
    simpl in H. destruct (_ || _ || _); [discriminate|].
    injection H as <-. unfold Forall3_2. simpl.
    split; [|split];
      [apply (zoom_axis_le _ d0) | apply (zoom_axis_le _ d1) | apply (zoom_axis_le _ d2)];
      assumption.
  - unfold strided in H. simpl in H.
    destruct (shape array) as [[n0 n1] n2], (strides array) as [[s0 s1] s2].
    destruct (_ || _ || _) eqn:E; [discriminate|].
    injection H as <-. unfold Forall3_2. simpl.
    apply orb_false_elim in E as [E E2]. apply orb_false_elim in E as [E0 E1].
    repeat split; apply slice_len_le; lia.
Qed.

(** C2. Whatever the budget and whichever way the array is resampled
    (zoom or strided fallback), no axis of the array returned by
    [_subsample_array] has more samples than the same axis of its input. *)
Theorem subsample_never_upscales (self self' : VTKVolume) (array sub : ndarray) :
  _subsample_array np_cbrt scipy_ndimage self array = Ok (sub, self') ->
  Forall3_2 (fun s o => (s <= o)%nat) (shape sub) (shape array).
Proof.
  unfold _subsample_array. intros H.
  bind_inv H. rename a into dfs.
  destruct (any3 _).
  - bind_inv H. rename a into s. bind_inv H. injection H as <- _.
    apply factors_cases in Ha.
    eapply resample_shape_le; [|eassumption].
    destruct dfs as [[d0 d1] d2]. simpl in *. tauto.
  - injection H as <- _.
    destruct (shape array) as [[n0 n1] n2]. unfold Forall3_2. simpl. lia.
Qed.

(** The shrink factors, when no division raises. *)
Lemma factors_eq (self : VTKVolume) (array : ndarray) :
  let dim_ratio :=
    np_cbrt (inject_Z (nbytes array) / 1000000 / max_data_size self)%Q in
  let shrink (o_s : Z) :=
    (inject_Z (Z.max o_s (py_int (inject_Z o_s / dim_ratio)))
     / inject_Z (py_int (inject_Z o_s / dim_ratio)))%Q in
  ~ (max_data_size self == 0)%Q ->
  ~ (dim_ratio == 0)%Q ->
  Forall3 (fun o_s => py_int (inject_Z o_s / dim_ratio) <> 0)
          (map3 Z.of_nat (shape array)) ->
  dowsnscale_factor_of np_cbrt self array = Ok (map3 shrink (map3 Z.of_nat (shape array))).
Proof.
  intros dim_ratio shrink Hb Hr Hax.
  unfold dowsnscale_factor_of, max_shape_of, py_div.
  rewrite (Qeq_bool_false _ _ Hb). unfold_result. fold dim_ratio.
  destruct (shape array) as [[n0 n1] n2].
  simpl in Hax. destruct Hax as (M0 & M1 & M2).
  unfold map3, zip3, mapM3, int_of_np_div.
  rewrite (Qeq_bool_false _ _ Hr).
  apply inject_Z_neq0 in M0, M1, M2.
  unfold_result. cbv beta iota.
  rewrite (Qeq_bool_false _ _ M0), (Qeq_bool_false _ _ M1), (Qeq_bool_false _ _ M2).
  reflexivity.
Qed.

(** C3. When the ratio [cbrt((nbytes / 1e6) / max_data_size)] gives every
    axis a shrink factor [max(o_s, m_s) / m_s] of at most one,
    [_subsample_array] returns its input array and stores the original
    spacing as the sub-spacing. *)
Theorem subsample_identity_within_budget (self : VTKVolume) (array : ndarray) :
  let dim_ratio :=
    np_cbrt (inject_Z (nbytes array) / 1000000 / max_data_size self)%Q in
  ~ (max_data_size self == 0)%Q ->
  ~ (dim_ratio == 0)%Q ->
  Forall3 (fun o_s =>
             let m_s := py_int (inject_Z o_s / dim_ratio) in
             m_s <> 0 /\ (inject_Z (Z.max o_s m_s) / inject_Z m_s <= 1)%Q)
          (map3 Z.of_nat (shape array)) ->
  exists self',
    _subsample_array np_cbrt scipy_ndimage self array = Ok (array, self') /\
    _sub_spacing self' = spacing self /\
    spacing self' = spacing self.
Proof.
  intros dim_ratio Hb Hr Hax.
  exists (set_sub_spacing self (spacing self)). split; [|split; reflexivity].
  unfold _subsample_array. rewrite factors_eq; try assumption.
  - fold dim_ratio. destruct (shape array) as [[n0 n1] n2].
    simpl in Hax. destruct Hax as ((M0 & D0) & (M1 & D1) & (M2 & D2)).
    unfold_result. simpl.
    rewrite !(proj2 (Qgtb_false _ _)) by assumption. reflexivity.
  - fold dim_ratio. destruct (shape array) as [[n0 n1] n2].
    simpl in *. tauto.
Qed.

(** The spacing stored after a resampling: the extent divided by one less
    than the new sample count, on an axis that keeps two samples or more. *)
Lemma sub_spacing_axis (e q : Q) (s : nat) :
  py_div e (inject_Z (Z.of_nat s - 1)) = Ok q ->
  s <> 1%nat /\ q = (e / inject_Z (Z.of_nat s - 1))%Q /\
  (q * inject_Z (Z.of_nat s - 1) == e)%Q.
Proof.
  intros H. apply py_div_Ok in H as [Hnz ->].
  split; [|split; [reflexivity | field; assumption]].
  intros ->. apply Hnz. reflexivity.
Qed.

(** C1, amended. Whenever [_subsample_array] returns, the stored sub-spacing
    multiplied by one less than the new sample count equals, on each axis,
    the original extent [(o_s - 1) * s]; and when a shrink factor exceeds
    one, the sub-spacing is that extent divided by one less than the new
    sample count, every axis of the result keeping two samples or more. *)
Theorem subsample_preserves_extent (self self' : VTKVolume) (array sub : ndarray) :
  _subsample_array np_cbrt scipy_ndimage self array = Ok (sub, self') ->
  Forall3_2 (fun e' e => (e' == e)%Q)
            (extent_of (shape sub) (_sub_spacing self'))
            (extent_of (shape array) (spacing self)) /\
  (forall dfs,
     dowsnscale_factor_of np_cbrt self array = Ok dfs ->
     any3 (map3 (fun d_f => Qgtb d_f 1) dfs) = true ->
     Forall3 (fun s => s <> 1%nat) (shape sub) /\
     _sub_spacing self' =
       map3 (fun '(e, s) => e / inject_Z (Z.of_nat s - 1))%Q
            (zip3 (extent_of (shape array) (spacing self)) (shape sub))).
Proof.
  unfold _subsample_array. intros H. bind_inv H. rename a into dfs.
  destruct (any3 _) eqn:Hany.
  - bind_inv H. rename a into s. bind_inv H. rename a into sp.
    injection H as <- <-. apply mapM3_Ok in Ha1.
    destruct (shape array) as [[n0 n1] n2], (spacing self) as [[p0 p1] p2],
             (shape s) as [[m0 m1] m2], sp as [[q0 q1] q2].
    unfold Forall3_2 in Ha1. simpl in Ha1. destruct Ha1 as (H0 & H1 & H2).
    apply sub_spacing_axis in H0 as (N0 & E0 & X0), H1 as (N1 & E1 & X1),
      H2 as (N2 & E2 & X2).
    split.
    + unfold Forall3_2. simpl. rewrite <- X0, <- X1, <- X2.
      repeat split; ring.
    + intros dfs' _ _. simpl. split; [tauto|]. now rewrite E0, E1, E2.
  - injection H as <- <-. split.
    + destruct (shape array) as [[n0 n1] n2], (spacing self) as [[p0 p1] p2].
      unfold Forall3_2. simpl. repeat split; reflexivity.
    + intros dfs' Hd Hgt. rewrite Ha in Hd. injection Hd as <-. congruence.
Qed.

(** The resampling block does not raise when [scipy.ndimage] is missing:
    every stride is at least one, and the result is the strided view, whose
    sample [(i, j, k)] is the sample [(i*k0, j*k1, k*k2)] of the input. *)
Lemma fallback_is_strided (self : VTKVolume) (array : ndarray) (dfs : tuple3 Q) :
  scipy_ndimage = None ->
  dowsnscale_factor_of np_cbrt self array = Ok dfs ->
  any3 (map3 (fun d_f => Qgtb d_f 1) dfs) = true ->
  let k := map3 py_ceil dfs in
  Forall3 (fun k => 1 <= k) k /\
  exists sub,
    resample scipy_ndimage array dfs = Ok sub /\
    strided array k = Ok sub /\
    shape sub = map3 (fun '(n, k) => slice_len n k) (zip3 (shape array) k) /\
    forall ix, item sub ix =
               item array (map3 (fun '(i, k) => (i * Z.to_nat k)%nat) (zip3 ix k)).
Proof.
  intros Hnone Hf Hany k.
  assert (Hk : Forall3 (fun k => 1 <= k) k).
  { apply factors_cases in Hf. subst k. destruct dfs as [[d0 d1] d2].
    assert (Hc : forall d, (1 <= d)%Q -> 1 <= py_ceil d).
    { intros d Hd. unfold py_ceil. rewrite <- (Qceiling_Z 1).
      now apply Qceiling_resp_le. }
    destruct Hf as [(H0 & H1 & H2) | (H0 & H1 & H2)].
    - simpl. auto.
    - exfalso. simpl in Hany.
      apply orb_prop in Hany as [Hany | Hany];
        [apply orb_prop in Hany as [Hany | Hany]|];
        apply Qgtb_true in Hany; lra. }
  split; [exact Hk|].
  unfold resample. rewrite Hnone. fold k.
  destruct k as [[k0 k1] k2]. destruct Hk as (K0 & K1 & K2).
  unfold strided.
  destruct (shape array) as [[n0 n1] n2] eqn:Hs,
           (strides array) as [[s0 s1] s2] eqn:Hst.
  replace ((k0 =? 0) || (k1 =? 0) || (k2 =? 0)) with false
    by (symmetry; rewrite !orb_false_iff, !Z.eqb_neq; lia).
  eexists. split; [reflexivity|]. split; [reflexivity|]. split; [reflexivity|].
  intros [[i j] l]. unfold item. simpl. rewrite Hst.
  replace (k0 <? 0) with false by (symmetry; apply Z.ltb_ge; lia).
  replace (k1 <? 0) with false by (symmetry; apply Z.ltb_ge; lia).
  replace (k2 <? 0) with false by (symmetry; apply Z.ltb_ge; lia).
  simpl. f_equal. f_equal. rewrite !Nat2Z.inj_mul, !Z2Nat.id by lia. ring.
Qed.

(** C4. When [scipy.ndimage] is missing and some shrink factor exceeds 1,
    the resampling block raises nothing and yields the strided view
    [array[::k0, ::k1, ::k2]] with [k = ceil(d_f)] on each axis: every stride
    is at least one, an axis of [n] samples keeps [ceil(n / k)] of them, and
    the sample [(i, j, l)] of the view is the sample [(i*k0, j*k1, l*k2)] of
    the input.  Whenever the subsampler returns, that view is the array it
    returns. *)
Theorem subsample_fallback_strided (self : VTKVolume) (array : ndarray)
    (dfs : tuple3 Q) :
  scipy_ndimage = None ->
  dowsnscale_factor_of np_cbrt self array = Ok dfs ->
  any3 (map3 (fun d_f => Qgtb d_f 1) dfs) = true ->
  let k := map3 py_ceil dfs in
  Forall3 (fun k => 1 <= k) k /\
  exists sub,
    resample scipy_ndimage array dfs = Ok sub /\
    Forall3_2 (fun s '(n, k) => Z.of_nat s = Qceiling (Z.of_nat n # Z.to_pos k))
              (shape sub) (zip3 (shape array) k) /\
    (forall ix, item sub ix =
                item array (map3 (fun '(i, k) => (i * Z.to_nat k)%nat) (zip3 ix k))) /\
    (forall sub' self',
       _subsample_array np_cbrt scipy_ndimage self array = Ok (sub', self') ->
       sub' = sub).
Proof.
  intros Hnone Hf Hany k.
  destruct (fallback_is_strided self array dfs Hnone Hf Hany)
    as (Hk & sub & Hres & _ & Hshape & Hitem).
  fold k in Hk, Hshape, Hitem.
  split; [exact Hk|]. exists sub. split; [exact Hres|]. split; [|split].
  - rewrite Hshape. destruct (shape array) as [[n0 n1] n2], k as [[k0 k1] k2].
    destruct Hk as (K0 & K1 & K2). unfold Forall3_2. simpl.
    repeat split; apply slice_len_ceil; lia.
  - exact Hitem.
  - intros sub' self' H. unfold _subsample_array in H. rewrite Hf in H.
    unfold_result. rewrite Hany, Hres in H.
    destruct (mapM3 _ _) in H; [|discriminate]. now injection H as <- _.
Qed.

End SubsamplerProperties.

(** *** The subsampler on concrete volumes *)

(** A volume of 4 x 4 x 4 bytes against a budget of 8 bytes: the ratio is
    2 and the strided fallback keeps every second sample. *)
Lemma subsample_never_upscales_witness :
  exists sub self',
    _subsample_array cbrt_approx None (pane (1, 1, 1)%Q (8 # 1000000))
                     (zeros (4, 4, 4)%nat) = Ok (sub, self') /\
    shape sub = (2, 2, 2)%nat /\
    Forall3_2 (fun s o => (s <= o)%nat) (shape sub) (4, 4, 4)%nat.
Proof.
  eexists. eexists. split; [vm_compute; reflexivity|].
  split; [reflexivity|].
  eapply (subsample_never_upscales cbrt_approx None
            (pane (1, 1, 1)%Q (8 # 1000000)) _ (zeros (4, 4, 4)%nat) _).
  vm_compute. reflexivity.
Defined.

(** The same volume against a budget of one megabyte is returned as it is. *)
Lemma subsample_identity_within_budget_witness :
  exists self',
    _subsample_array cbrt_approx None (pane (1, 1, 1)%Q 1) (zeros (4, 4, 4)%nat)
      = Ok (zeros (4, 4, 4)%nat, self') /\
    _sub_spacing self' = (1, 1, 1)%Q /\
    spacing self' = (1, 1, 1)%Q.
Proof.
  apply (subsample_identity_within_budget cbrt_approx None
           (pane (1, 1, 1)%Q 1) (zeros (4, 4, 4)%nat)).
  - vm_compute. discriminate.
  - vm_compute. discriminate.
  - vm_compute. repeat split; discriminate.
Defined.

Lemma subsample_preserves_extent_witness :
  exists sub self',
    _subsample_array cbrt_approx None (pane (1, 1, 1)%Q (8 # 1000000))
                     (zeros (4, 4, 4)%nat) = Ok (sub, self') /\
    _sub_spacing self' = (3, 3, 3)%Q /\
    Forall3_2 (fun e' e => (e' == e)%Q)
              (extent_of (shape sub) (_sub_spacing self'))
              (extent_of (4, 4, 4)%nat (1, 1, 1)%Q).
Proof.
  eexists. eexists. split; [vm_compute; reflexivity|].
  split; [reflexivity|].
  eapply (subsample_preserves_extent cbrt_approx None
            (pane (1, 1, 1)%Q (8 # 1000000)) _ (zeros (4, 4, 4)%nat) _).
  vm_compute. reflexivity.
Defined.

(** C1 as stated fails.  A volume of 512 x 512 x 512 bytes with spacing
    (1, 1, 1) against a budget of 64 MB is zoomed to 400 x 400 x 400 samples
    of spacing 511/399: the spacing multiplied by the sample count is
    204400/399 = 512.28..., which is neither the extent 512 of the
    specification nor the extent 511 of the code. *)
Lemma subsample_extent_by_count_counterexample :
  let self := pane (1, 1, 1)%Q 64 in
  let array := zeros (512, 512, 512)%nat in
  let x := (inject_Z (nbytes array) / 1000000 / 64)%Q in
  (64 < inject_Z (nbytes array) / 1000000)%Q /\
  (cbrt_approx x ^ 3 <= x < (cbrt_approx x + 1 / inject_Z (2 ^ 40)) ^ 3)%Q /\
  exists sh sp,
    subsampled_geometry
      (_subsample_array cbrt_approx (Some zoom_zeros) self array) = Ok (sh, sp) /\
    sh = (400, 400, 400)%nat /\
    sp = (511 # 399, 511 # 399, 511 # 399) /\
    Forall3 (fun e => (1 # 4 < e - 512)%Q) (extent_by_count sh sp) /\
    ~ Forall3_2 (fun e' e => (e' == e)%Q)
        (extent_by_count sh sp) (extent_by_count (512, 512, 512)%nat (1, 1, 1)%Q) /\
    ~ Forall3_2 (fun e' e => (e' == e)%Q)
        (extent_by_count sh sp) (extent_of (512, 512, 512)%nat (1, 1, 1)%Q).
Proof.
  split; [reflexivity|].
  split; [split; lazy; [discriminate | reflexivity]|].
  exists (400, 400, 400)%nat, (511 # 399, 511 # 399, 511 # 399).
  split; [lazy; reflexivity|].
  split; [reflexivity|]. split; [reflexivity|].
  split; [|split].
  - repeat split.
  - intros (H & _). revert H. vm_compute. discriminate.
  - intros (H & _). revert H. vm_compute. discriminate.
Qed.

(** The volume [arange(64).reshape(4, 4, 4)] against a budget of 8 bytes,
    without [scipy]: the shrink factors are (2, 2, 2) and the subsampler
    returns the view of every second sample. *)
Lemma subsample_fallback_strided_witness :
  exists sub self',
    _subsample_array cbrt_approx None (pane (1, 1, 1)%Q (8 # 1000000))
                     (c_array uint8 (4, 4, 4)%nat (Z.of_nat <$> seq 0 64))
      = Ok (sub, self') /\
    shape sub = (2, 2, 2)%nat /\
    ravel_C sub = [0; 2; 8; 10; 32; 34; 40; 42] /\
    forall i j l,
      item sub (i, j, l) =
      item (c_array uint8 (4, 4, 4)%nat (Z.of_nat <$> seq 0 64))
           (i * 2, j * 2, l * 2)%nat.
Proof.
  destruct (subsample_fallback_strided cbrt_approx None
              (pane (1, 1, 1)%Q (8 # 1000000))
              (c_array uint8 (4, 4, 4)%nat (Z.of_nat <$> seq 0 64))
              (4 # 2, 4 # 2, 4 # 2)%Q eq_refl)
    as (_ & sub & Hres & _ & Hitem & Hret).
  - vm_compute. reflexivity.
  - vm_compute. reflexivity.
  - assert (Hrun : exists sub' self',
              _subsample_array cbrt_approx None (pane (1, 1, 1)%Q (8 # 1000000))
                (c_array uint8 (4, 4, 4)%nat (Z.of_nat <$> seq 0 64))
              = Ok (sub', self') /\
              shape sub' = (2, 2, 2)%nat /\
              ravel_C sub' = [0; 2; 8; 10; 32; 34; 40; 42]).
    { eexists. eexists. split; [vm_compute; reflexivity|].
      split; vm_compute; reflexivity. }
    destruct Hrun as (sub' & self' & Hrun & Hshape & Hravel).
    pose proof (Hret sub' self' Hrun) as ->.
    exists sub, self'. split; [exact Hrun|]. split; [exact Hshape|].
    split; [exact Hravel|]. intros i j l. exact (Hitem (i, j, l)).
Defined.

(** A thin volume.  For 3 x 400 x 400 bytes against a budget of 0.06 MB,
    without [scipy], the shrink factors are (3, 2, 2); the strided fallback
    succeeds and keeps 1 x 200 x 200 samples; the spacing [e / (s - 1)] of
    the first axis, computed after it, then divides by zero. *)
Lemma subsample_fallback_thin_axis_raises :
  let self := pane (1, 1, 1)%Q (6 # 100) in
  let array := zeros (3, 400, 400)%nat in
  (cbrt_approx (inject_Z (nbytes array) / 1000000 / (6 # 100)) == 2)%Q /\
  dowsnscale_factor_of cbrt_approx self array = Ok (3, 400 # 200, 400 # 200)%Q /\
  (shape <$> resample None array (3, 400 # 200, 400 # 200)%Q)
    = Ok (1, 200, 200)%nat /\
  _subsample_array cbrt_approx None self array = Raise ZeroDivisionError.
Proof.
  repeat split; vm_compute; reflexivity.
Qed.

(** ** The volume transfer record *)

Lemma bind_seq_length {A} (f : nat -> list A) (m n s : nat) :
  (forall x, length (f x) = m) -> length (seq s n ≫= f) = (n * m)%nat.
Proof.
  intros Hf. revert s. induction n as [|n IH]; intros s; [reflexivity|].
  cbn. rewrite length_app, Hf, IH. reflexivity.
Qed.

Lemma bind_seq_lookup {A} (f : nat -> list A) (m n s i j : nat) :
  (forall x, length (f x) = m) -> (i < n)%nat -> (j < m)%nat ->
  (seq s n ≫= f) !! (i * m + j)%nat = f (s + i)%nat !! j.
Proof.
  intros Hf. revert s i. induction n as [|n IH]; intros s i Hi Hj; [lia|].
  cbn. destruct i as [|i].
  - rewrite lookup_app_l by (rewrite Hf; lia). now rewrite Nat.add_0_r.
  - rewrite lookup_app_r by (rewrite Hf; lia). rewrite Hf.
    replace (S i * m + j - m)%nat with (i * m + j)%nat by lia.
    rewrite IH by lia. f_equal. f_equal. lia.
Qed.

Lemma indices_C_length (n0 n1 n2 : nat) :
  length (indices_C (n0, n1, n2)) = (n0 * n1 * n2)%nat.
Proof.
  unfold indices_C. rewrite (bind_seq_length _ (n1 * n2)); [lia|].
  intros i. rewrite (bind_seq_length _ n2); [lia|].
  intros j. rewrite (bind_seq_length _ 1); [lia | reflexivity].
Qed.

Lemma indices_F_length (n0 n1 n2 : nat) :
  length (indices_F (n0, n1, n2)) = (n0 * n1 * n2)%nat.
Proof.
  unfold indices_F. rewrite (bind_seq_length _ (n1 * n0)); [lia|].
  intros k. rewrite (bind_seq_length _ n0); [lia|].
  intros j. rewrite (bind_seq_length _ 1); [lia | reflexivity].
Qed.

(** In C order the last index runs fastest. *)
Lemma indices_C_lookup (n0 n1 n2 i j k : nat) :
  in_range (i, j, k) (n0, n1, n2) ->
  indices_C (n0, n1, n2) !! ((i * n1 + j) * n2 + k)%nat = Some (i, j, k).
Proof.
  intros (Hi & Hj & Hk). unfold indices_C.
  replace ((i * n1 + j) * n2 + k)%nat with (i * (n1 * n2) + (j * n2 + k))%nat by lia.
  rewrite (bind_seq_lookup _ (n1 * n2)); [| |assumption|nia].
  - rewrite (bind_seq_lookup _ n2); [| |assumption|assumption].
    + replace k with (k * 1 + 0)%nat at 1 by lia.
      rewrite (bind_seq_lookup _ 1); [reflexivity|reflexivity|assumption|lia].
    + intros y. rewrite (bind_seq_length _ 1); [lia | reflexivity].
  - intros x. rewrite (bind_seq_length _ n2); [lia|].
    intros y. rewrite (bind_seq_length _ 1); [lia | reflexivity].
Qed.

(** In Fortran order the first index runs fastest. *)
Lemma indices_F_lookup (n0 n1 n2 i j k : nat) :
  in_range (i, j, k) (n0, n1, n2) ->
  indices_F (n0, n1, n2) !! (i + n0 * (j + n1 * k))%nat = Some (i, j, k).
Proof.
  intros (Hi & Hj & Hk). unfold indices_F.
  replace (i + n0 * (j + n1 * k))%nat with (k * (n1 * n0) + (j * n0 + i))%nat by lia.
  rewrite (bind_seq_lookup _ (n1 * n0)); [| |assumption|nia].
  - rewrite (bind_seq_lookup _ n0); [| |assumption|assumption].
    + replace i with (i * 1 + 0)%nat at 1 by lia.
      rewrite (bind_seq_lookup _ 1); [reflexivity|reflexivity|assumption|lia].
    + intros y. rewrite (bind_seq_length _ 1); [lia | reflexivity].
  - intros x. rewrite (bind_seq_length _ n0); [lia|].
    intros y. rewrite (bind_seq_length _ 1); [lia | reflexivity].
Qed.

Lemma indices_C_elem (sh ix : tuple3 nat) :
  ix ∈ indices_C sh <-> in_range ix sh.
Proof.
  destruct sh as [[n0 n1] n2], ix as [[i j] k]. split.
  - unfold indices_C. intros H.
    apply list_elem_of_bind in H as (i' & H & Hi).
    apply list_elem_of_bind in H as (j' & H & Hj).
    apply list_elem_of_bind in H as (k' & H & Hk).
    apply list_elem_of_singleton in H. injection H as -> -> ->.
    apply elem_of_seq in Hi, Hj, Hk. simpl. lia.
  - intros H. apply list_elem_of_lookup. eexists. now apply indices_C_lookup.
Qed.

Lemma fold_min_spec (l : list Z) (x : Z) :
  let m := fold_left Z.min l x in
  m ∈ x :: l /\ forall y, y ∈ x :: l -> m <= y.
Proof.
  revert x. induction l as [|a l IH]; intros x; simpl.
  - split; [left|]. intros y Hy. apply list_elem_of_singleton in Hy. lia.
  - destruct (IH (Z.min x a)) as [Hin Hle]. split.
    + apply elem_of_cons in Hin as [-> | Hin].
      * destruct (Z.min_spec x a) as [[_ ->] | [_ ->]]; [left | right; left].
      * right. now right.
    + intros y Hy. apply elem_of_cons in Hy as [-> | Hy].
      * pose proof (Hle (Z.min x a) ltac:(left)). lia.
      * apply elem_of_cons in Hy as [-> | Hy].
        -- pose proof (Hle (Z.min x a) ltac:(left)). lia.
        -- apply Hle. now right.
Qed.

Lemma fold_max_spec (l : list Z) (x : Z) :
  let m := fold_left Z.max l x in
  m ∈ x :: l /\ forall y, y ∈ x :: l -> y <= m.
Proof.
  revert x. induction l as [|a l IH]; intros x; simpl.
  - split; [left|]. intros y Hy. apply list_elem_of_singleton in Hy. lia.
  - destruct (IH (Z.max x a)) as [Hin Hle]. split.
    + apply elem_of_cons in Hin as [-> | Hin].
      * destruct (Z.max_spec x a) as [[_ ->] | [_ ->]]; [right; left | left].
      * right. now right.
    + intros y Hy. apply elem_of_cons in Hy as [-> | Hy].
      * pose proof (Hle (Z.max x a) ltac:(left)). lia.
      * apply elem_of_cons in Hy as [-> | Hy].
        -- pose proof (Hle (Z.max x a) ltac:(left)). lia.
        -- apply Hle. now right.
Qed.

Lemma ravel_C_elem (a : ndarray) (v : Z) :
  v ∈ ravel_C a <-> exists ix, in_range ix (shape a) /\ item a ix = v.
Proof.
  unfold ravel_C. rewrite list_elem_of_fmap. split.
  - intros (ix & -> & H). exists ix. split; [now apply indices_C_elem | reflexivity].
  - intros (ix & H & <-). exists ix. split; [reflexivity | now apply indices_C_elem].
Qed.

Lemma nd_min_spec (a : ndarray) (v : Z) : nd_min a = Ok v -> is_min_of a v.
Proof.
  unfold nd_min. destruct (ravel_C a) as [|x l] eqn:E; [discriminate|].
  intros [= <-]. destruct (fold_min_spec l x) as [Hin Hle]. rewrite <- E in *.
  split.
  - now apply ravel_C_elem.
  - intros ix Hix. apply Hle. apply ravel_C_elem. eauto.
Qed.

Lemma nd_max_spec (a : ndarray) (v : Z) : nd_max a = Ok v -> is_max_of a v.
Proof.
  unfold nd_max. destruct (ravel_C a) as [|x l] eqn:E; [discriminate|].
  intros [= <-]. destruct (fold_max_spec l x) as [Hin Hle]. rewrite <- E in *.
  split.
  - now apply ravel_C_elem.
  - intros ix Hix. apply Hle. apply ravel_C_elem. eauto.
Qed.

Lemma ravel_C_nonempty (a : ndarray) : nd_size a <> 0 -> ravel_C a <> [].
Proof.
  unfold nd_size, ravel_C. destruct (shape a) as [[n0 n1] n2]. intros Hn E.
  apply (f_equal length) in E. rewrite length_fmap, indices_C_length in E.
  simpl in E. nia.
Qed.

Lemma ravel_lookup (a : ndarray) (i j k : nat) :
  in_range (i, j, k) (shape a) ->
  let '(n0, n1, n2) := shape a in
  ravel_F a !! (i + n0 * (j + n1 * k))%nat = Some (item a (i, j, k)) /\
  ravel_C a !! ((i * n1 + j) * n2 + k)%nat = Some (item a (i, j, k)).
Proof.
  unfold ravel_F, ravel_C. destruct (shape a) as [[n0 n1] n2]. intros H.
  rewrite !list_lookup_fmap, indices_F_lookup, indices_C_lookup by assumption.
  split; reflexivity.
Qed.

(** An empty array has no minimum: [_volume_from_array] raises. *)
Lemma volume_from_empty_array (self : VTKVolume) (sub_array : ndarray) :
  nd_size sub_array = 0 ->
  _volume_from_array self sub_array = Raise ValueError.
Proof.
  intros H. unfold _volume_from_array, nd_min.
  replace (ravel_C sub_array) with (@nil Z); [reflexivity|].
  symmetry. apply length_zero_iff_nil. unfold ravel_C, nd_size in *.
  destruct (shape sub_array) as [[n0 n1] n2].
  rewrite length_fmap, indices_C_length. nia.
Qed.

(** C10. For a non-empty array the transfer record holds: when the array is
    F-contiguous, the base64 text of its samples in Fortran order, with dims
    and spacing in array order; otherwise the base64 text of its samples in C
    order, with dims and spacing reversed.  In both cases [data_range] is the
    least and the greatest sample and [dtype] is the name of the dtype.
    Fortran order puts sample [(i, j, k)] at [i + n0*(j + n1*k)], C order at
    [(i*n1 + j)*n2 + k]. *)
Theorem volume_from_array_axis_order (self : VTKVolume) (sub_array : ndarray) :
  nd_size sub_array <> 0 ->
  exists lo hi,
    is_min_of sub_array lo /\ is_max_of sub_array hi /\
    _volume_from_array self sub_array =
      Ok (if f_contiguous sub_array then
            {| vd_buffer :=
                 base64encode (tobytes (dtype sub_array) (ravel_F sub_array));
               vd_dims := shape sub_array;
               vd_spacing := _sub_spacing self;
               vd_origin := origin self;
               vd_data_range := (lo, hi);
               vd_dtype := dtype_name (dtype sub_array) |}
          else
            {| vd_buffer :=
                 base64encode (tobytes (dtype sub_array) (ravel_C sub_array));
               vd_dims := rev3 (shape sub_array);
               vd_spacing := rev3 (_sub_spacing self);
               vd_origin := origin self;
               vd_data_range := (lo, hi);
               vd_dtype := dtype_name (dtype sub_array) |}) /\
    forall i j k,
      in_range (i, j, k) (shape sub_array) ->
      let '(n0, n1, n2) := shape sub_array in
      ravel_F sub_array !! (i + n0 * (j + n1 * k))%nat
        = Some (item sub_array (i, j, k)) /\
      ravel_C sub_array !! ((i * n1 + j) * n2 + k)%nat
        = Some (item sub_array (i, j, k)).
Proof.
  intros Hne.
  destruct (nd_min sub_array) as [lo|e] eqn:Hlo.
  2: { exfalso. unfold nd_min in Hlo.
       pose proof (ravel_C_nonempty _ Hne).
       destruct (ravel_C sub_array); [congruence | discriminate]. }
  destruct (nd_max sub_array) as [hi|e] eqn:Hhi.
  2: { exfalso. unfold nd_max in Hhi.
       pose proof (ravel_C_nonempty _ Hne).
       destruct (ravel_C sub_array); [congruence | discriminate]. }
  exists lo, hi.
  split; [now apply nd_min_spec|]. split; [now apply nd_max_spec|].
  split; [|intros i j k; apply ravel_lookup].
  unfold _volume_from_array. rewrite Hlo, Hhi. unfold_result.
  destruct (f_contiguous sub_array); reflexivity.
Qed.

(** The record of [arange(24).reshape(2, 3, 4)], which is not F-contiguous,
    and of its transpose, which is. *)
Lemma volume_from_array_axis_order_witness :
  (exists lo hi,
     is_min_of arange24 lo /\ is_max_of arange24 hi /\
     _volume_from_array (pane (1, 2 # 1, 3)%Q 1) arange24 =
       Ok {| vd_buffer := "AAECAwQFBgcICQoLDA0ODxAREhMUFRYX";
             vd_dims := (4, 3, 2)%nat;
             vd_spacing := (3, 2 # 1, 1)%Q;
             vd_origin := None;
             vd_data_range := (lo, hi);
             vd_dtype := "uint8" |} /\
     (lo, hi) = (0, 23)) /\
  (exists lo hi,
     is_min_of (transpose arange24) lo /\ is_max_of (transpose arange24) hi /\
     _volume_from_array (pane (1, 2 # 1, 3)%Q 1) (transpose arange24) =
       Ok {| vd_buffer := "AAECAwQFBgcICQoLDA0ODxAREhMUFRYX";
             vd_dims := (4, 3, 2)%nat;
             vd_spacing := (1, 2 # 1, 3)%Q;
             vd_origin := None;
             vd_data_range := (lo, hi);
             vd_dtype := "uint8" |} /\
     (lo, hi) = (0, 23)).
Proof.
  split.
  - destruct (volume_from_array_axis_order (pane (1, 2 # 1, 3)%Q 1) arange24)
      as (lo & hi & Hlo & Hhi & E & _); [vm_compute; discriminate|].
    exists lo, hi. split; [exact Hlo|]. split; [exact Hhi|].
    assert (R : (lo, hi) = (0, 23)).
    { assert (E' := E). vm_compute in E'. injection E' as <- <-. reflexivity. }
    split; [|exact R]. rewrite E. reflexivity.
  - destruct (volume_from_array_axis_order (pane (1, 2 # 1, 3)%Q 1) (transpose arange24))
      as (lo & hi & Hlo & Hhi & E & _); [vm_compute; discriminate|].
    exists lo, hi. split; [exact Hlo|]. split; [exact Hhi|].
    assert (R : (lo, hi) = (0, 23)).
    { assert (E' := E). vm_compute in E'. injection E' as <- <-. reflexivity. }
    split; [|exact R]. rewrite E. reflexivity.
Defined.

(** ** Serialisation of the render window *)

Lemma dict_get_set (d : list (string * pyval)) (k : string) (v : pyval) :
  dict_get (dict_set d k v) k = Some v.
Proof.
  induction d as [|[k' v'] d IH]; simpl.
  - now rewrite String.eqb_refl.
  - destruct (String.eqb k k') eqn:E; simpl.
    + now rewrite String.eqb_refl.
    + now rewrite E.
Qed.

Lemma dict_get_set_other (d : list (string * pyval)) (k k' : string) (v : pyval) :
  k' <> k -> dict_get (dict_set d k v) k' = dict_get d k'.
Proof.
  intros Hne. induction d as [|[k0 v0] d IH]; simpl.
  - now rewrite (proj2 (String.eqb_neq _ _) Hne).
  - destruct (String.eqb k k0) eqn:E; simpl.
    + apply String.eqb_eq in E as <-.
      now rewrite (proj2 (String.eqb_neq _ _) Hne).
    + destruct (String.eqb k' k0); [reflexivity | exact IH].
Qed.

Lemma not_in_true (name : string) (l : list string) :
  not_in name l = true <-> name ∉ l.
Proof.
  unfold not_in. rewrite negb_true_iff, <- not_true_iff_false, existsb_exists.
  split; intros H Hin; apply H.
  - exists name. split; [now apply list_elem_of_In | apply String.eqb_refl].
  - destruct Hin as (x & Hx & E). apply String.eqb_eq in E as ->.
    now apply list_elem_of_In.
Qed.

Section VTKProperties.

Variable vtkRenderWindow : Type.
Variable addr_of : vtkRenderWindow -> positive.
Variable OffScreenRenderingOn Modified Render : vtkRenderWindow -> vtkRenderWindow.
Variable cached_array : Type.
Variable serializeInstance :
  vtkRenderWindow -> nat -> SynchronizationContext cached_array ->
  pyval * SynchronizationContext cached_array.
Variable getCachedDataArray :
  SynchronizationContext cached_array -> string -> bool -> bool -> payload.

Local Abbreviation walked :=
  (walked vtkRenderWindow addr_of OffScreenRenderingOn Modified Render
     cached_array serializeInstance).

Lemma serialize_Ok ren_win context exclude_arrays scene arrays ren_win' context' :
  _serialize_ren_win vtkRenderWindow addr_of OffScreenRenderingOn Modified Render
    cached_array serializeInstance getCachedDataArray
    ren_win context exclude_arrays = Ok (scene, arrays, ren_win', context') ->
  exists d props,
    walked ren_win context = (PDict d, context') /\
    dict_get d "properties" = Some (PDict props) /\
    scene = PDict (dict_set d "properties"
                     (PDict (dict_set props "numberOfLayers" (PInt 2)))) /\
    ren_win' = Render (Modified (OffScreenRenderingOn ren_win)) /\
    arrays =
      map_imap (fun name _ =>
                  if not_in name (default [] exclude_arrays)
                  then Some (getCachedDataArray context' name false true)
                  else None)
               (dataArrayCache _ context').
Proof.
  unfold _serialize_ren_win, walked. cbv zeta.
  destruct (getReferenceId _ _ _) as [rid c1].
  destruct (serializeInstance _ rid c1) as [s c2].
  intros H. bind_inv H. bind_inv H. bind_inv H.
  injection H as <- <- <- <-.
  destruct s as [| | | | | |d]; try discriminate.
  simpl in Ha. destruct (dict_get d "properties") as [p|] eqn:Hp; [|discriminate].
  injection Ha as ->.
  destruct a as [| | | | | |props]; try discriminate.
  injection Ha0 as <-. injection Ha1 as <-.
  exists d, props.
  split; [reflexivity|]. split; [exact Hp|]. split; [reflexivity|].
  split; [reflexivity|]. destruct exclude_arrays; reflexivity.
Qed.


(** The call succeeds exactly when the walk returns a dict whose
    ['properties'] is a dict. *)
Lemma serialize_succeeds ren_win context exclude_arrays :
  (exists d props c,
     walked ren_win context = (PDict d, c) /\
     dict_get d "properties" = Some (PDict props)) <->
  exists r, _serialize_ren_win vtkRenderWindow addr_of OffScreenRenderingOn Modified Render
    cached_array serializeInstance getCachedDataArray
    ren_win context exclude_arrays = Ok r.
Proof.
  split.
  - intros (d & props & c & Hw & Hp).
    unfold _serialize_ren_win, walked in *. cbv zeta in *.
    destruct (getReferenceId _ _ _) as [rid c1].
    destruct (serializeInstance _ rid c1) as [s c2].
    injection Hw as -> ->. simpl. rewrite Hp. unfold_result. simpl. eauto.
  - intros ([[[s a] r] c] & H). apply serialize_Ok in H.
    destruct H as (d & props & Hw & Hp & _). eauto.
Qed.

(** The dict comprehension over the keys of the cache. *)
Lemma arrays_lookup (c : SynchronizationContext cached_array)
    (ex : list string) (name : string) :
  map_imap (fun name _ =>
              if not_in name ex
              then Some (getCachedDataArray c name false true) else None)
           (dataArrayCache _ c) !! name =
  if decide (name ∈ dom (dataArrayCache _ c) /\ name ∉ ex)
  then Some (getCachedDataArray c name false true) else None.
Proof.
  rewrite map_lookup_imap.
  destruct (dataArrayCache _ c !! name) as [x|] eqn:E; simpl.
  - destruct (not_in name ex) eqn:N.
    + apply not_in_true in N. rewrite decide_True; [reflexivity|].
      split; [apply elem_of_dom; eauto | assumption].
    + rewrite decide_False; [reflexivity|]. intros [_ N'].
      apply not_in_true in N'. congruence.
  - rewrite decide_False; [reflexivity|]. intros [N _].
    apply elem_of_dom in N as [? N]. congruence.
Qed.

Lemma arrays_dom (c : SynchronizationContext cached_array) (ex : list string) :
  dom (map_imap (fun name _ =>
                   if not_in name ex
                   then Some (getCachedDataArray c name false true) else None)
                (dataArrayCache _ c))
  = dom (dataArrayCache _ c) ∖ list_to_set ex.
Proof.
  apply set_eq. intros name.
  rewrite elem_of_dom, arrays_lookup, elem_of_difference, elem_of_list_to_set.
  case_decide as D; split; intros Hx.
  - exact D.
  - eauto.
  - destruct Hx as [? Hx]. discriminate.
  - contradiction.
Qed.

(** C6. The arrays returned by [_serialize_ren_win] are those of the cache,
    as the walk leaves it, whose key is not in [exclude_arrays], each with
    its compressed payload; so a second call that excludes the keys already
    returned or excluded, on a scene whose walk caches no new key, returns no
    array. *)
Theorem serialize_ren_win_incremental
    ren_win context exclude_arrays scene arrays ren_win' context' :
  _serialize_ren_win vtkRenderWindow addr_of OffScreenRenderingOn Modified Render
    cached_array serializeInstance getCachedDataArray
    ren_win context exclude_arrays = Ok (scene, arrays, ren_win', context') ->
  let excluded := default [] exclude_arrays in
  dom arrays = dom (dataArrayCache _ context') ∖ list_to_set excluded /\
  (forall name, name ∈ dom arrays ->
     arrays !! name = Some (getCachedDataArray context' name false true)) /\
  (forall ren_win2 context2 processed scene2 arrays2 ren_win2' context2',
     _serialize_ren_win vtkRenderWindow addr_of OffScreenRenderingOn Modified Render
    cached_array serializeInstance getCachedDataArray
    ren_win2 context2 (Some processed)
       = Ok (scene2, arrays2, ren_win2', context2') ->
     dom (dataArrayCache _ context2') ⊆ dom (dataArrayCache _ context') ->
     (forall name, name ∈ dom arrays \/ name ∈ excluded -> name ∈ processed) ->
     arrays2 = ∅).
Proof.
  intros H excluded.
  apply serialize_Ok in H as (_ & _ & _ & _ & _ & _ & ->).
  fold excluded.
  split; [apply arrays_dom|]. split.
  - intros name Hn. rewrite arrays_lookup. rewrite arrays_dom in Hn.
    apply elem_of_difference in Hn as [Hn1 Hn2].
    rewrite elem_of_list_to_set in Hn2. now rewrite decide_True.
  - intros rw2 c2 processed s2 a2 rw2' c2' H2 Hsub Hproc.
    apply serialize_Ok in H2 as (_ & _ & _ & _ & _ & _ & ->). simpl.
    apply map_eq. intros name. rewrite arrays_lookup, lookup_empty.
    rewrite decide_False; [reflexivity|]. intros [Hin Hnot]. apply Hnot.
    apply Hproc. apply Hsub in Hin.
    destruct (decide (name ∈ excluded)) as [|Hne]; [now right | left].
    rewrite arrays_dom. apply elem_of_difference. split; [assumption|].
    now rewrite elem_of_list_to_set.
Qed.

Variable checkForArraysToRelease :
  SynchronizationContext cached_array -> SynchronizationContext cached_array.

(** [_update] excludes the arrays the model reports as processed. *)
Lemma update_arrays (self self' : VTK vtkRenderWindow cached_array)
    (model model' : plot_model) context :
  _contexts _ _ self !! model_id model = Some context ->
  _update vtkRenderWindow addr_of OffScreenRenderingOn Modified Render cached_array
    serializeInstance getCachedDataArray checkForArraysToRelease self model
    = Ok (self', model') ->
  exists context',
    snd (walked (object _ _ self) context) = context' /\
    dom (arrays model') =
      dom (dataArrayCache _ context') ∖ list_to_set (arrays_processed model) /\
    _contexts _ _ self' !! model_id model = Some (checkForArraysToRelease context').
Proof.
  intros Hc H. unfold _update in H. rewrite Hc in H. bind_inv H.
  destruct a as [[[s a] r] c]. injection H as <- <-. simpl.
  apply serialize_Ok in Ha as (d & props & Hw & _ & _ & _ & ->).
  exists c. rewrite Hw. split; [reflexivity|]. split; [apply arrays_dom|].
  apply lookup_insert_eq.
Qed.

End VTKProperties.

(** ** Export of the scene *)

Lemma data_name_inj (k1 k2 : string) :
  ("data/" ++ k1 = "data/" ++ k2)%string -> k1 = k2.
Proof. intros H. cbv in H. now injection H. Qed.

Lemma index_name_not_data (k : string) : "index.json"%string <> ("data/" ++ k)%string.
Proof. intros H. cbv in H. discriminate. Qed.

Lemma filter_name_absent (zf : list zip_entry) (name : string) :
  name ∉ ze_name <$> zf -> filter (fun e' => ze_name e' = name) zf = [].
Proof.
  induction zf as [|b zf IH]; intros Hn; [reflexivity|].
  rewrite fmap_cons in Hn. apply not_elem_of_cons in Hn as [Hb Hn].
  rewrite filter_cons_False by congruence. now apply IH.
Qed.

(** Reading a member of an archive whose names are distinct. *)
Lemma filter_name_unique (zf : list zip_entry) (e : zip_entry) :
  NoDup (ze_name <$> zf) -> e ∈ zf ->
  filter (fun e' => ze_name e' = ze_name e) zf = [e].
Proof.
  induction zf as [|a zf IH]; intros Hnd He.
  - now apply elem_of_nil in He.
  - rewrite fmap_cons in Hnd. apply NoDup_cons in Hnd as [Hna Hnd].
    apply elem_of_cons in He as [-> | He].
    + rewrite filter_cons_True by reflexivity. f_equal.
      now apply filter_name_absent.
    + rewrite filter_cons_False; [now apply IH|].
      intros E. apply Hna. rewrite E. now apply list_elem_of_fmap_2.
Qed.

Section ExportProperties.

Variable vtkRenderWindow : Type.
Variable cached_array : Type.
Variable getCachedDataArray :
  SynchronizationContext cached_array -> string -> bool -> bool -> payload.
Variable json_dumps : pyval -> string.
Variable json_loads : string -> option pyval.
Variable deflate : list byte -> list byte.
Variable inflate : list byte -> option (list byte).

(** zlib inflates what it deflated. *)
Hypothesis inflate_deflate : forall b, inflate (deflate b) = Some b.

Local Abbreviation data_entry := (data_entry cached_array getCachedDataArray deflate).
Local Abbreviation index_entry := (index_entry json_dumps).

Lemma zip_read_member (zf : list zip_entry) (e : zip_entry) :
  NoDup (ze_name <$> zf) -> e ∈ zf ->
  zip_read inflate zf (ze_name e) =
    match ze_method e with
    | ZIP_STORED => Some (ze_data e)
    | ZIP_DEFLATED => inflate (ze_data e)
    end.
Proof.
  intros Hnd He. unfold zip_read.
  rewrite (filter_name_unique (reverse zf) e); [reflexivity| |].
  - rewrite fmap_reverse, reverse_Permutation. exact Hnd.
  - now apply elem_of_reverse.
Qed.

Lemma write_data_entries context (keys : list string) (zf : list zip_entry) :
  fold_left (fun zf name =>
               writestr deflate zf ("data/" ++ name)
                        (getCachedDataArray context name true false) ZIP_DEFLATED)
            keys zf
  = zf ++ (data_entry context <$> keys).
Proof.
  revert zf. induction keys as [|k keys IH]; intros zf; simpl.
  - now rewrite app_nil_r.
  - rewrite IH. unfold writestr. now rewrite <- app_assoc.
Qed.

(** The archive written by [export_scene]. *)
Lemma export_scene_entries (self : VTK vtkRenderWindow cached_array)
    (root : plot_model) (filename : string) context :
  _contexts _ _ self !! model_id root = Some context ->
  export_scene vtkRenderWindow cached_array getCachedDataArray json_dumps deflate
    self root filename =
    Ok (if has_dot filename then filename else (filename ++ ".sync")%string,
        index_entry (scene root)
          :: (data_entry context <$> (map_to_list (dataArrayCache _ context)).*1)).
Proof.
  intros Hc. unfold export_scene. rewrite Hc.
  rewrite write_data_entries. reflexivity.
Qed.

Lemma export_names_NoDup context (scene : pyval) :
  NoDup (ze_name <$>
           index_entry scene
             :: (data_entry context <$> (map_to_list (dataArrayCache _ context)).*1)).
Proof.
  rewrite fmap_cons. apply NoDup_cons. split.
  - intros H. apply list_elem_of_fmap in H as (e & He & H).
    apply list_elem_of_fmap in H as (k & -> & _).
    now apply index_name_not_data in He.
  - rewrite <- list_fmap_compose. apply NoDup_fmap_2_strong.
    + intros k1 k2 _ _ E. now apply data_name_inj in E.
    + apply NoDup_fst_map_to_list.
Qed.

(** C7. [export_scene] writes an archive of one stored member
    ['index.json'] holding [json.dumps(scene)] and, for each key of the
    array cache, one deflated member ['data/<key>'] holding the uncompressed
    bytes of the array, and nothing else.  Read back, the members give the
    same bytes for every array and, through [json.loads], the same property
    tree. *)
Theorem export_scene_round_trip (self : VTK vtkRenderWindow cached_array)
    (root : plot_model) (filename : string) context :
  _contexts _ _ self !! model_id root = Some context ->
  json_loads (json_dumps (scene root)) = Some (scene root) ->
  exists filename' zf,
    export_scene vtkRenderWindow cached_array getCachedDataArray json_dumps deflate
    self root filename = Ok (filename', zf) /\
    length zf = S (size (dataArrayCache _ context)) /\
    zf !! 0%nat = Some (index_entry (scene root)) /\
    (forall e, e ∈ zf <->
       e = index_entry (scene root) \/
       exists key, key ∈ dom (dataArrayCache _ context) /\ e = data_entry context key) /\
    NoDup (ze_name <$> zf) /\
    read_json inflate json_loads zf "index.json" = Some (scene root) /\
    (forall key, key ∈ dom (dataArrayCache _ context) ->
       zip_read inflate zf ("data/" ++ key) =
         Some (payload_bytes (getCachedDataArray context key true false))).
Proof.
  intros Hc Hjson.
  exists (if has_dot filename then filename else (filename ++ ".sync")%string).
  exists (index_entry (scene root)
            :: (data_entry context <$> (map_to_list (dataArrayCache _ context)).*1)).
  split; [apply export_scene_entries; exact Hc|].
  set (keys := (map_to_list (dataArrayCache _ context)).*1).
  assert (Hkeys : forall key, key ∈ keys <-> key ∈ dom (dataArrayCache _ context)).
  { intros key. unfold keys. rewrite elem_of_dom. split.
    - intros H. apply list_elem_of_fmap in H as ([k v] & -> & H).
      apply elem_of_map_to_list in H. eauto.
    - intros [v H]. apply list_elem_of_fmap. exists (key, v).
      split; [reflexivity | now apply elem_of_map_to_list]. }
  assert (Hmem : forall e, e ∈ index_entry (scene root) :: (data_entry context <$> keys) <->
       e = index_entry (scene root) \/
       exists key, key ∈ dom (dataArrayCache _ context) /\ e = data_entry context key).
  { intros e. rewrite elem_of_cons, list_elem_of_fmap. split.
    - intros [-> | (k & -> & Hk)]; [now left | right].
      exists k. split; [now apply Hkeys | reflexivity].
    - intros [-> | (k & Hk & ->)]; [now left | right].
      exists k. split; [reflexivity | now apply Hkeys]. }
  pose proof (export_names_NoDup context (scene root)) as Hnd. fold keys in Hnd.
  split; [|split; [reflexivity|split; [exact Hmem|split; [exact Hnd|split]]]].
  - simpl. unfold keys. now rewrite !length_fmap, length_map_to_list.
  - unfold read_json.
    change "index.json"%string with (ze_name (index_entry (scene root))).
    rewrite zip_read_member; [|exact Hnd|now left]. simpl.
    now rewrite string_of_list_byte_of_string.
  - intros key Hk.
    change ("data/" ++ key)%string with (ze_name (data_entry context key)).
    rewrite zip_read_member; [|exact Hnd|].
    + simpl. apply inflate_deflate.
    + apply Hmem. right. eauto.
Qed.

End ExportProperties.

(** ** Colour mappers *)

Lemma format_02x_byte (v : byte) : format_02x (Z_of_byte v) = hex_pair v.
Proof. destruct v; reflexivity. Qed.

Lemma rgb2hex_bytes (r g b : byte) :
  _rgb2hex (PyInt (Z_of_byte r)) (PyInt (Z_of_byte g)) (PyInt (Z_of_byte b))
  = Ok (hex_color r g b).
Proof.
  unfold _rgb2hex, hex_color. simpl. unfold_result.
  now rewrite !format_02x_byte.
Qed.

Lemma rgb2hex_row_rgba (r g b a : byte) :
  rgb2hex_row [r; g; b; a] = Ok (hex_color r g b).
Proof. unfold rgb2hex_row. cbn [take]. apply rgb2hex_bytes. Qed.

(** The test of [_rgb2hex] compares the two last [isinstance] results with
    [is]: an integer red with two float components takes the integer branch,
    and the format raises. *)
Lemma rgb2hex_mixed_raises :
  _rgb2hex (PyInt 1) (PyFloat (1 # 2)) (PyFloat (1 # 2)) = Raise ValueError /\
  _rgb2hex (PyFloat 1) (PyFloat (1 # 2)) (PyFloat 0) = Ok "#ff7f00"%string.
Proof. split; reflexivity. Qed.

(** The palette of a table of [n] rows. *)
Lemma palette_of_table (n : nat) (table : list byte) :
  length table = (4 * n)%nat ->
  exists pal,
    (rgba_arr ← reshape_4 table; mapM rgb2hex_row rgba_arr) = Ok pal /\
    length pal = n /\
    forall i, (i < n)%nat ->
      exists r g b,
        table !! (4 * i)%nat = Some r /\
        table !! (4 * i + 1)%nat = Some g /\
        table !! (4 * i + 2)%nat = Some b /\
        pal !! i = Some (hex_color r g b).
Proof.
  revert table. induction n as [|n IH]; intros table Hlen.
  - destruct table; [|discriminate]. exists []. split; [reflexivity|].
    split; [reflexivity|]. intros i Hi. lia.
  - destruct table as [|r [|g [|b [|a rest]]]]; try (simpl in Hlen; lia).
    destruct (IH rest) as (pal & Hpal & Hl & Hi); [simpl in Hlen; lia|].
    exists (hex_color r g b :: pal). split; [|split].
    + cbn [reshape_4]. unfold_result.
      destruct (reshape_4 rest) as [rows|]; [|discriminate].
      cbn [mapM]. rewrite rgb2hex_row_rgba. unfold_result. now rewrite Hpal.
    + simpl. now rewrite Hl.
    + intros [|i] Hlt.
      * exists r, g, b. repeat split; reflexivity.
      * destruct (Hi i) as (r' & g' & b' & H0 & H1 & H2 & H3); [lia|].
        exists r', g', b'.
        replace (4 * S i)%nat with (S (S (S (S (4 * i))))) by lia.
        repeat split; assumption.
Qed.

Lemma color_mapper_of_matches (vp : view_prop) :
  has_rgba_table vp ->
  exists cmap, color_mapper_of vp = Ok cmap /\ mapper_matches vp cmap.
Proof.
  intros (lut & Hlut & Hmod). unfold color_mapper_of, mapper_matches.
  rewrite Hlut. set (table := GetTable lut) in *.
  assert (Hlen : length table = (4 * (length table / 4))%nat).
  { pose proof (Nat.div_mod_eq (length table) 4). lia. }
  destruct (palette_of_table _ _ Hlen) as (pal & Hpal & Hl & Hi).
  unfold_result. destruct (reshape_4 table) as [rows|]; [|discriminate].
  rewrite Hpal. destruct (GetTableRange lut) as [lo hi] eqn:Hr.
  eexists. split; [reflexivity|]. exists lut. fold table. rewrite Hr.
  simpl. auto.
Qed.

(** C8. When every scalar-bar actor has a lookup table whose table is made
    of rows of four bytes, [get_color_mappers] returns one colour mapper per
    scalar-bar actor, in order: its palette has one ['#rrggbb'] entry per row
    of the RGBA table, built from the first three bytes of the row, and its
    [low] and [high] are the table range of the lookup table. *)
Theorem get_color_mappers_palette (view_props : list view_prop) :
  Forall (fun vp => IsA_vtkScalarBarActor vp = true -> has_rgba_table vp)
         view_props ->
  exists cmaps,
    get_color_mappers view_props = Ok cmaps /\
    Forall2 mapper_matches
            (filter (fun vp => IsA_vtkScalarBarActor vp = true) view_props) cmaps.
Proof.
  induction view_props as [|vp rest IH]; intros Hall.
  - exists []. split; [reflexivity | constructor].
  - apply Forall_cons in Hall as [Hvp Hrest].
    destruct (IH Hrest) as (cmaps & Hc & Hm). simpl.
    destruct (IsA_vtkScalarBarActor vp) eqn:E.
    + destruct (color_mapper_of_matches vp (Hvp eq_refl)) as (cmap & Hcm & Hmm).
      exists (cmap :: cmaps). rewrite Hcm, Hc. split; [reflexivity|].
      rewrite filter_cons_True by assumption. now constructor.
    + exists cmaps. split; [exact Hc|].
      rewrite filter_cons_False by congruence. exact Hm.
Qed.

Lemma get_color_mappers_palette_witness :
  exists cmaps,
    get_color_mappers
      [mk_view_prop true (Some (mk_lut [x00; x0a; xff; xff; x10; x20; x30; x80] (0, 1)%Q))
                    "pressure";
       mk_view_prop false None "axes"] = Ok cmaps /\
    palette <$> cmaps = [["#000aff"; "#102030"]]%string /\
    Forall2 mapper_matches
      [mk_view_prop true (Some (mk_lut [x00; x0a; xff; xff; x10; x20; x30; x80] (0, 1)%Q))
                    "pressure"]
      cmaps.
Proof.
  destruct (get_color_mappers_palette
    [mk_view_prop true (Some (mk_lut [x00; x0a; xff; xff; x10; x20; x30; x80] (0, 1)%Q))
                  "pressure";
     mk_view_prop false None "axes"]) as (cmaps & E & M).
  - repeat constructor.
    + intros _. eexists. split; reflexivity.
    + intros; discriminate.
  - exists cmaps. split; [exact E|]. split; [|exact M].
    vm_compute in E. injection E as <-. reflexivity.
Defined.

(** ** The identity registry *)

Lemma registry_empty_wf : Registry.wf Registry.empty.
Proof.
  split; simpl; intros *; rewrite lookup_empty; discriminate.
Qed.

Lemma getOrAssignId_spec (o : positive) (r r' : Registry.t) (i : nat) :
  Registry.wf r ->
  Registry.getOrAssignId o r = (i, r') ->
  Registry.wf r' /\ Registry.ids r ⊆ Registry.ids r' /\
  Registry.ids r' !! o = Some i /\ (Registry.next r <= Registry.next r')%nat.
Proof.
  intros [Hlt Hinj]. unfold Registry.getOrAssignId.
  destruct (Registry.ids r !! o) as [j|] eqn:E; intros [= <- <-].
  - repeat split; auto.
  - simpl. repeat split; simpl.
    + intros o' i'. rewrite lookup_insert. case_decide.
      * intros [= <-]. lia.
      * intros H'. apply Hlt in H'. lia.
    + intros o1 o2 i'. rewrite !lookup_insert.
      repeat case_decide; subst; try congruence.
      * intros [= <-] H2. apply Hlt in H2. lia.
      * intros H1 [= <-]. apply Hlt in H1. lia.
      * apply Hinj.
    + now apply insert_subseteq.
    + apply lookup_insert_eq.
    + lia.
Qed.

Lemma registry_run_spec (os : list positive) (r0 : Registry.t) :
  Registry.wf r0 ->
  Registry.wf (Registry.run os r0).2 /\
  Registry.ids r0 ⊆ Registry.ids (Registry.run os r0).2 /\
  length (Registry.run os r0).1 = length os /\
  forall p o i,
    os !! p = Some o -> (Registry.run os r0).1 !! p = Some i ->
    Registry.ids (Registry.run os r0).2 !! o = Some i.
Proof.
  revert r0. induction os as [|o os IH]; intros r0 Hwf; simpl.
  - split; [exact Hwf|]. split; [reflexivity|]. split; [reflexivity|].
    intros p o i H. now rewrite lookup_nil in H.
  - destruct (Registry.getOrAssignId o r0) as [i r1] eqn:E.
    destruct (getOrAssignId_spec _ _ _ _ Hwf E) as (Hwf1 & Hsub1 & Hlk & _).
    destruct (IH r1 Hwf1) as (Hwf2 & Hsub2 & Hlen & Hall).
    destruct (Registry.run os r1) as [l r2]. simpl in *.
    split; [exact Hwf2|]. split; [now transitivity (Registry.ids r1)|].
    split; [now rewrite Hlen|].
    intros [|p] o' i'; simpl.
    + intros [= <-] [= <-]. eapply lookup_weaken; eassumption.
    + apply Hall.
Qed.

(** C9. In the life of one registry, started empty, two requests return the
    same identifier exactly when they are made for the same object: an
    object keeps its identifier, and no identifier is given to two objects.
    In particular a request repeated at once returns the same identifier
    and leaves the registry as it is. *)
Theorem registry_ids_stable_and_unique (os : list positive) :
  let ids := (Registry.run os Registry.empty).1 in
  length ids = length os /\
  (forall p q o1 o2 i1 i2,
     os !! p = Some o1 -> os !! q = Some o2 ->
     ids !! p = Some i1 -> ids !! q = Some i2 ->
     (i1 = i2 <-> o1 = o2)) /\
  (forall o r i r',
     Registry.getOrAssignId o r = (i, r') ->
     Registry.getOrAssignId o r' = (i, r')).
Proof.
  intros ids.
  destruct (registry_run_spec os _ registry_empty_wf) as ((_ & Hinj) & _ & Hlen & Hall).
  split; [exact Hlen|]. split.
  - intros p q o1 o2 i1 i2 Hp Hq Hip Hiq.
    pose proof (Hall _ _ _ Hp Hip) as H1. pose proof (Hall _ _ _ Hq Hiq) as H2.
    split.
    + intros <-. eapply Hinj; eassumption.
    + intros <-. congruence.
  - intros o r i r'. unfold Registry.getOrAssignId.
    destruct (Registry.ids r !! o) as [j|] eqn:E; intros [= <- <-].
    + now rewrite E.
    + simpl. now rewrite lookup_insert_eq.
Qed.

Lemma registry_ids_stable_and_unique_witness :
  (Registry.run [5; 7; 5; 9; 7]%positive Registry.empty).1 = [0; 1; 0; 2; 1]%nat /\
  ((0 = 0)%nat <-> (5 = 5)%positive) /\
  ((0 = 1)%nat <-> (5 = 7)%positive).
Proof.
  split; [vm_compute; reflexivity|].
  destruct (registry_ids_stable_and_unique [5; 7; 5; 9; 7]%positive) as (_ & H & _).
  split.
  - apply (H 0%nat 2%nat 5%positive 5%positive 0%nat 0%nat); reflexivity.
  - apply (H 0%nat 1%nat 5%positive 7%positive 0%nat 1%nat); reflexivity.
Defined.

(** ** The serialisation and the export on a concrete scene *)

Lemma toy_first_walk :
  exists arrays,
    toy_serialize toy_window0 toy_context0 None
      = Ok (toy_scene1, arrays, toy_window0, toy_context1) /\
    arrays !! "a1b2"%string = Some (Text "eAECAw==") /\
    arrays !! "c3d4"%string = Some (Text "eP8A").
Proof.
  eexists. split; [reflexivity|]. split; vm_compute; reflexivity.
Qed.


Lemma serialize_ren_win_incremental_witness :
  exists arrays scene2 arrays2,
    toy_serialize toy_window0 toy_context0 None
      = Ok (toy_scene1, arrays, toy_window0, toy_context1) /\
    dom arrays = {["a1b2"; "c3d4"]}%string /\
    toy_serialize toy_window0 toy_context1 (Some ["a1b2"; "c3d4"]%string)
      = Ok (scene2, arrays2, toy_window0, toy_context1) /\
    arrays2 = ∅.
Proof.
  destruct toy_first_walk as (arrays & H & _).
  destruct (serialize_ren_win_incremental toy_window (fun _ => 1%positive) id id id
              (list byte) toy_serializeInstance toy_getCachedDataArray
              toy_window0 toy_context0 None toy_scene1 arrays toy_window0
              toy_context1 H)
    as (Hdom & _ & Hsecond).
  assert (Hd : dom arrays = {["a1b2"; "c3d4"]}%string).
  { rewrite Hdom. unfold toy_context1. simpl.
    rewrite !dom_insert_L, dom_empty_L. set_solver. }
  assert (H2 : exists scene2 arrays2,
             toy_serialize toy_window0 toy_context1 (Some ["a1b2"; "c3d4"]%string)
             = Ok (scene2, arrays2, toy_window0, toy_context1)).
  { eexists. eexists. reflexivity. }
  destruct H2 as (scene2 & arrays2 & H2).
  exists arrays, scene2, arrays2.
  split; [exact H|]. split; [exact Hd|]. split; [exact H2|].
  apply (Hsecond _ _ _ _ _ _ _ H2).
  - apply elem_of_subseteq. intros x Hx. exact Hx.
  - intros name [Hn | Hn].
    + rewrite Hd in Hn. apply elem_of_union in Hn as [Hn | Hn];
        apply elem_of_singleton in Hn; subst name.
      * apply list_elem_of_here.
      * apply list_elem_of_further, list_elem_of_here.
    + simpl in Hn. now apply elem_of_nil in Hn.
Defined.

Lemma export_scene_round_trip_witness :
  exists zf,
    toy_export toy_pane1 toy_model1 "vtk_scene" = Ok ("vtk_scene.sync"%string, zf) /\
    length zf = 3%nat /\
    read_json toy_inflate (toy_loads toy_scene1) zf "index.json" = Some toy_scene1 /\
    zip_read toy_inflate zf "data/a1b2" = Some [x01; x02; x03] /\
    zip_read toy_inflate zf "data/c3d4" = Some [xff; x00].
Proof.
  destruct (export_scene_round_trip toy_window (list byte) toy_getCachedDataArray
              toy_dumps (toy_loads toy_scene1) toy_deflate toy_inflate
              (fun b => eq_refl) toy_pane1 toy_model1 "vtk_scene" toy_context1)
    as (filename' & zf & E & Hlen & _ & _ & _ & Hjson & Hdata).
  - reflexivity.
  - vm_compute. reflexivity.
  - pose proof (export_scene_entries toy_window (list byte) toy_getCachedDataArray
                  toy_dumps toy_deflate toy_pane1 toy_model1 "vtk_scene"
                  toy_context1 eq_refl) as Hent.
    rewrite Hent in E. injection E as <- <-.
    match type of Hlen with length ?z = _ => exists z end.
    split; [unfold toy_export; rewrite Hent; reflexivity|].
    split; [rewrite Hlen; reflexivity|].
    split; [exact Hjson|]. split.
    + refine (eq_trans (Hdata "a1b2"%string _) eq_refl).
      apply elem_of_dom. eexists. reflexivity.
    + refine (eq_trans (Hdata "c3d4"%string _) eq_refl).
      apply elem_of_dom. eexists. reflexivity.
Defined.

(** * Further properties *)

(** ** The subsampler: budget, failures and frame *)

Lemma py_int_floor_le (x : Q) : (0 <= x)%Q -> (inject_Z (py_int x) <= x)%Q.
Proof.
  intros Hx. unfold py_int. destruct x as [n d].
  assert (Hn : 0 <= n).
  { unfold Qle in Hx. simpl in Hx. lia. }
  cbn [Qnum Qden]. rewrite Z.quot_div_nonneg by lia. apply (Qfloor_le (n # d)).
Qed.

Lemma py_int_small (o : Z) (r : Q) :
  0 <= o -> (inject_Z o < r)%Q -> py_int (inject_Z o / r) = 0.
Proof.
  intros Ho Hr. destruct r as [[|p|p] d].
  - unfold Qlt in Hr. simpl in Hr. lia.
  - unfold py_int. simpl. apply Z.quot_small.
    unfold Qlt in Hr. simpl in Hr. lia.
  - unfold Qlt in Hr. simpl in Hr. lia.
Qed.

(** A generator whose body raises nothing but [e0] raises [e0] when the body
    fails on one axis. *)
Lemma mapM3_raise_only {A B} (f : A -> result B) (t : tuple3 A) (e0 e : exn) :
  (forall a e', f a = Raise e' -> e' = e0) ->
  mapM3 f t = Raise e -> e = e0.
Proof.
  intros Hf. destruct t as [[a b] c]. unfold mapM3. unfold_result.
  destruct (f a) eqn:Ea; [|intros [= <-]; eauto].
  destruct (f b) eqn:Eb; [|intros [= <-]; eauto].
  destruct (f c) eqn:Ec; [discriminate|intros [= <-]; eauto].
Qed.

Lemma mapM3_some_raise {A B} (f : A -> result B) (t : tuple3 A) (e0 : exn) :
  (forall a e', f a = Raise e' -> e' = e0) ->
  ~ Forall3 (fun a => exists b, f a = Ok b) t ->
  mapM3 f t = Raise e0.
Proof.
  intros Hf H. destruct (mapM3 f t) as [r|e] eqn:E.
  - exfalso. apply H. apply mapM3_Ok in E.
    destruct t as [[a b] c], r as [[x y] z]. unfold Forall3_2 in E. simpl in *.
    destruct E as (E0 & E1 & E2). repeat split; eauto.
  - apply mapM3_raise_only with (e0 := e0) in E; [now subst | assumption].
Qed.

Lemma py_div_raise (x y : Q) (e : exn) :
  py_div x y = Raise e -> e = ZeroDivisionError.
Proof. unfold py_div. destruct (Qeq_bool y 0); [now intros [= <-] | discriminate]. Qed.

Section SubsamplerFurther.

Variable np_cbrt : Q -> Q.
Variable scipy_ndimage : option (ndarray -> tuple3 Q -> list Z).

(** The target sizes, when the budget and the ratio are not zero. *)
Lemma max_shape_eq (self : VTKVolume) (array : ndarray) :
  let dim_ratio :=
    np_cbrt (inject_Z (nbytes array) / 1000000 / max_data_size self)%Q in
  ~ (max_data_size self == 0)%Q ->
  ~ (dim_ratio == 0)%Q ->
  max_shape_of np_cbrt self array =
    Ok (map3 (fun o_s => py_int (inject_Z o_s / dim_ratio))
             (map3 Z.of_nat (shape array))).
Proof.
  intros dim_ratio Hb Hr. unfold max_shape_of, py_div.
  rewrite (Qeq_bool_false _ _ Hb). unfold_result. fold dim_ratio.
  destruct (shape array) as [[n0 n1] n2].
  unfold map3, mapM3, int_of_np_div. rewrite (Qeq_bool_false _ _ Hr).
  reflexivity.
Qed.

(** A zero budget is a division by zero. *)
Theorem subsample_zero_budget (self : VTKVolume) (array : ndarray) :
  (max_data_size self == 0)%Q ->
  _subsample_array np_cbrt scipy_ndimage self array = Raise ZeroDivisionError.
Proof.
  intros Hb. unfold _subsample_array, dowsnscale_factor_of, max_shape_of, py_div.
  apply Qeq_bool_iff in Hb. rewrite Hb. reflexivity.
Qed.

(** An empty volume, for which the ratio is zero, cannot be subsampled:
    [int()] of [0 / 0.0] raises [ValueError] and of [n / 0.0]
    [OverflowError]. *)
Theorem subsample_empty_volume (self : VTKVolume) (array : ndarray) :
  nd_size array = 0 ->
  ~ (max_data_size self == 0)%Q ->
  (np_cbrt (inject_Z (nbytes array) / 1000000 / max_data_size self) == 0)%Q ->
  _subsample_array np_cbrt scipy_ndimage self array =
    Raise (if (fst (fst (shape array)) =? 0)%nat then ValueError else OverflowError).
Proof.
  intros _ Hb Hr. unfold _subsample_array, dowsnscale_factor_of, max_shape_of, py_div.
  rewrite (Qeq_bool_false _ _ Hb). unfold_result.
  destruct (shape array) as [[n0 n1] n2]. unfold map3, mapM3, int_of_np_div.
  apply Qeq_bool_iff in Hr. rewrite Hr. simpl.
  destruct n0; reflexivity.
Qed.

(** A volume with an axis shorter than the ratio cannot be subsampled: the
    target size of that axis is zero and the shrink factor divides by it. *)
Theorem subsample_short_axis (self : VTKVolume) (array : ndarray) :
  let dim_ratio :=
    np_cbrt (inject_Z (nbytes array) / 1000000 / max_data_size self)%Q in
  ~ (max_data_size self == 0)%Q ->
  ~ Forall3 (fun n => (dim_ratio <= inject_Z (Z.of_nat n))%Q) (shape array) ->
  (0 < dim_ratio)%Q ->
  _subsample_array np_cbrt scipy_ndimage self array = Raise ZeroDivisionError.
Proof.
  intros dim_ratio Hb Hshort Hr.
  unfold _subsample_array, dowsnscale_factor_of.
  rewrite max_shape_eq by (try assumption; fold dim_ratio; lra).
  fold dim_ratio. unfold_result.
  destruct (shape array) as [[n0 n1] n2]. cbn [map3 zip3].
  rewrite (mapM3_some_raise _ _ ZeroDivisionError).
  - reflexivity.
  - intros [m o] e. apply py_div_raise.
  - intros (H0 & H1 & H2). apply Hshort. simpl in *.
    assert (Hax : forall n : nat,
      (exists b, py_div (inject_Z (Z.max (Z.of_nat n)
                                     (py_int (inject_Z (Z.of_nat n) / dim_ratio))))
                   (inject_Z (py_int (inject_Z (Z.of_nat n) / dim_ratio))) = Ok b) ->
      (dim_ratio <= inject_Z (Z.of_nat n))%Q).
    { intros n [b Hn]. apply py_div_Ok in Hn as [Hn _].
      destruct (Qlt_le_dec (inject_Z (Z.of_nat n)) dim_ratio) as [Hlt|]; [|assumption].
      exfalso. apply Hn. rewrite py_int_small; [reflexivity|lia|assumption]. }
    auto.
Qed.

End SubsamplerFurther.

(** ** The subsampler keeps the budget *)

Lemma zoom_axis_le_target (n : nat) (m : Z) (d z : Q) :
  0 < m ->
  py_div (inject_Z (Z.max (Z.of_nat n) m)) (inject_Z m) = Ok d ->
  py_div 1 d = Ok z ->
  Z.of_nat (Z.to_nat (py_round (inject_Z (Z.of_nat n) * z))) <= m.
Proof.
  intros Hm Hd Hz. apply py_div_Ok in Hd as [_ ->]. apply py_div_Ok in Hz as [Hnz ->].
  set (M := Z.max (Z.of_nat n) m) in *.
  assert (HM : (0 < inject_Z M)%Q) by (unfold Qlt; simpl; lia).
  assert (Hmq : (0 < inject_Z m)%Q) by (unfold Qlt; simpl; lia).
  assert (Hn : (inject_Z (Z.of_nat n) <= inject_Z M)%Q).
  { unfold Qle. simpl. lia. }
  assert (Hn0 : (0 <= inject_Z (Z.of_nat n))%Q) by (unfold Qle; simpl; lia).
  assert (E : (inject_Z (Z.of_nat n) * (1 / (inject_Z M / inject_Z m))
               == inject_Z (Z.of_nat n) * inject_Z m / inject_Z M)%Q).
  { field. split; lra. }
  assert (Hle : (inject_Z (Z.of_nat n) * (1 / (inject_Z M / inject_Z m))
                 <= inject_Z m)%Q).
  { rewrite E. apply Qle_shift_div_r; [assumption|]. nra. }
  apply py_round_le in Hle. lia.
Qed.

Lemma strided_axis_le_target (n : nat) (m : Z) (d : Q) :
  0 < m ->
  py_div (inject_Z (Z.max (Z.of_nat n) m)) (inject_Z m) = Ok d ->
  Z.of_nat (slice_len n (py_ceil d)) <= m.
Proof.
  intros Hm Hd.
  assert (H1 : (1 <= d)%Q).
  { destruct (shrink_factor_cases _ _ _ (Nat2Z.is_nonneg n) Hd) as [[_ ?]|[? _]];
      [assumption | lia]. }
  apply py_div_Ok in Hd as [_ ->].
  set (M := Z.max (Z.of_nat n) m) in *.
  set (k := py_ceil (inject_Z M / inject_Z m)).
  assert (Hk1 : 1 <= k).
  { unfold k, py_ceil. rewrite <- (Qceiling_Z 1). now apply Qceiling_resp_le. }
  assert (Hkd : (inject_Z M / inject_Z m <= inject_Z k)%Q) by apply Qle_ceiling.
  assert (Hmq : (0 < inject_Z m)%Q) by (unfold Qlt; simpl; lia).
  assert (HMk : M <= k * m).
  { assert (Hq : (inject_Z M <= inject_Z k * inject_Z m)%Q).
    { assert (E : (inject_Z M == inject_Z M / inject_Z m * inject_Z m)%Q)
        by (field; lra).
      rewrite E. nra. }
    rewrite <- inject_Z_mult in Hq. now rewrite <- Zle_Qle in Hq. }
  unfold slice_len. rewrite Z.abs_eq by lia.
  rewrite Z2Nat.id by (apply Z.div_pos; lia).
  apply Z.lt_succ_r. apply Z.div_lt_upper_bound; [lia|]. unfold M in HMk. nia.
Qed.

Lemma identity_axis_le_target (n : nat) (m : Z) (d : Q) :
  0 < m ->
  py_div (inject_Z (Z.max (Z.of_nat n) m)) (inject_Z m) = Ok d ->
  Qgtb d 1 = false ->
  Z.of_nat n <= m.
Proof.
  intros Hm Hd Hle. apply Qgtb_false in Hle. apply py_div_Ok in Hd as [_ ->].
  assert (Hmq : (0 < inject_Z m)%Q) by (unfold Qlt; simpl; lia).
  assert (Hq : (inject_Z (Z.max (Z.of_nat n) m) <= inject_Z m)%Q).
  { assert (E : (inject_Z (Z.max (Z.of_nat n) m)
                 == inject_Z (Z.max (Z.of_nat n) m) / inject_Z m * inject_Z m)%Q)
      by (field; lra).
    rewrite E. nra. }
  rewrite <- Zle_Qle in Hq. lia.
Qed.

Ltac case_if_in H :=
  match type of H with
  | (if ?c then _ else _) = _ => destruct c eqn:?
  end.

Section SubsamplerBudget.

Variable np_cbrt : Q -> Q.
Variable scipy_ndimage : option (ndarray -> tuple3 Q -> list Z).

(** No axis of the result is longer than its target size. *)
Lemma subsample_le_max_shape (self self' : VTKVolume) (array sub : ndarray)
    (ms : tuple3 Z) :
  max_shape_of np_cbrt self array = Ok ms ->
  Forall3 (fun m => 0 < m) ms ->
  _subsample_array np_cbrt scipy_ndimage self array = Ok (sub, self') ->
  Forall3_2 (fun s m => Z.of_nat s <= m) (shape sub) ms.
Proof.
  intros Hms Hpos H. unfold _subsample_array, dowsnscale_factor_of in H.
  rewrite Hms in H. bind_inv H. rename a into dfs. unfold_result.
  destruct ms as [[m0 m1] m2], dfs as [[d0 d1] d2].
  destruct (shape array) as [[n0 n1] n2] eqn:Hs.
  destruct Hpos as (P0 & P1 & P2).
  apply mapM3_Ok in Ha. unfold Forall3_2 in Ha. simpl in Ha.
  destruct Ha as (D0 & D1 & D2).
  destruct (any3 _) eqn:Hany.
  - destruct (resample scipy_ndimage array (d0, d1, d2)) as [s|] eqn:Hr; [|discriminate].
    destruct (mapM3 _ _) as [sp|]; [|discriminate]. injection H as <- _.
    unfold resample in Hr. destruct scipy_ndimage as [fill|].
    + bind_inv Hr. destruct a as [[z0 z1] z2].
      apply mapM3_Ok in Ha. destruct Ha as (Z0 & Z1 & Z2). simpl in *.
      unfold nd_zoom, zoom_shape in Hr. rewrite Hs in Hr. simpl in Hr.
      case_if_in Hr; [discriminate|]. injection Hr as <-.
      unfold Forall3_2. simpl.
      split; [|split]; eapply zoom_axis_le_target; eassumption.
    + unfold strided in Hr. rewrite Hs in Hr. simpl in Hr.
      destruct (strides array) as [[s0 s1] s2].
      case_if_in Hr; [discriminate|]. injection Hr as <-.
      unfold Forall3_2. simpl.
      split; [|split]; eapply strided_axis_le_target; eassumption.
  - injection H as <- _. rewrite Hs. unfold Forall3_2. simpl in *.
    apply orb_false_elim in Hany as [Hany H2].
    apply orb_false_elim in Hany as [H0 H1].
    split; [|split]; eapply identity_axis_le_target; eassumption.
Qed.

Lemma subsample_dtype (self self' : VTKVolume) (array sub : ndarray) :
  _subsample_array np_cbrt scipy_ndimage self array = Ok (sub, self') ->
  dtype sub = dtype array.
Proof.
  unfold _subsample_array. intros H. bind_inv H. destruct (any3 _).
  - bind_inv H. bind_inv H. injection H as <- _.
    unfold resample in Ha0. destruct scipy_ndimage as [fill|].
    + bind_inv Ha0. unfold nd_zoom in Ha0.
      destruct (zoom_shape _ _) as [[m0 m1] m2].
      case_if_in Ha0; [discriminate|]. injection Ha0 as <-. reflexivity.
    + unfold strided in Ha0. destruct (map3 py_ceil a) as [[k0 k1] k2].
      destruct (shape array) as [[n0 n1] n2], (strides array) as [[s0 s1] s2].
      case_if_in Ha0; [discriminate|]. injection Ha0 as <-. reflexivity.
  - injection H as <- _. reflexivity.
Qed.

(** The result fits the budget.  When the budget is positive, numpy's cube
    root [r] of [x = (nbytes / 1e6) / max_data_size] is positive and not
    below the true one ([x <= r * r * r]), no axis has [2^50] samples or
    more, and binary64 rounding lifts no quotient [o_s / r] to the next
    integer, the array returned by [_subsample_array] takes at most
    [max_data_size] megabytes. *)
Theorem subsample_fits_budget (self self' : VTKVolume) (array sub : ndarray) :
  let x := (inject_Z (nbytes array) / 1000000 / max_data_size self)%Q in
  (0 < max_data_size self)%Q ->
  (0 < np_cbrt x)%Q ->
  (x <= np_cbrt x * np_cbrt x * np_cbrt x)%Q ->
  Forall3 (fun o_s => Z.of_nat o_s < 2 ^ 50 /\
                      truncates_exactly (inject_Z (Z.of_nat o_s) / np_cbrt x))
          (shape array) ->
  _subsample_array np_cbrt scipy_ndimage self array = Ok (sub, self') ->
  (inject_Z (nbytes sub) / 1000000 <= max_data_size self)%Q.
Proof.
  intros x HB Hr Hx _ H. set (r := np_cbrt x) in *.
  assert (Hms := max_shape_eq np_cbrt self array ltac:(lra) ltac:(fold x r; lra)).
  fold x r in Hms.
  pose proof (subsample_dtype _ _ _ _ H) as Hdt.
  destruct (shape array) as [[n0 n1] n2] eqn:Hs. simpl in Hms.
  (* the target sizes are positive, else the shrink factors raise *)
  assert (Hpos : Forall3 (fun m => 0 < m)
                   (py_int (inject_Z (Z.of_nat n0) / r),
                    py_int (inject_Z (Z.of_nat n1) / r),
                    py_int (inject_Z (Z.of_nat n2) / r))).
  { assert (H' := H). unfold _subsample_array, dowsnscale_factor_of in H'.
    rewrite Hms in H'. bind_inv H'. clear H'. rewrite Hs in Ha.
    apply mapM3_Ok in Ha. destruct a as [[d0 d1] d2].
    unfold Forall3_2 in Ha. simpl in Ha. destruct Ha as (D0 & D1 & D2).
    apply py_div_Ok in D0 as [D0 _], D1 as [D1 _], D2 as [D2 _].
    apply -> inject_Z_neq0 in D0. apply -> inject_Z_neq0 in D1.
    apply -> inject_Z_neq0 in D2.
    assert (Hnn : forall n : nat, 0 <= py_int (inject_Z (Z.of_nat n) / r)).
    { intros n. destruct (py_int_sign (Z.of_nat n) r (Nat2Z.is_nonneg n)) as [[_ ?]|[? _]];
        [lra | assumption | lra]. }
    pose proof (Hnn n0). pose proof (Hnn n1). pose proof (Hnn n2).
    simpl. lia. }
  pose proof (subsample_le_max_shape _ _ _ _ _ Hms Hpos H) as Hle.
  destruct (shape sub) as [[s0 s1] s2] eqn:Hss.
  unfold Forall3_2 in Hle. simpl in Hle. destruct Hle as (L0 & L1 & L2).
  (* each axis: s * r <= n *)
  assert (Hax : forall (s n : nat),
            Z.of_nat s <= py_int (inject_Z (Z.of_nat n) / r) ->
            (inject_Z (Z.of_nat s) * r <= inject_Z (Z.of_nat n))%Q).
  { intros s n Hsn.
    assert (Hq : (0 <= inject_Z (Z.of_nat n) / r)%Q).
    { apply Qle_shift_div_l; [assumption|]. ring_simplify. unfold Qle. simpl. lia. }
    apply py_int_floor_le in Hq.
    assert (Hs' : (inject_Z (Z.of_nat s) <= inject_Z (Z.of_nat n) / r)%Q).
    { rewrite Zle_Qle in Hsn. lra. }
    assert (E : (inject_Z (Z.of_nat n) == inject_Z (Z.of_nat n) / r * r)%Q)
      by (field; lra).
    rewrite E. nra. }
  apply Hax in L0, L1, L2.
  assert (A0 : (0 <= inject_Z (Z.of_nat s0))%Q) by (unfold Qle; simpl; lia).
  assert (A1 : (0 <= inject_Z (Z.of_nat s1))%Q) by (unfold Qle; simpl; lia).
  assert (A2 : (0 <= inject_Z (Z.of_nat s2))%Q) by (unfold Qle; simpl; lia).
  assert (I0 : (0 <= inject_Z (Z.of_nat (itemsize (dtype array))))%Q)
    by (unfold Qle; simpl; lia).
  assert (Hna : nbytes array = Z.of_nat n0 * Z.of_nat n1 * Z.of_nat n2
                               * Z.of_nat (itemsize (dtype array))).
  { unfold nbytes, nd_size. now rewrite Hs. }
  assert (Hns : nbytes sub = Z.of_nat s0 * Z.of_nat s1 * Z.of_nat s2
                             * Z.of_nat (itemsize (dtype array))).
  { unfold nbytes, nd_size. now rewrite Hss, Hdt. }
  rewrite Hns, !inject_Z_mult.
  assert (Hx' : (inject_Z (Z.of_nat n0) * inject_Z (Z.of_nat n1)
                 * inject_Z (Z.of_nat n2)
                 * inject_Z (Z.of_nat (itemsize (dtype array)))
                 <= r * r * r * 1000000 * max_data_size self)%Q).
  { assert (Hx2 := Hx). unfold x in Hx2. rewrite Hna, !inject_Z_mult in Hx2.
    set (N := (inject_Z (Z.of_nat n0) * inject_Z (Z.of_nat n1)
               * inject_Z (Z.of_nat n2)
               * inject_Z (Z.of_nat (itemsize (dtype array))))%Q) in *.
    assert (E : (N == N / 1000000 / max_data_size self
                      * (1000000 * max_data_size self))%Q) by (field; lra).
    rewrite E. nra. }
  clearbody r. clear Hms Hpos Hax Hna Hns x Hx H.
  set (a0 := inject_Z (Z.of_nat s0)) in *. set (a1 := inject_Z (Z.of_nat s1)) in *.
  set (a2 := inject_Z (Z.of_nat s2)) in *.
  set (I := inject_Z (Z.of_nat (itemsize (dtype array)))) in *.
  set (b0 := inject_Z (Z.of_nat n0)) in *. set (b1 := inject_Z (Z.of_nat n1)) in *.
  set (b2 := inject_Z (Z.of_nat n2)) in *.
  set (B := max_data_size self) in *.
  clearbody a0 a1 a2 I b0 b1 b2 B.
  assert (R0 : (0 <= a0 * r)%Q) by nra.
  assert (R1 : (0 <= a1 * r)%Q) by nra.
  assert (R2 : (0 <= a2 * r)%Q) by nra.
  assert (P01 : (a0 * r * (a1 * r) <= b0 * b1)%Q) by nra.
  assert (Q01 : (0 <= a0 * r * (a1 * r))%Q) by nra.
  assert (P012 : (a0 * r * (a1 * r) * (a2 * r) <= b0 * b1 * b2)%Q) by nra.
  assert (R3 : (0 < r * r * r)%Q) by (repeat apply Qmult_lt_0_compat; assumption).
  assert (PI : (a0 * r * (a1 * r) * (a2 * r) * I <= b0 * b1 * b2 * I)%Q)
    by (apply Qmult_le_compat_r; assumption).
  apply Qle_shift_div_r; [reflexivity|].
  assert (Hfin : (a0 * a1 * a2 * I * (r * r * r) <= B * 1000000 * (r * r * r))%Q).
  { assert (E : (a0 * a1 * a2 * I * (r * r * r)
                 == a0 * r * (a1 * r) * (a2 * r) * I)%Q) by ring.
    rewrite E. lra. }
  assert (Hdiv : forall u v w : Q, (0 < w)%Q -> (u * w <= v * w)%Q -> (u <= v)%Q).
  { intros u v w Hw Huv. apply Qmult_lt_0_le_reg_r with (z := w); assumption. }
  apply (Hdiv _ _ (r * r * r)%Q R3). exact Hfin.
Qed.

End SubsamplerBudget.

(** ** The subsampler: what it keeps and when it fails *)

Lemma slice_index_in_range (n i : nat) (k : Z) :
  1 <= k -> (i < slice_len n k)%nat -> (i * Z.to_nat k < n)%nat.
Proof.
  intros Hk Hi. unfold slice_len in Hi. rewrite Z.abs_eq in Hi by lia.
  assert (Hq : 0 <= (Z.of_nat n + k - 1) / k) by (apply Z.div_pos; lia).
  assert (Hi' : Z.of_nat i + 1 <= (Z.of_nat n + k - 1) / k) by lia.
  pose proof (Z.mul_div_le (Z.of_nat n + k - 1) k ltac:(lia)) as Hm.
  assert (Z.of_nat i * k < Z.of_nat n) by nia.
  apply Nat2Z.inj_lt. rewrite Nat2Z.inj_mul, Z2Nat.id by lia. assumption.
Qed.

Section SubsamplerFrame.

Variable np_cbrt : Q -> Q.
Variable scipy_ndimage : option (ndarray -> tuple3 Q -> list Z).

(** When a resampled axis is left with one sample, the spacing
    [e / (s - 1)] divides by zero, whichever way the array was resampled. *)
Theorem subsample_one_sample_axis (self : VTKVolume) (array sub : ndarray)
    (dfs : tuple3 Q) :
  dowsnscale_factor_of np_cbrt self array = Ok dfs ->
  any3 (map3 (fun d_f => Qgtb d_f 1) dfs) = true ->
  resample scipy_ndimage array dfs = Ok sub ->
  ~ Forall3 (fun s => s <> 1%nat) (shape sub) ->
  _subsample_array np_cbrt scipy_ndimage self array = Raise ZeroDivisionError.
Proof.
  intros Hf Hany Hr Hone. unfold _subsample_array.
  rewrite Hf. unfold_result. rewrite Hany, Hr.
  rewrite (mapM3_some_raise _ _ ZeroDivisionError); [reflexivity| |].
  - intros [e s] e'. apply py_div_raise.
  - intros Hall. apply Hone.
    destruct (shape array) as [[n0 n1] n2], (spacing self) as [[p0 p1] p2],
             (shape sub) as [[s0 s1] s2].
    simpl in *. destruct Hall as ([? H0] & [? H1] & [? H2]).
    apply sub_spacing_axis in H0 as [? _], H1 as [? _], H2 as [? _]. auto.
Qed.

(** [_subsample_array] changes nothing but the stored sub-spacing: the
    result has the dtype of the input, and the spacing, the budget and the
    origin of the pane stay; without [scipy] the result is a view on the
    buffer of the input. *)
Theorem subsample_frame (self self' : VTKVolume) (array sub : ndarray) :
  _subsample_array np_cbrt scipy_ndimage self array = Ok (sub, self') ->
  dtype sub = dtype array /\
  spacing self' = spacing self /\
  max_data_size self' = max_data_size self /\
  origin self' = origin self /\
  (scipy_ndimage = None -> buf sub = buf array).
Proof.
  intros H. split; [eapply subsample_dtype; eassumption|].
  unfold _subsample_array in H. bind_inv H. destruct (any3 _).
  - bind_inv H. bind_inv H. injection H as <- <-.
    repeat split. intros Hnone. unfold resample in Ha0. rewrite Hnone in Ha0.
    unfold strided in Ha0. destruct (map3 py_ceil a) as [[k0 k1] k2].
    destruct (shape array) as [[n0 n1] n2], (strides array) as [[s0 s1] s2].
    case_if_in Ha0; [discriminate|]. injection Ha0 as <-. reflexivity.
  - injection H as <- <-. repeat split.
Qed.

(** Without [scipy] the subsampler invents no sample: every sample of the
    result is a sample of the input, so the least (greatest) sample of the
    result is not below (above) that of the input. *)
Theorem subsample_strided_samples (self self' : VTKVolume) (array sub : ndarray) :
  scipy_ndimage = None ->
  _subsample_array np_cbrt scipy_ndimage self array = Ok (sub, self') ->
  (forall ix, in_range ix (shape sub) ->
     exists ix', in_range ix' (shape array) /\ item sub ix = item array ix') /\
  (forall lo lo', is_min_of array lo -> is_min_of sub lo' -> lo <= lo') /\
  (forall hi hi', is_max_of array hi -> is_max_of sub hi' -> hi' <= hi).
Proof.
  intros Hnone H.
  assert (Hsamples : forall ix, in_range ix (shape sub) ->
     exists ix', in_range ix' (shape array) /\ item sub ix = item array ix').
  { unfold _subsample_array in H. bind_inv H. rename a into dfs.
    destruct (any3 _) eqn:Hany.
    - bind_inv H. bind_inv H. injection H as <- _.
      destruct (fallback_is_strided np_cbrt scipy_ndimage self array dfs Hnone Ha Hany)
        as (Hk & s & Hs & _ & Hshape & Hitem).
      rewrite Hs in Ha0. injection Ha0 as <-.
      intros [[i j] l] Hix. rewrite Hshape in Hix.
      destruct (map3 py_ceil dfs) as [[k0 k1] k2].
      destruct (shape array) as [[n0 n1] n2]. simpl in *.
      destruct Hk as (K0 & K1 & K2). destruct Hix as (I0 & I1 & I2).
      exists ((i * Z.to_nat k0)%nat, (j * Z.to_nat k1)%nat, (l * Z.to_nat k2)%nat).
      split; [|apply (Hitem (i, j, l))].
      repeat split; apply slice_index_in_range; assumption.
    - injection H as <- _. intros ix Hix. eauto. }
  split; [exact Hsamples|]. split.
  - intros lo lo' [_ Hlo] [(ix & Hix & <-) _].
    destruct (Hsamples ix Hix) as (ix' & Hix' & ->). now apply Hlo.
  - intros hi hi' [_ Hhi] [(ix & Hix & <-) _].
    destruct (Hsamples ix Hix) as (ix' & Hix' & ->). now apply Hhi.
Qed.

(** A negative ratio, which a negative budget gives, switches the
    subsampler off: every shrink factor is at most zero and the array is
    returned as it is, whatever its size. *)
Theorem subsample_negative_ratio (self self' : VTKVolume) (array sub : ndarray) :
  (np_cbrt (inject_Z (nbytes array) / 1000000 / max_data_size self) < 0)%Q ->
  _subsample_array np_cbrt scipy_ndimage self array = Ok (sub, self') ->
  sub = array /\ _sub_spacing self' = spacing self.
Proof.
  intros Hneg H. unfold _subsample_array in H. bind_inv H. rename a into dfs.
  assert (Hle : Forall3 (fun d => (d <= 0)%Q) dfs).
  { unfold dowsnscale_factor_of in Ha. bind_inv Ha. rename a into ms.
    unfold max_shape_of in Ha0. bind_inv Ha0. rename a into x.
    apply py_div_Ok in Ha1 as [_ ->].
    apply mapM3_Ok in Ha0, Ha.
    destruct (shape array) as [[n0 n1] n2], ms as [[m0 m1] m2], dfs as [[d0 d1] d2].
    unfold Forall3_2 in Ha0, Ha. simpl in Ha0, Ha.
    destruct Ha0 as (M0 & M1 & M2). destruct Ha as (D0 & D1 & D2).
    assert (Hax : forall (n : nat) m d,
      int_of_np_div (Z.of_nat n)
        (np_cbrt (inject_Z (nbytes array) / 1000000 / max_data_size self)) = Ok m ->
      py_div (inject_Z (Z.max (Z.of_nat n) m)) (inject_Z m) = Ok d -> (d <= 0)%Q).
    { intros n m d Hm Hd. unfold int_of_np_div in Hm.
      case_if_in Hm; [destruct (Z.of_nat n =? 0); discriminate|].
      injection Hm as <-.
      match goal with E : Qeq_bool _ _ = false |- _ => apply Qeq_bool_neq in E;
        destruct (py_int_sign (Z.of_nat n) _ (Nat2Z.is_nonneg n) E) as [[? _]|[_ Hm]] end;
        [lra|].
      destruct (shrink_factor_cases _ _ _ (Nat2Z.is_nonneg n) Hd) as [[? _]|[_ ?]];
        [lia | assumption]. }
    simpl. split; [exact (Hax _ _ _ M0 D0)|].
    split; [exact (Hax _ _ _ M1 D1) | exact (Hax _ _ _ M2 D2)]. }
  destruct dfs as [[d0 d1] d2]. destruct Hle as (L0 & L1 & L2). simpl in H.
  rewrite !(proj2 (Qgtb_false _ _)) in H by lra. simpl in H.
  injection H as <- <-. split; reflexivity.
Qed.

End SubsamplerFrame.

(** ** The volume record: transposition and size *)

Lemma fmap_bind_list {A B C} (f : B -> C) (g : A -> list B) (l : list A) :
  f <$> (l ≫= g) = l ≫= (fun x => f <$> g x).
Proof.
  induction l as [|x l IH]; [reflexivity|].
  cbn. now rewrite fmap_app, IH.
Qed.

Lemma bind_ext_list {A B} (g h : A -> list B) (l : list A) :
  (forall x, g x = h x) -> l ≫= g = l ≫= h.
Proof.
  intros E. induction l as [|x l IH]; [reflexivity|]. cbn. now rewrite E, IH.
Qed.

(** The Fortran order of the reversed shape is the C order, index triples
    reversed. *)
Lemma indices_F_rev3 (sh : tuple3 nat) :
  indices_F (rev3 sh) = rev3 <$> indices_C sh.
Proof.
  destruct sh as [[n0 n1] n2]. unfold indices_F, indices_C, rev3.
  rewrite fmap_bind_list. apply bind_ext_list. intros i.
  rewrite fmap_bind_list. apply bind_ext_list. intros j.
  rewrite fmap_bind_list. apply bind_ext_list. intros k. reflexivity.
Qed.

Lemma item_transpose (a : ndarray) (ix : tuple3 nat) :
  item (transpose a) (rev3 ix) = item a ix.
Proof.
  destruct ix as [[i j] k]. unfold item, transpose. simpl.
  destruct (strides a) as [[s0 s1] s2]. simpl. f_equal. f_equal. ring.
Qed.

(** The C-order samples of an array are the Fortran-order samples of its
    transpose. *)
Lemma ravel_C_transpose (a : ndarray) : ravel_F (transpose a) = ravel_C a.
Proof.
  unfold ravel_F, ravel_C. cbn [shape transpose]. rewrite indices_F_rev3.
  rewrite <- list_fmap_compose. apply list_fmap_ext.
  intros _ ix _. apply item_transpose.
Qed.

Lemma in_range_rev3 (ix sh : tuple3 nat) :
  in_range (rev3 ix) (rev3 sh) <-> in_range ix sh.
Proof.
  destruct ix as [[i j] k], sh as [[n0 n1] n2]. simpl. tauto.
Qed.

Lemma rev3_involutive {A} (t : tuple3 A) : rev3 (rev3 t) = t.
Proof. now destruct t as [[a b] c]. Qed.

Lemma is_min_of_transpose (a : ndarray) (v : Z) :
  is_min_of (transpose a) v <-> is_min_of a v.
Proof.
  unfold is_min_of. cbn [shape transpose]. split.
  - intros [(ix & Hix & E) Hle]. split.
    + exists (rev3 ix). rewrite <- (rev3_involutive ix) in Hix, E.
      rewrite in_range_rev3 in Hix. rewrite item_transpose in E. eauto.
    + intros ix' Hix'. rewrite <- item_transpose. apply Hle.
      now apply in_range_rev3.
  - intros [(ix & Hix & E) Hle]. split.
    + exists (rev3 ix). rewrite item_transpose. split; [now apply in_range_rev3 | assumption].
    + intros ix' Hix'. rewrite <- (rev3_involutive ix') in Hix' |- *.
      rewrite in_range_rev3 in Hix'. rewrite item_transpose. now apply Hle.
Qed.

Lemma is_max_of_transpose (a : ndarray) (v : Z) :
  is_max_of (transpose a) v <-> is_max_of a v.
Proof.
  unfold is_max_of. cbn [shape transpose]. split.
  - intros [(ix & Hix & E) Hle]. split.
    + exists (rev3 ix). rewrite <- (rev3_involutive ix) in Hix, E.
      rewrite in_range_rev3 in Hix. rewrite item_transpose in E. eauto.
    + intros ix' Hix'. rewrite <- item_transpose. apply Hle.
      now apply in_range_rev3.
  - intros [(ix & Hix & E) Hle]. split.
    + exists (rev3 ix). rewrite item_transpose. split; [now apply in_range_rev3 | assumption].
    + intros ix' Hix'. rewrite <- (rev3_involutive ix') in Hix' |- *.
      rewrite in_range_rev3 in Hix'. rewrite item_transpose. now apply Hle.
Qed.

Lemma is_min_of_unique (a : ndarray) (v w : Z) :
  is_min_of a v -> is_min_of a w -> v = w.
Proof.
  intros [(ix & Hix & <-) Hv] [(iy & Hiy & <-) Hw].
  pose proof (Hv iy Hiy). pose proof (Hw ix Hix). lia.
Qed.

Lemma is_max_of_unique (a : ndarray) (v w : Z) :
  is_max_of a v -> is_max_of a w -> v = w.
Proof.
  intros [(ix & Hix & <-) Hv] [(iy & Hiy & <-) Hw].
  pose proof (Hv iy Hiy). pose proof (Hw ix Hix). lia.
Qed.

Lemma nd_size_transpose (a : ndarray) : nd_size (transpose a) = nd_size a.
Proof.
  unfold nd_size. cbn [shape transpose]. destruct (shape a) as [[n0 n1] n2].
  simpl. ring.
Qed.

Lemma nd_min_Ok (a : ndarray) : nd_size a <> 0 -> exists v, nd_min a = Ok v.
Proof.
  intros H. apply ravel_C_nonempty in H. unfold nd_min.
  destruct (ravel_C a); [congruence | eauto].
Qed.

Lemma nd_max_Ok (a : ndarray) : nd_size a <> 0 -> exists v, nd_max a = Ok v.
Proof.
  intros H. apply ravel_C_nonempty in H. unfold nd_max.
  destruct (ravel_C a); [congruence | eauto].
Qed.

(** The record of an array that is not F-contiguous, but whose transpose is,
    is the record of the transpose for the reversed sub-spacing: reversing
    dims and spacing describes the same volume with its axes in the other
    order. *)
Theorem volume_record_of_transpose (self : VTKVolume) (sub_array : ndarray) :
  f_contiguous sub_array = false ->
  f_contiguous (transpose sub_array) = true ->
  _volume_from_array self sub_array =
  _volume_from_array (set_sub_spacing self (rev3 (_sub_spacing self)))
                     (transpose sub_array).
Proof.
  intros HC HF. destruct (Z.eq_dec (nd_size sub_array) 0) as [E | NE].
  - rewrite !volume_from_empty_array; [reflexivity| |assumption].
    now rewrite nd_size_transpose.
  - destruct (nd_min_Ok _ NE) as [lo Hlo], (nd_max_Ok _ NE) as [hi Hhi].
    assert (NE' : nd_size (transpose sub_array) <> 0) by now rewrite nd_size_transpose.
    destruct (nd_min_Ok _ NE') as [lo' Hlo'], (nd_max_Ok _ NE') as [hi' Hhi'].
    assert (lo' = lo).
    { pose proof (nd_min_spec _ _ Hlo) as M. pose proof (nd_min_spec _ _ Hlo') as M'.
      apply -> is_min_of_transpose in M'. exact (is_min_of_unique _ _ _ M' M). }
    assert (hi' = hi).
    { pose proof (nd_max_spec _ _ Hhi) as M. pose proof (nd_max_spec _ _ Hhi') as M'.
      apply -> is_max_of_transpose in M'. exact (is_max_of_unique _ _ _ M' M). }
    subst. unfold _volume_from_array. rewrite HC, HF, Hlo, Hhi, Hlo', Hhi'.
    unfold_result. rewrite ravel_C_transpose. reflexivity.
Qed.

Lemma base64encode_length (l : list byte) :
  String.length (base64encode l) = (4 * ((length l + 2) / 3))%nat.
Proof.
  assert (H : forall n (l : list byte), (length l < n)%nat ->
            String.length (base64encode l) = (4 * ((length l + 2) / 3))%nat).
  { clear l. induction n as [|n IH]; intros l Hl; [lia|].
    destruct l as [|a [|b [|c rest]]]; try reflexivity.
    cbn [base64encode String.length length]. rewrite IH by (simpl in Hl; lia).
    replace (S (S (S (length rest))) + 2)%nat with (1 * 3 + (length rest + 2))%nat by lia.
    rewrite Nat.div_add_l by lia. lia. }
  apply (H (S (length l))). lia.
Qed.

Lemma le_bytes_length (w : nat) (v : Z) : length (le_bytes w v) = w.
Proof. revert v. induction w as [|w IH]; intros v; simpl; [reflexivity | now rewrite IH]. Qed.

Lemma tobytes_length (d : np_dtype) (l : list Z) :
  length (tobytes d l) = (length l * itemsize d)%nat.
Proof.
  unfold tobytes. induction l as [|x l IH]; [reflexivity|].
  cbn. rewrite length_app, le_bytes_length, IH. lia.
Qed.

(** The buffer of the record is the base64 text of [nbytes] bytes: four
    characters for every three bytes, the last group padded. *)
Theorem volume_buffer_length (self : VTKVolume) (sub_array : ndarray)
    (volume : volume_data) :
  _volume_from_array self sub_array = Ok volume ->
  Z.of_nat (String.length (vd_buffer volume)) = 4 * ((nbytes sub_array + 2) / 3).
Proof.
  unfold _volume_from_array. intros H. bind_inv H. bind_inv H.
  injection H as <-. cbn [vd_buffer]. rewrite base64encode_length, tobytes_length.
  assert (Hlen : length (if f_contiguous sub_array then ravel_F sub_array
                         else ravel_C sub_array) = Z.to_nat (nd_size sub_array)).
  { unfold ravel_F, ravel_C, nd_size. destruct (shape sub_array) as [[n0 n1] n2].
    destruct (f_contiguous sub_array);
      rewrite length_fmap, ?indices_F_length, ?indices_C_length; lia. }
  rewrite Hlen. unfold nbytes.
  assert (0 <= nd_size sub_array).
  { unfold nd_size. destruct (shape sub_array) as [[n0 n1] n2]. lia. }
  rewrite Nat2Z.inj_mul, Nat2Z.inj_div, Nat2Z.inj_add, Nat2Z.inj_mul, Z2Nat.id by lia.
  reflexivity.
Qed.

(** ** Rounding *)

Lemma py_round_near (x : Q) :
  (inject_Z (py_round x) - x <= 1 # 2)%Q /\ (x - inject_Z (py_round x) <= 1 # 2)%Q.
Proof.
  unfold py_round. cbv zeta.
  pose proof (Qfloor_le x) as Hf. pose proof (Qlt_floor x) as Hc.
  rewrite inject_Z_plus in Hc. change (inject_Z 1) with 1%Q in Hc.
  destruct (x - inject_Z (Qfloor x) ?= 1 # 2)%Q eqn:E.
  - apply <- Qeq_alt in E. destruct (Z.even (Qfloor x)).
    + split; lra.
    + rewrite inject_Z_plus. change (inject_Z 1) with 1%Q. split; lra.
  - apply <- Qlt_alt in E. split; lra.
  - apply <- Qgt_alt in E. rewrite inject_Z_plus. change (inject_Z 1) with 1%Q.
    split; lra.
Qed.

Lemma py_round_int (x : Q) (n : Z) : (x == inject_Z n)%Q -> py_round x = n.
Proof.
  intros E. unfold py_round. cbv zeta.
  assert (Hfl : Qfloor x = n) by (rewrite E; apply Qfloor_Z).
  rewrite Hfl.
  assert (Hlt : (x - inject_Z n < 1 # 2)%Q) by (rewrite E; lra).
  now rewrite (proj1 (Qlt_alt _ _) Hlt).
Qed.

Lemma py_round_nonneg (x : Q) : (0 <= x)%Q -> 0 <= py_round x.
Proof.
  intros Hx. destruct (py_round_near x) as [_ H].
  assert (Hq : (-1 < inject_Z (py_round x))%Q) by lra.
  change (-1)%Q with (inject_Z (-1)) in Hq. rewrite <- Zlt_Qlt in Hq. lia.
Qed.

(** ** VTKVolume: [_update] and the slice positions *)

Section VolumeUpdate.

Variable np_cbrt : Q -> Q.
Variable scipy_ndimage : option (ndarray -> tuple3 Q -> list Z).

Lemma subsample_axes_le (self self' : VTKVolume) (array sub : ndarray) :
  _subsample_array np_cbrt scipy_ndimage self array = Ok (sub, self') ->
  Forall3_2 (fun s o => (s <= o)%nat) (shape sub) (shape array).
Proof.
  unfold _subsample_array. intros H. bind_inv H. rename a into dfs.
  destruct (any3 _).
  - bind_inv H. bind_inv H. injection H as <- _.
    apply factors_cases in Ha.
    eapply resample_shape_le; [|eassumption].
    destruct dfs as [[d0 d1] d2]. simpl in *. tauto.
  - injection H as <- _.
    destruct (shape array) as [[n0 n1] n2]. unfold Forall3_2. simpl. lia.
Qed.

(** A pane without object has no volume data: [_update] empties the model
    and leaves the slices alone. *)
Theorem volume_update_no_object (self : Volume.t) (model : option Volume.plot) :
  Volume.object self = None ->
  exists self',
    Volume._update np_cbrt scipy_ndimage self model
      = Ok (self', (fun _ => {| Volume.data := None |}) <$> model) /\
    Volume._volume_data self' = None /\
    (Volume.slice_i self', Volume.slice_j self', Volume.slice_k self')
      = (Volume.slice_i self, Volume.slice_j self, Volume.slice_k self) /\
    Volume.slice_bounds self' = Volume.slice_bounds self.
Proof.
  intros Hobj. unfold Volume._update, Volume._get_volume_data. rewrite Hobj.
  unfold_result. eexists. split; [reflexivity|]. repeat split.
Qed.

(** An object whose record can be built has no empty axis, and
    [_get_volume_data] leaves it in place. *)
Lemma volume_data_built (self s1 : Volume.t) (array : ndarray)
    (volume : volume_data) :
  Volume.object self = Some array ->
  Volume._get_volume_data np_cbrt scipy_ndimage self = Ok (Some volume, s1) ->
  Forall3 (fun n => (1 <= n)%nat) (shape array) /\ Volume.object s1 = Some array.
Proof.
  intros Hobj Hvd. unfold Volume._get_volume_data in Hvd. rewrite Hobj in Hvd.
  bind_inv Hvd. destruct a as [sub p]. bind_inv Hvd. split.
  - apply subsample_axes_le in Ha.
    assert (Hne : nd_size sub <> 0).
    { intros E. rewrite (volume_from_empty_array _ _ E) in Ha0. discriminate. }
    unfold nd_size in Hne.
    destruct (shape sub) as [[s0 s1'] s2], (shape array) as [[n0 n1] n2].
    unfold Forall3_2 in Ha. simpl in Ha. destruct Ha as (L0 & L1 & L2).
    assert (s0 <> 0 /\ s1' <> 0 /\ s2 <> 0)%nat as (? & ? & ?).
    { repeat split; intros ->; apply Hne; lia. }
    simpl. lia.
  - now injection Hvd as _ <-.
Qed.

(** The middle of an axis lies within its bounds. *)
Lemma middle_in_bounds (n : nat) :
  (1 <= n)%nat -> 0 <= (Z.of_nat n - 1) / 2 <= Z.of_nat n - 1.
Proof.
  intros Hn. split; [apply Z.div_pos; lia|].
  apply Z.div_le_upper_bound; lia.
Qed.

Lemma set_integer_middle (n : nat) :
  (1 <= n)%nat ->
  set_integer (0, Z.of_nat n - 1) ((Z.of_nat n - 1) / 2) = Ok ((Z.of_nat n - 1) / 2).
Proof.
  intros Hn. unfold set_integer. cbn [fst snd].
  destruct (middle_in_bounds n Hn) as [H0 H1].
  now rewrite (proj2 (Z.leb_le _ _) H0), (proj2 (Z.leb_le _ _) H1).
Qed.

(** When the volume record can be built, [_update] succeeds: the default
    slice positions [(n - 1) // 2] satisfy the bounds [(0, n - 1)] it has
    just set from the shape of the object, and the dimensions it stores are
    that shape and the dims of the record. *)
Theorem volume_update_slices (self s1 : Volume.t) (model : option Volume.plot)
    (array : ndarray) (volume : volume_data) :
  Volume.object self = Some array ->
  Volume._get_volume_data np_cbrt scipy_ndimage self = Ok (Some volume, s1) ->
  exists self',
    Volume._update np_cbrt scipy_ndimage self model
      = Ok (self', (fun _ => {| Volume.data := Some volume |}) <$> model) /\
    Volume.object self' = Some array /\
    Volume._volume_data self' = Some volume /\
    Volume._orginal_dimensions self' = Some (shape array) /\
    Volume._subsample_dimensions self' = Some (vd_dims volume) /\
    Volume.slice_bounds self' =
      map3 (fun n => Some (0, Z.of_nat n - 1)) (shape array) /\
    (Volume.slice_i self', Volume.slice_j self', Volume.slice_k self')
      = map3 (fun n => (Z.of_nat n - 1) / 2) (shape array) /\
    Forall3 (fun n => 0 <= (Z.of_nat n - 1) / 2 <= Z.of_nat n - 1) (shape array).
Proof.
  intros Hobj Hvd.
  destruct (volume_data_built self s1 array volume Hobj Hvd) as [Hpos Hs1].
  unfold Volume._update. rewrite Hvd. unfold_result.
  unfold Volume._get_object_dimensions. rewrite Hs1.
  destruct (shape array) as [[n0 n1] n2]. destruct Hpos as (P0 & P1 & P2).
  cbn [map3 nth3]. rewrite !set_integer_middle by assumption.
  eexists. split; [reflexivity|]. cbn.
  repeat split; auto; apply middle_in_bounds; assumption.
Qed.

End VolumeUpdate.

(** ** VTKVolume: scaling the slice positions *)

Lemma scale_items_cons (self : Volume.t) (to_sub : bool) (k : string) (v : msg_value)
    (rest msg' : list (string * msg_value)) :
  Volume.scale_items self to_sub ((k, v) :: rest) = Ok msg' ->
  exists sub_dim ori_dim v' rest',
    Volume._subsample_dimensions self = Some sub_dim /\
    Volume._orginal_dimensions self = Some ori_dim /\
    msg' = (k, v') :: rest' /\
    Volume.scale_items self to_sub rest = Ok rest' /\
    match slice_params k with
    | Some index =>
        if to_sub
        then scale_value v (Z.of_nat (nth3 sub_dim index)) (Z.of_nat (nth3 ori_dim index))
             = Ok v'
        else scale_value v (Z.of_nat (nth3 ori_dim index)) (Z.of_nat (nth3 sub_dim index))
             = Ok v'
    | None => v' = v
    end.
Proof.
  cbn [Volume.scale_items]. intros H.
  destruct (Volume._subsample_dimensions self) as [sub|]; [|discriminate].
  destruct (Volume._orginal_dimensions self) as [ori|]; [|discriminate].
  cbn [Volume.getattr] in H. unfold_result.
  destruct (slice_params k) as [index|].
  - destruct to_sub.
    + destruct (scale_value v _ _) as [v'|] eqn:E; [|discriminate].
      destruct (Volume.scale_items self true rest) as [rest'|]; [|discriminate].
      injection H as <-. exists sub, ori, v', rest'. auto.
    + destruct (scale_value v _ _) as [v'|] eqn:E; [|discriminate].
      destruct (Volume.scale_items self false rest) as [rest'|]; [|discriminate].
      injection H as <-. exists sub, ori, v', rest'. auto.
  - destruct (Volume.scale_items self to_sub rest) as [rest'|]; [|discriminate].
    injection H as <-. exists sub, ori, v, rest'. auto.
Qed.

Lemma scale_value_int (n num den : Z) :
  den <> 0 ->
  scale_value (Plain (PInt n)) num den
  = Ok (Plain (PInt (py_round (inject_Z (n * num) / inject_Z den)))).
Proof.
  intros Hd. unfold scale_value, scale_slice, py_div.
  rewrite Qeq_bool_false by now apply inject_Z_neq0. reflexivity.
Qed.

Lemma scale_value_int_inv (n num den : Z) (v' : msg_value) :
  scale_value (Plain (PInt n)) num den = Ok v' ->
  den <> 0 /\ v' = Plain (PInt (py_round (inject_Z (n * num) / inject_Z den))).
Proof.
  unfold scale_value, scale_slice. unfold_result.
  destruct (py_div _ _) as [q|] eqn:E; [|discriminate].
  apply py_div_Ok in E as [Hd ->]. apply -> inject_Z_neq0 in Hd.
  intros [= <-]. auto.
Qed.

Lemma scaled_slice_bounds (n s o : Z) :
  0 <= s -> 0 <= n <= o - 1 ->
  0 <= py_round (inject_Z (n * s) / inject_Z o) <= s.
Proof.
  intros Hs Hn.
  assert (Ho : (0 < inject_Z o)%Q) by (unfold Qlt; simpl; lia).
  assert (Hns : (0 <= inject_Z (n * s))%Q) by (unfold Qle; simpl; nia).
  split.
  - apply py_round_nonneg. apply Qle_shift_div_l; [assumption|]. lra.
  - apply py_round_le. apply Qle_shift_div_r; [assumption|].
    rewrite <- inject_Z_mult, <- Zle_Qle. nia.
Qed.

(** Scaling a position to the subsampled volume and back. *)
Lemma scaled_slice_round_trip (n s o : Z) :
  0 < s -> 0 < o ->
  let n1 := py_round (inject_Z (n * s) / inject_Z o) in
  let n2 := py_round (inject_Z (n1 * o) / inject_Z s) in
  2 * s * Z.abs (n2 - n) <= o + s /\ (s = o -> n2 = n).
Proof.
  intros Hs Ho n1 n2. split.
  - set (q1 := (inject_Z (n * s) / inject_Z o)%Q) in *.
    set (q2 := (inject_Z (n1 * o) / inject_Z s)%Q) in *.
    assert (HS : (0 < inject_Z s)%Q) by (unfold Qlt; simpl; lia).
    assert (HO : (0 < inject_Z o)%Q) by (unfold Qlt; simpl; lia).
    assert (E1 : (q1 * inject_Z o == inject_Z n * inject_Z s)%Q).
    { unfold q1. rewrite inject_Z_mult. field. lra. }
    assert (E2 : (q2 * inject_Z s == inject_Z n1 * inject_Z o)%Q).
    { unfold q2. rewrite inject_Z_mult. field. lra. }
    destruct (py_round_near q1) as [A1 B1]. fold n1 in A1, B1.
    destruct (py_round_near q2) as [A2 B2]. fold n2 in A2, B2.
    assert (U : (inject_Z (2 * s * (n2 - n)) <= inject_Z (o + s))%Q).
    { rewrite !inject_Z_mult, inject_Z_plus. unfold Z.sub.
      rewrite inject_Z_plus, inject_Z_opp. change (inject_Z 2) with 2%Q. nra. }
    assert (L : (inject_Z (- (o + s)) <= inject_Z (2 * s * (n2 - n)))%Q).
    { rewrite !inject_Z_mult, inject_Z_opp, inject_Z_plus. unfold Z.sub.
      rewrite inject_Z_plus, inject_Z_opp. change (inject_Z 2) with 2%Q. nra. }
    rewrite <- Zle_Qle in U, L. lia.
  - intros ->. assert (Hn1 : n1 = n).
    { unfold n1. apply py_round_int. rewrite inject_Z_mult. field.
      unfold Qeq. simpl. lia. }
    unfold n2. rewrite Hn1. apply py_round_int. rewrite inject_Z_mult. field.
    unfold Qeq. simpl. lia.
Qed.

(** The loop over an integer slice position of the original volume. *)
Lemma scale_items_bounds (self : Volume.t) (msg0 msg' : list (string * msg_value))
    (sub_dim ori_dim : tuple3 nat) :
  Volume._subsample_dimensions self = Some sub_dim ->
  Volume._orginal_dimensions self = Some ori_dim ->
  Volume.scale_items self true msg0 = Ok msg' ->
  Forall2 (fun kv kv' =>
             fst kv' = fst kv /\
             match slice_params (fst kv) with
             | None => snd kv' = snd kv
             | Some index =>
                 forall n, snd kv = Plain (PInt n) ->
                   0 <= n <= Z.of_nat (nth3 ori_dim index) - 1 ->
                   exists n', snd kv' = Plain (PInt n') /\
                              0 <= n' <= Z.of_nat (nth3 sub_dim index)
             end) msg0 msg'.
Proof.
  intros Hsub Hori. revert msg'.
  induction msg0 as [|[k v] msg IH]; intros msg' H.
  - injection H as <-. constructor.
  - apply scale_items_cons in H
      as (sub & ori & v' & rest' & Hs & Ho & -> & Hrest & Hv).
    rewrite Hsub in Hs. rewrite Hori in Ho. injection Hs as <-. injection Ho as <-.
    constructor; [|now apply IH]. cbn [fst snd]. split; [reflexivity|].
    destruct (slice_params k) as [index|]; [|exact Hv].
    intros n -> Hn. apply scale_value_int_inv in Hv as [_ ->].
    eexists. split; [reflexivity|]. apply scaled_slice_bounds; lia.
Qed.

(** The loop there and back. *)
Lemma scale_items_round_trip (self : Volume.t)
    (msg0 msg1 msg2 : list (string * msg_value)) (sub_dim ori_dim : tuple3 nat) :
  Volume._subsample_dimensions self = Some sub_dim ->
  Volume._orginal_dimensions self = Some ori_dim ->
  Volume.scale_items self true msg0 = Ok msg1 ->
  Volume.scale_items self false msg1 = Ok msg2 ->
  Forall2 (fun kv kv' =>
             fst kv' = fst kv /\
             match slice_params (fst kv) with
             | None => snd kv' = snd kv
             | Some index =>
                 forall n, snd kv = Plain (PInt n) ->
                   let s := Z.of_nat (nth3 sub_dim index) in
                   let o := Z.of_nat (nth3 ori_dim index) in
                   exists n2, snd kv' = Plain (PInt n2) /\
                              2 * s * Z.abs (n2 - n) <= o + s /\
                              (s = o -> n2 = n)
             end) msg0 msg2.
Proof.
  intros Hsub Hori. revert msg1 msg2.
  induction msg0 as [|[k v] msg IH]; intros msg1 msg2 H1 H2.
  - injection H1 as <-. injection H2 as <-. constructor.
  - apply scale_items_cons in H1
      as (sub & ori & v1 & rest1 & Hs & Ho & -> & Hrest1 & Hv1).
    apply scale_items_cons in H2
      as (sub' & ori' & v2 & rest2 & Hs' & Ho' & -> & Hrest2 & Hv2).
    rewrite Hsub in Hs, Hs'. rewrite Hori in Ho, Ho'.
    injection Hs as <-. injection Ho as <-. injection Hs' as <-. injection Ho' as <-.
    constructor; [|eapply IH; eassumption]. cbn [fst snd].
    split; [reflexivity|].
    destruct (slice_params k) as [index|]; [|congruence].
    intros n ->. cbv zeta. apply scale_value_int_inv in Hv1 as [Hone ->].
    apply scale_value_int_inv in Hv2 as [Hsne ->].
    eexists. split; [reflexivity|].
    apply scaled_slice_round_trip; lia.
Qed.

Section VolumeMessages.

Variable PaneBase_process_param_change :
  list (string * msg_value) -> result (list (string * msg_value)).
Variable PaneBase_process_property_change :
  list (string * msg_value) -> result (list (string * msg_value)).
Variable VTKAxes : option (list (string * pyval) -> result (list (string * pyval))).

(** Let [msg0] be the message the call to [super] returns, that is
    [AbstractVTK._process_param_change] of the argument.  When
    [_process_param_change] returns, it returns [msg0] with its keys in
    their order, every value that is not a slice position as it is, and a
    slice position within [0, ori - 1] sent to one within [0, sub], [sub]
    included. *)
Theorem process_param_change_bounds (self : Volume.t) (array : ndarray)
    (msg msg' : list (string * msg_value)) (sub_dim ori_dim : tuple3 nat) :
  Volume.object self = Some array ->
  Volume._subsample_dimensions self = Some sub_dim ->
  Volume._orginal_dimensions self = Some ori_dim ->
  Volume._process_param_change PaneBase_process_param_change VTKAxes self msg
    = Ok msg' ->
  exists msg0,
    AbstractVTK._process_param_change PaneBase_process_param_change VTKAxes msg
      = Ok msg0 /\
    Forall2 (fun kv kv' =>
               fst kv' = fst kv /\
               match slice_params (fst kv) with
               | None => snd kv' = snd kv
               | Some index =>
                   forall n, snd kv = Plain (PInt n) ->
                     0 <= n <= Z.of_nat (nth3 ori_dim index) - 1 ->
                     exists n', snd kv' = Plain (PInt n') /\
                                0 <= n' <= Z.of_nat (nth3 sub_dim index)
               end) msg0 msg'.
Proof.
  intros Hobj Hsub Hori H. unfold Volume._process_param_change in H.
  bind_inv H. rename a into msg0. rewrite Hobj in H.
  exists msg0. split; [exact Ha|].
  eapply scale_items_bounds; eassumption.
Qed.

(** A message sent through [_process_param_change] and the result through
    [_process_property_change], when [PaneBase] passes that result on as it
    is: with [msg0] the message returned by the first call to [super], every
    slice position of [msg0] comes back within [(ori + sub) / (2 * sub)] of
    where it started, and exactly there when the two dimensions are equal;
    everything else of [msg0] comes back as it was. *)
Theorem slice_round_trip (self : Volume.t) (array : ndarray)
    (msg msg1 msg2 : list (string * msg_value)) (sub_dim ori_dim : tuple3 nat) :
  Volume.object self = Some array ->
  Volume._subsample_dimensions self = Some sub_dim ->
  Volume._orginal_dimensions self = Some ori_dim ->
  Volume._process_param_change PaneBase_process_param_change VTKAxes self msg
    = Ok msg1 ->
  PaneBase_process_property_change msg1 = Ok msg1 ->
  Volume._process_property_change PaneBase_process_property_change self msg1
    = Ok msg2 ->
  exists msg0,
    AbstractVTK._process_param_change PaneBase_process_param_change VTKAxes msg
      = Ok msg0 /\
    Forall2 (fun kv kv' =>
               fst kv' = fst kv /\
               match slice_params (fst kv) with
               | None => snd kv' = snd kv
               | Some index =>
                   forall n, snd kv = Plain (PInt n) ->
                     let s := Z.of_nat (nth3 sub_dim index) in
                     let o := Z.of_nat (nth3 ori_dim index) in
                     exists n2, snd kv' = Plain (PInt n2) /\
                                2 * s * Z.abs (n2 - n) <= o + s /\
                                (s = o -> n2 = n)
               end) msg0 msg2.
Proof.
  intros Hobj Hsub Hori H1 Hbase H2.
  unfold Volume._process_param_change in H1. bind_inv H1. rename a into msg0.
  unfold Volume._process_property_change in H2. rewrite Hbase in H2.
  unfold_result. rewrite Hobj in H1, H2.
  exists msg0. split; [exact Ha|].
  eapply scale_items_round_trip; eassumption.
Qed.

(** For a pane without object the two methods return what the call to
    [super] returns.  For a pane with an object whose dimensions were never
    stored, they raise [AttributeError] whenever the message [super] returns
    is not empty, whether or not it holds a slice position. *)
Theorem process_param_change_unset (self : Volume.t)
    (msg : list (string * msg_value)) :
  (Volume.object self = None ->
   Volume._process_param_change PaneBase_process_param_change VTKAxes self msg
     = AbstractVTK._process_param_change PaneBase_process_param_change VTKAxes msg /\
   Volume._process_property_change PaneBase_process_property_change self msg
     = PaneBase_process_property_change msg) /\
  (forall array, Volume.object self = Some array ->
   Volume._subsample_dimensions self = None \/ Volume._orginal_dimensions self = None ->
   (forall msg0,
      AbstractVTK._process_param_change PaneBase_process_param_change VTKAxes msg
        = Ok msg0 ->
      msg0 <> [] ->
      Volume._process_param_change PaneBase_process_param_change VTKAxes self msg
        = Raise AttributeError) /\
   (forall msg0,
      PaneBase_process_property_change msg = Ok msg0 ->
      msg0 <> [] ->
      Volume._process_property_change PaneBase_process_property_change self msg
        = Raise AttributeError)).
Proof.
  unfold Volume._process_param_change, Volume._process_property_change. split.
  - intros ->. unfold_result. split.
    + now destruct (AbstractVTK._process_param_change _ _ msg).
    + now destruct (PaneBase_process_property_change msg).
  - intros array -> Hnone.
    assert (Hloop : forall to_sub msg0, msg0 <> [] ->
              Volume.scale_items self to_sub msg0 = Raise AttributeError).
    { intros to_sub [|[k v] rest] Hne; [congruence|].
      cbn [Volume.scale_items].
      destruct Hnone as [-> | ->]; [reflexivity|].
      now destruct (Volume._subsample_dimensions self). }
    split; intros msg0 -> Hne; unfold_result; now apply Hloop.
Qed.

End VolumeMessages.

(** ** VTKVolume: the axes of the slice positions *)

Lemma nth3_Forall3 {A} (P : A -> Prop) (t : tuple3 A) (index : nat) :
  Forall3 P t -> P (nth3 t index).
Proof.
  destruct t as [[a b] c]. intros (Ha & Hb & Hc).
  destruct index as [|[|index]]; assumption.
Qed.

Section VolumeAxes.

Variable np_cbrt : Q -> Q.
Variable scipy_ndimage : option (ndarray -> tuple3 Q -> list Z).
Variable PaneBase_process_param_change :
  list (string * msg_value) -> result (list (string * msg_value)).
Variable VTKAxes : option (list (string * pyval) -> result (list (string * pyval))).

(** After [_update], a slice position along axis [index] of the object is
    scaled by [dims[index] / shape[index]], where [dims] are the dims of the
    record: the shape of the subsampled array when that is F-contiguous, and
    its shape reversed when it is not.  For an array in C order the position
    along the first axis is so scaled with the length of the last.  The
    message scaled is the one the call to [super] returns. *)
Theorem update_then_param_change (self self' : Volume.t)
    (model model' : option Volume.plot) (array sub : ndarray) (p' : VTKVolume) :
  Volume.object self = Some array ->
  _subsample_array np_cbrt scipy_ndimage (Volume.params self) array = Ok (sub, p') ->
  Volume._update np_cbrt scipy_ndimage self model = Ok (self', model') ->
  let dims := if f_contiguous sub then shape sub else rev3 (shape sub) in
  forall msg k index n, slice_params k = Some index ->
    AbstractVTK._process_param_change PaneBase_process_param_change VTKAxes msg
      = Ok [(k, Plain (PInt n))] ->
    Volume._process_param_change PaneBase_process_param_change VTKAxes self' msg =
      Ok [(k, Plain (PInt (py_round (inject_Z (n * Z.of_nat (nth3 dims index))
                              / inject_Z (Z.of_nat (nth3 (shape array) index))))))].
Proof.
  intros Hobj Hsub Hup dims msg k index n Hk Hsuper.
  assert (Hvd : exists volume s1,
            Volume._get_volume_data np_cbrt scipy_ndimage self = Ok (Some volume, s1) /\
            vd_dims volume = dims).
  { unfold Volume._update in Hup. bind_inv Hup. destruct a as [vd s1].
    unfold Volume._get_volume_data in *. rewrite Hobj, Hsub in *.
    unfold_result. destruct (_volume_from_array p' sub) as [volume|] eqn:Hv;
      [|discriminate].
    exists volume. eexists. split; [reflexivity|].
    unfold _volume_from_array in Hv. bind_inv Hv. bind_inv Hv.
    injection Hv as <-. reflexivity. }
  destruct Hvd as (volume & s1 & Hvd & Hdims).
  destruct (volume_data_built np_cbrt scipy_ndimage self s1 array volume Hobj Hvd)
    as [Hpos Hs1].
  unfold Volume._update in Hup. rewrite Hvd in Hup. unfold_result.
  unfold Volume._get_object_dimensions in Hup. rewrite Hs1 in Hup.
  assert (Hnz : Z.of_nat (nth3 (shape array) index) <> 0).
  { apply (nth3_Forall3 _ _ index) in Hpos. cbv beta in Hpos. lia. }
  destruct (shape array) as [[n0 n1] n2]. destruct Hpos as (P0 & P1 & P2).
  cbn [map3 nth3] in Hup. rewrite !set_integer_middle in Hup by assumption.
  injection Hup as <- _.
  unfold Volume._process_param_change. rewrite Hsuper. unfold_result.
  cbn [Volume.object].
  cbn [Volume.scale_items Volume._subsample_dimensions Volume._orginal_dimensions
       Volume.getattr].
  unfold_result. rewrite Hk, Hdims. rewrite scale_value_int; [reflexivity|].
  exact Hnz.
Qed.

End VolumeAxes.

(** ** VTKJS *)

Section VTKJSProperties.

Variable urlopen : string -> option (list byte).

Lemma isfile_true (fs : gmap string (list byte)) (p : string) (c : list byte) :
  fs !! p = Some c -> VTKJS.isfile fs p = true.
Proof.
  intros H. unfold VTKJS.isfile. apply bool_decide_eq_true. eauto.
Qed.

(** Once [_get_vtkjs] has returned bytes, it returns the same bytes whatever
    happens to the file or to the network, and reads nothing again. *)
Theorem vtkjs_cached (fs : gmap string (list byte)) (self self' : VTKJS.t)
    (b : list byte) :
  VTKJS._get_vtkjs urlopen fs self = (VTKJS.Return (Some b), self') ->
  VTKJS._vtkjs self' = Some b /\
  forall urlopen' fs',
    VTKJS._get_vtkjs urlopen' fs' self' = (VTKJS.Return (Some b), self').
Proof.
  unfold VTKJS._get_vtkjs. intros H.
  assert (Hc : VTKJS._vtkjs self' = Some b).
  { destruct (VTKJS._vtkjs self) as [c|] eqn:Hc.
    - injection H as -> <-. exact Hc.
    - destruct (VTKJS.object self) as [[s|unread|]|].
      + destruct (endswith s ".vtkjs"); [|discriminate].
        destruct (VTKJS.isfile fs s).
        * injection H as <- <-. reflexivity.
        * destruct (urlopen s); [|discriminate]. injection H as <- <-. reflexivity.
      + injection H as <- <-. reflexivity.
      + discriminate.
      + discriminate. }
  split; [exact Hc|]. intros urlopen' fs'. rewrite Hc. reflexivity.
Qed.

(** [_update] drops the cache: for a path to a file it returns the base64
    text of what the file holds now, without asking the network. *)
Theorem vtkjs_update_rereads (fs : gmap string (list byte)) (self : VTKJS.t)
    (p : string) (content : list byte) :
  VTKJS.object self = Some (VTKJS.Str p) ->
  endswith p ".vtkjs" = true ->
  fs !! p = Some content ->
  VTKJS._update urlopen fs self =
    (VTKJS.Return (Some (base64encode content)),
     {| VTKJS.object := Some (VTKJS.Str p); VTKJS._vtkjs := Some content |}).
Proof.
  intros Hobj Hend Hfile. unfold VTKJS._update, VTKJS._get_vtkjs.
  cbn [VTKJS._vtkjs VTKJS.object]. rewrite Hobj, Hend, (isfile_true _ _ _ Hfile), Hfile.
  reflexivity.
Qed.

(** [export_vtkjs], once [filename] is opened for writing.  A pane that
    holds cached bytes writes them to the file and stays as it is.  A pane
    that has cached nothing and whose object is that very path, ending in
    ['.vtkjs'], reads back the file it has just emptied: the file is left
    empty, the pane caches the empty bytes, and the scene is lost, whatever
    the file held and without a call to [urlopen]. *)
Theorem export_vtkjs_file (fs : gmap string (list byte)) (self : VTKJS.t)
    (filename : string) :
  (forall b, VTKJS._vtkjs self = Some b ->
     exists fs',
       VTKJS.export_vtkjs urlopen fs self filename = (VTKJS.Return tt, self, fs') /\
       fs' !! filename = Some b) /\
  (VTKJS.object self = Some (VTKJS.Str filename) ->
   endswith filename ".vtkjs" = true ->
   VTKJS._vtkjs self = None ->
   exists fs',
     VTKJS.export_vtkjs urlopen fs self filename
       = (VTKJS.Return tt,
          {| VTKJS.object := Some (VTKJS.Str filename); VTKJS._vtkjs := Some [] |},
          fs') /\
     fs' !! filename = Some []).
Proof.
  unfold VTKJS.export_vtkjs, VTKJS._get_vtkjs. split.
  - intros b Hc. rewrite Hc. eexists. split; [reflexivity|].
    apply lookup_insert_eq.
  - intros Hobj Hend Hc. rewrite Hc, Hobj, Hend.
    rewrite (isfile_true _ filename []) by apply lookup_insert_eq.
    rewrite lookup_insert_eq. cbn [default].
    eexists. split; [reflexivity|]. apply lookup_insert_eq.
Qed.

(** [export_vtkjs] of a pane without object raises at [f.write(None)], after
    the file was opened: an empty file is left behind, in place of whatever
    was there. *)
Theorem export_vtkjs_no_object (fs : gmap string (list byte)) (self : VTKJS.t)
    (filename : string) :
  VTKJS.object self = None ->
  VTKJS._vtkjs self = None ->
  VTKJS.export_vtkjs urlopen fs self filename
    = (VTKJS.Throw VTKJS.WriteTypeError, self, <[filename := []]> fs).
Proof.
  intros Hobj Hc. unfold VTKJS.export_vtkjs, VTKJS._get_vtkjs.
  rewrite Hobj, Hc. reflexivity.
Qed.

(** An object that is neither a path ending in ['.vtkjs'] nor file-like is
    not turned away by [applies], which answers [None] and never [False],
    and makes [_get_vtkjs] read a local that was never assigned. *)
Theorem vtkjs_unsupported_object (fs : gmap string (list byte)) (self : VTKJS.t)
    (o : VTKJS.obj) :
  VTKJS.object self = Some o ->
  VTKJS._vtkjs self = None ->
  (o = VTKJS.Other \/ exists s, o = VTKJS.Str s /\ endswith s ".vtkjs" = false) ->
  VTKJS.applies o = None /\
  VTKJS._get_vtkjs urlopen fs self = (VTKJS.Throw VTKJS.UnboundLocalError, self) /\
  (forall o', VTKJS.applies o' <> Some false).
Proof.
  intros Hobj Hc Ho. split; [|split].
  - destruct Ho as [-> | (s & -> & Hs)]; [reflexivity|]. simpl. now rewrite Hs.
  - unfold VTKJS._get_vtkjs. rewrite Hobj, Hc.
    destruct Ho as [-> | (s & -> & Hs)]; [reflexivity|]. now rewrite Hs.
  - intros [s| |]; simpl; [destruct (endswith s ".vtkjs")|..]; discriminate.
Qed.

(** A file-like object is read once: [_get_vtkjs] returns its bytes, and an
    [_update] after that reads the exhausted stream and replaces the scene
    by the empty one. *)
Theorem vtkjs_file_like_exhausted (fs : gmap string (list byte)) (self : VTKJS.t)
    (b : list byte) :
  VTKJS.object self = Some (VTKJS.FileLike b) ->
  VTKJS._vtkjs self = None ->
  exists s1,
    VTKJS._get_vtkjs urlopen fs self = (VTKJS.Return (Some b), s1) /\
    VTKJS._update urlopen fs s1 =
      (VTKJS.Return (Some ""%string),
       {| VTKJS.object := Some (VTKJS.FileLike []); VTKJS._vtkjs := Some [] |}).
Proof.
  intros Hobj Hc. unfold VTKJS._update, VTKJS._get_vtkjs. rewrite Hobj, Hc.
  eexists. split; reflexivity.
Qed.

End VTKJSProperties.

(** ** Colours: [_rgb2hex] *)

(** On integers and on finite floats whose product with 255 is finite,
    [_rgb2hex] raises in one case only: an integer red with a green and a
    blue that are both floats passes the test, and the format code [x] does
    not apply to a float. *)
Theorem rgb2hex_raises_iff (r g b : pynum) (e : exn) :
  finite_255 r -> finite_255 g -> finite_255 b ->
  (_rgb2hex r g b = Raise e <->
   e = ValueError /\ is_int r = true /\ is_int g = false /\ is_int b = false).
Proof.
  intros _ _ _.
  unfold _rgb2hex. destruct r, g, b; cbn; unfold_result; split;
    try discriminate; try (intros [= <-]; auto);
    try (intros (_ & ? & ? & ?); discriminate);
    try (intros (-> & _); reflexivity).
Qed.

Lemma Z_of_byte_of_Z (n : Z) : 0 <= n <= 255 -> Z_of_byte (byte_of_Z n) = n.
Proof.
  intros Hn. unfold Z_of_byte, byte_of_Z. rewrite Z.mod_small by lia.
  destruct (Byte.of_N (Z.to_N n)) as [b|] eqn:E.
  - apply Byte.to_of_N in E. rewrite E. lia.
  - apply Byte.of_N_None_iff in E. lia.
Qed.

Lemma hex_pair_parse (v : byte) :
  hex_value (hex_digit (Z_of_byte v / 16)) = Some (Z_of_byte v / 16) /\
  hex_value (hex_digit (Z_of_byte v mod 16)) = Some (Z_of_byte v mod 16).
Proof. destruct v; split; reflexivity. Qed.

Lemma parse_hex_color_bytes (r g b : byte) :
  parse_hex_color (hex_color r g b) = Some (Z_of_byte r, Z_of_byte g, Z_of_byte b).
Proof.
  unfold hex_color, hex_pair. cbv beta iota delta [String.append parse_hex_color].
  destruct (hex_pair_parse r) as [R1 R0], (hex_pair_parse g) as [G1 G0],
           (hex_pair_parse b) as [B1 B0].
  rewrite R1, R0, G1, G0, B1, B0. cbn.
  f_equal. f_equal; [f_equal|]; symmetry.
  - rewrite (Z.div_mod (Z_of_byte r) 16) at 1 by lia. reflexivity.
  - rewrite (Z.div_mod (Z_of_byte g) 16) at 1 by lia. reflexivity.
  - rewrite (Z.div_mod (Z_of_byte b) 16) at 1 by lia. reflexivity.
Qed.

Lemma hex_color_length (r g b : byte) : String.length (hex_color r g b) = 7%nat.
Proof. reflexivity. Qed.

(** Integer components between 0 and 255 give a colour of seven characters
    that reads back as the same three components. *)
Theorem rgb2hex_ints_round_trip (r g b : Z) :
  0 <= r <= 255 -> 0 <= g <= 255 -> 0 <= b <= 255 ->
  exists s,
    _rgb2hex (PyInt r) (PyInt g) (PyInt b) = Ok s /\
    String.length s = 7%nat /\
    parse_hex_color s = Some (r, g, b).
Proof.
  intros Hr Hg Hb.
  rewrite <- (Z_of_byte_of_Z r Hr), <- (Z_of_byte_of_Z g Hg), <- (Z_of_byte_of_Z b Hb).
  rewrite rgb2hex_bytes. eexists. split; [reflexivity|].
  split; [apply hex_color_length | apply parse_hex_color_bytes].
Qed.

Lemma int_255_range (x : Q) :
  (0 <= x <= 1)%Q -> 0 <= py_int (255 * x) <= 255.
Proof.
  intros [H0 H1]. assert (Hx : (0 <= 255 * x)%Q) by lra. split.
  - unfold py_int. apply Z.quot_pos; [|lia].
    destruct x as [n d]. unfold Qle in H0. simpl in *. lia.
  - pose proof (py_int_floor_le _ Hx) as Hf.
    assert (Hq : (inject_Z (py_int (255 * x)) <= inject_Z 255)%Q).
    { change (inject_Z 255) with 255%Q. lra. }
    now rewrite <- Zle_Qle in Hq.
Qed.

(** Float components between 0 and 1 give a colour of seven characters that
    reads back as three components between 0 and 255; a component whose
    product with 255 is exact in binary64 reads back as [int(255 * x)]. *)
Theorem rgb2hex_floats_round_trip (r g b : Q) :
  (0 <= r <= 1)%Q -> (0 <= g <= 1)%Q -> (0 <= b <= 1)%Q ->
  exists s cr cg cb,
    _rgb2hex (PyFloat r) (PyFloat g) (PyFloat b) = Ok s /\
    String.length s = 7%nat /\
    parse_hex_color s = Some (cr, cg, cb) /\
    0 <= cr <= 255 /\ 0 <= cg <= 255 /\ 0 <= cb <= 255 /\
    (exact_255 r -> cr = py_int (255 * r)) /\
    (exact_255 g -> cg = py_int (255 * g)) /\
    (exact_255 b -> cb = py_int (255 * b)).
Proof.
  intros Hr Hg Hb.
  pose proof (int_255_range r Hr) as Ir. pose proof (int_255_range g Hg) as Ig.
  pose proof (int_255_range b Hb) as Ib.
  unfold _rgb2hex. cbn [is_int andb int_255]. unfold_result.
  rewrite <- (Z_of_byte_of_Z _ Ir), <- (Z_of_byte_of_Z _ Ig), <- (Z_of_byte_of_Z _ Ib).
  rewrite !format_02x_byte.
  eexists. eexists. eexists. eexists. split; [reflexivity|].
  split; [apply hex_color_length|]. split; [apply parse_hex_color_bytes|].
  rewrite !Z_of_byte_of_Z by assumption. auto 10.
Qed.

(** ** Colour mappers: when [get_color_mappers] fails *)

Lemma reshape_4_rows (l : list byte) (rows : list (list byte)) :
  reshape_4 l = Ok rows ->
  length l = (4 * length rows)%nat /\
  Forall (fun row => exists r g b a, row = [r; g; b; a]) rows.
Proof.
  assert (H : forall n (l : list byte) rows, (length l < n)%nat ->
            reshape_4 l = Ok rows ->
            length l = (4 * length rows)%nat /\
            Forall (fun row => exists r g b a, row = [r; g; b; a]) rows).
  { clear. induction n as [|n IH]; intros l rows Hl H; [lia|].
    destruct l as [|r [|g [|b [|a rest]]]]; try discriminate.
    - injection H as <-. split; [reflexivity | constructor].
    - cbn [reshape_4] in H. bind_inv H. injection H as <-.
      destruct (IH rest a0) as [Hlen Hrows]; [simpl in Hl; lia | assumption |].
      split; [simpl; lia|]. constructor; [eauto | assumption]. }
  apply (H (S (length l))). lia.
Qed.

Lemma reshape_4_raise (l : list byte) (e : exn) :
  reshape_4 l = Raise e -> e = ValueError.
Proof.
  assert (H : forall n (l : list byte), (length l < n)%nat ->
            reshape_4 l = Raise e -> e = ValueError).
  { clear. induction n as [|n IH]; intros l Hl H; [lia|].
    destruct l as [|r [|g [|b [|a rest]]]]; try discriminate;
      try (now injection H as <-).
    cbn [reshape_4] in H. unfold_result.
    destruct (reshape_4 rest) eqn:E; [discriminate|]. injection H as <-.
    apply (IH rest); [simpl in Hl; lia | assumption]. }
  apply (H (S (length l))). lia.
Qed.

Lemma mapM_rows_Ok (rows : list (list byte)) :
  Forall (fun row => exists r g b a, row = [r; g; b; a]) rows ->
  exists pal, mapM rgb2hex_row rows = Ok pal.
Proof.
  induction 1 as [|row rows (r & g & b & a & ->) _ [pal IH]].
  - exists []. reflexivity.
  - cbn [mapM]. rewrite rgb2hex_row_rgba, IH. unfold_result. eauto.
Qed.

Lemma color_mapper_of_Ok (vp : view_prop) (cmap : LinearColorMapper) :
  color_mapper_of vp = Ok cmap -> has_rgba_table vp.
Proof.
  unfold color_mapper_of, has_rgba_table.
  destruct (GetLookupTable vp) as [lut|]; [|discriminate].
  intros H. bind_inv H. apply reshape_4_rows in Ha as [Hlen _].
  exists lut. split; [reflexivity|]. rewrite Hlen.
  rewrite Nat.mul_comm. apply Nat.Div0.mod_mul.
Qed.

Lemma reshape_4_Ok (n : nat) (l : list byte) :
  length l = (4 * n)%nat -> exists rows, reshape_4 l = Ok rows.
Proof.
  revert l. induction n as [|n IH]; intros l Hl.
  - destruct l; [|discriminate]. exists []. reflexivity.
  - destruct l as [|r [|g [|b [|a rest]]]]; try (simpl in Hl; lia).
    destruct (IH rest) as [rows Hrows]; [simpl in Hl; lia|].
    cbn [reshape_4]. rewrite Hrows. unfold_result. eauto.
Qed.

Lemma color_mapper_of_raise (vp : view_prop) (e : exn) :
  color_mapper_of vp = Raise e ->
  (e = AttributeError /\ GetLookupTable vp = None) \/
  (e = ValueError /\ exists lut, GetLookupTable vp = Some lut /\
                                 (length (GetTable lut) mod 4 <> 0)%nat).
Proof.
  unfold color_mapper_of.
  destruct (GetLookupTable vp) as [lut|]; [|intros [= <-]; auto].
  intros H. right. unfold_result.
  destruct (reshape_4 (GetTable lut)) as [rows|e'] eqn:E.
  - exfalso. apply reshape_4_rows in E as [_ Hrows].
    destruct (mapM_rows_Ok _ Hrows) as [pal Hpal]. rewrite Hpal in H.
    destruct (GetTableRange lut). discriminate.
  - injection H as <-. split; [now apply reshape_4_raise in E|].
    exists lut. split; [reflexivity|]. intros Hmod.
    destruct (reshape_4_Ok (length (GetTable lut) / 4) (GetTable lut)) as [rows Hrows].
    + pose proof (Nat.div_mod_eq (length (GetTable lut)) 4). lia.
    + congruence.
Qed.

(** [get_color_mappers] succeeds exactly when every scalar-bar actor has a
    lookup table made of rows of four bytes; view-props of another kind are
    not looked at.  When it fails, it is with the [AttributeError] of an
    actor without lookup table or the [ValueError] of a table that four does
    not divide. *)
Theorem get_color_mappers_succeeds_iff (view_props : list view_prop) :
  ((exists cmaps, get_color_mappers view_props = Ok cmaps) <->
   Forall (fun vp => IsA_vtkScalarBarActor vp = true -> has_rgba_table vp)
          view_props) /\
  (forall e, get_color_mappers view_props = Raise e ->
     e = AttributeError \/ e = ValueError).
Proof.
  induction view_props as [|vp rest [IHiff IHe]].
  - split; [|discriminate]. split; [constructor | eexists; reflexivity].
  - cbn [get_color_mappers]. destruct (IsA_vtkScalarBarActor vp) eqn:E.
    + unfold_result. split; [split|].
      * intros [cmaps H].
        destruct (color_mapper_of vp) as [cmap|] eqn:Hc; [|discriminate].
        destruct (get_color_mappers rest) as [cs|] eqn:Hr; [|discriminate].
        constructor; [intros _; eapply color_mapper_of_Ok; eassumption|].
        apply IHiff. eauto.
      * intros Hall. apply Forall_cons in Hall as [Hvp Hrest].
        destruct (color_mapper_of_matches vp (Hvp E)) as (cmap & Hc & _).
        apply IHiff in Hrest as [cs Hcs]. rewrite Hc, Hcs. eauto.
      * intros e H. destruct (color_mapper_of vp) as [cmap|e'] eqn:Hc.
        -- destruct (get_color_mappers rest) as [cs|e''] eqn:Hr; [discriminate|].
           injection H as <-. now apply IHe.
        -- injection H as <-.
           apply color_mapper_of_raise in Hc as [[-> _] | [-> _]]; auto.
    + split; [|exact IHe]. rewrite IHiff. split.
      * intros H. constructor; [congruence | assumption].
      * intros H. now apply Forall_cons in H as [_ H].
Qed.

(** ** The scene around the number of layers *)

Lemma dict_set_keys (d : list (string * pyval)) (k : string) (v : pyval) :
  (dict_set d k v).*1 =
    match dict_get d k with Some _ => d.*1 | None => d.*1 ++ [k] end.
Proof.
  induction d as [|[k' v'] d IH]; [reflexivity|]. cbn [dict_set dict_get].
  destruct (String.eqb k k') eqn:E.
  - apply String.eqb_eq in E as ->. reflexivity.
  - rewrite fmap_cons, IH. now destruct (dict_get d k).
Qed.

Lemma has_dot_app (s t : string) :
  has_dot (s ++ t) = has_dot s || has_dot t.
Proof.
  induction s as [|c s IH]; [reflexivity|].
  change (String c s ++ t)%string with (String c (s ++ t)).
  cbn [has_dot]. rewrite IH. apply orb_assoc.
Qed.

Section VTKFurther.

Variable vtkRenderWindow : Type.
Variable addr_of : vtkRenderWindow -> positive.
Variable OffScreenRenderingOn Modified Render : vtkRenderWindow -> vtkRenderWindow.
Variable cached_array : Type.
Variable serializeInstance :
  vtkRenderWindow -> nat -> SynchronizationContext cached_array ->
  pyval * SynchronizationContext cached_array.
Variable getCachedDataArray :
  SynchronizationContext cached_array -> string -> bool -> bool -> payload.

(** [_serialize_ren_win] changes nothing of the walked scene but the number
    of layers: the scene keeps its keys, in their order, and the value of
    every key other than ['properties']; the properties keep the value of
    every key other than ['numberOfLayers'], which is added at the end when
    the walk did not set it; the context is the one the walk leaves, and the
    render window has been rendered off screen. *)
Theorem serialize_ren_win_frame
    ren_win context exclude_arrays scene arrays ren_win' context' :
  _serialize_ren_win vtkRenderWindow addr_of OffScreenRenderingOn Modified Render
    cached_array serializeInstance getCachedDataArray
    ren_win context exclude_arrays = Ok (scene, arrays, ren_win', context') ->
  exists d d' props props',
    walked vtkRenderWindow addr_of OffScreenRenderingOn Modified Render
      cached_array serializeInstance ren_win context = (PDict d, context') /\
    scene = PDict d' /\
    ren_win' = Render (Modified (OffScreenRenderingOn ren_win)) /\
    d'.*1 = d.*1 /\
    (forall k, k <> "properties"%string -> dict_get d' k = dict_get d k) /\
    dict_get d "properties" = Some (PDict props) /\
    dict_get d' "properties" = Some (PDict props') /\
    (forall k, k <> "numberOfLayers"%string -> dict_get props' k = dict_get props k) /\
    props'.*1 = match dict_get props "numberOfLayers" with
                | Some _ => props.*1
                | None => props.*1 ++ ["numberOfLayers"%string]
                end.
Proof.
  intros H. apply serialize_Ok in H as (d & props & Hw & Hp & -> & -> & _).
  exists d, (dict_set d "properties" (PDict (dict_set props "numberOfLayers" (PInt 2)))),
    props, (dict_set props "numberOfLayers" (PInt 2)).
  split; [exact Hw|]. split; [reflexivity|]. split; [reflexivity|].
  split; [rewrite dict_set_keys, Hp; reflexivity|].
  split; [intros k Hk; now apply dict_get_set_other|].
  split; [exact Hp|]. split; [apply dict_get_set|].
  split; [intros k Hk; now apply dict_get_set_other|].
  apply dict_set_keys.
Qed.

(** [_serialize_ren_win] raises in three cases only: a [KeyError] when the
    walk returns a dict without ['properties'], and a [TypeError] when the
    walk returns something that is not a dict or properties that are not a
    dict. *)
Theorem serialize_ren_win_raises ren_win context exclude_arrays (e : exn) :
  _serialize_ren_win vtkRenderWindow addr_of OffScreenRenderingOn Modified Render
    cached_array serializeInstance getCachedDataArray
    ren_win context exclude_arrays = Raise e <->
  let scene :=
    fst (walked vtkRenderWindow addr_of OffScreenRenderingOn Modified Render
           cached_array serializeInstance ren_win context) in
  (e = KeyError /\ exists d, scene = PDict d /\ dict_get d "properties" = None) \/
  (e = TypeError /\
   ((forall d, scene <> PDict d) \/
    exists d p, scene = PDict d /\ dict_get d "properties" = Some p /\
                forall props, p <> PDict props)).
Proof.
  unfold _serialize_ren_win, walked. cbv zeta.
  destruct (getReferenceId _ _ _) as [rid c1].
  destruct (serializeInstance _ rid c1) as [s c2]. cbn [fst].
  split.
  - intros H.
    destruct s as [| | | | | |d];
      try (injection H as <-; right; split; [reflexivity|left; discriminate]).
    cbn [getitem] in H.
    destruct (dict_get d "properties") as [p|] eqn:Hp.
    + unfold_result.
      destruct p as [| | | | | |props];
        try (cbn [setitem] in H; injection H as <-;
             right; split; [reflexivity|]; right;
             eexists d, _; split; [reflexivity|]; split; [exact Hp|];
             discriminate).
      cbn [setitem] in H. discriminate.
    + injection H as <-. left. split; [reflexivity|]. eauto.
  - intros [[-> (d & -> & Hp)] | [-> [Hs | (d & p & -> & Hp & Hprops)]]].
    + cbn [getitem]. now rewrite Hp.
    + destruct s; try reflexivity. now destruct (Hs d).
    + cbn [getitem]. rewrite Hp. unfold_result.
      destruct p as [| | | | | |props]; try reflexivity. now destruct (Hprops props).
Qed.

Variable checkForArraysToRelease :
  SynchronizationContext cached_array -> SynchronizationContext cached_array.

(** [VTK._update] touches one model and one context: a model whose id the
    pane does not know raises [KeyError]; otherwise, when the call returns,
    the model keeps its id and its list of processed arrays, the pane knows
    the same model ids, and the context of every other model is the one it
    had. *)
Theorem vtk_update_frame (self : VTK vtkRenderWindow cached_array)
    (model : plot_model) :
  (_contexts _ _ self !! model_id model = None ->
   _update vtkRenderWindow addr_of OffScreenRenderingOn Modified Render cached_array
     serializeInstance getCachedDataArray checkForArraysToRelease self model
     = Raise KeyError) /\
  (forall self' model',
     _update vtkRenderWindow addr_of OffScreenRenderingOn Modified Render cached_array
       serializeInstance getCachedDataArray checkForArraysToRelease self model
       = Ok (self', model') ->
     model_id model' = model_id model /\
     arrays_processed model' = arrays_processed model /\
     dom (_contexts _ _ self') = dom (_contexts _ _ self) /\
     (forall id, id <> model_id model ->
        _contexts _ _ self' !! id = _contexts _ _ self !! id) /\
     object _ _ self' = Render (Modified (OffScreenRenderingOn (object _ _ self)))).
Proof.
  unfold _update. split.
  - intros ->. reflexivity.
  - intros self' model' H.
    destruct (_contexts _ _ self !! model_id model) as [context|] eqn:Hc;
      [|discriminate].
    bind_inv H. destruct a as [[[s a] r] c]. injection H as <- <-. cbn.
    apply serialize_Ok in Ha as (_ & _ & _ & _ & _ & -> & _).
    split; [reflexivity|]. split; [reflexivity|]. split; [|split; [|reflexivity]].
    + rewrite dom_insert_L. apply (elem_of_dom_2 (D := gset string)) in Hc.
      apply set_eq. intros x. rewrite elem_of_union, elem_of_singleton.
      split; [intros [-> | Hx]; assumption | now right].
    + intros id Hid. now apply lookup_insert_ne.
Qed.

Variable json_dumps : pyval -> string.
Variable deflate : list byte -> list byte.

(** The name [export_scene] returns always has a dot: it is the name given
    when that has one, anywhere, and the name followed by ['.sync'] when it
    has none.  Exporting under the returned name gives the same name and the
    same archive; the archive does not depend on the name; and a root the
    pane does not know raises [KeyError] whatever the name. *)
Theorem export_scene_filename (self : VTK vtkRenderWindow cached_array)
    (root : plot_model) (filename : string) :
  (_contexts _ _ self !! model_id root = None ->
   export_scene vtkRenderWindow cached_array getCachedDataArray json_dumps deflate
     self root filename = Raise KeyError) /\
  (forall filename' zf,
     export_scene vtkRenderWindow cached_array getCachedDataArray json_dumps deflate
       self root filename = Ok (filename', zf) ->
     has_dot filename' = true /\
     filename' = (if has_dot filename then filename else filename ++ ".sync")%string /\
     export_scene vtkRenderWindow cached_array getCachedDataArray json_dumps deflate
       self root filename' = Ok (filename', zf) /\
     forall other,
       snd <$> export_scene vtkRenderWindow cached_array getCachedDataArray
                 json_dumps deflate self root other = Ok zf).
Proof.
  split.
  - intros Hc. unfold export_scene. now rewrite Hc.
  - intros filename' zf H.
    destruct (_contexts _ _ self !! model_id root) as [context|] eqn:Hc;
      [|unfold export_scene in H; rewrite Hc in H; discriminate].
    rewrite (export_scene_entries _ _ getCachedDataArray json_dumps deflate
               self root filename context Hc) in H.
    injection H as <- <-.
    assert (Hdot : has_dot (if has_dot filename then filename
                            else (filename ++ ".sync")%string) = true).
    { destruct (has_dot filename) eqn:E; [exact E|].
      rewrite has_dot_app. apply orb_true_r. }
    split; [exact Hdot|]. split; [reflexivity|]. split.
    + rewrite (export_scene_entries _ _ getCachedDataArray json_dumps deflate
                 self root _ context Hc).
      now rewrite Hdot.
    + intros other.
      rewrite (export_scene_entries _ _ getCachedDataArray json_dumps deflate
                 self root other context Hc).
      reflexivity.
Qed.

End VTKFurther.

(** * The further properties on concrete inputs *)

(** ** The subsampler *)

Lemma subsample_zero_budget_witness :
  _subsample_array cbrt_approx None (pane (1, 1, 1)%Q 0) (zeros (4, 4, 4)%nat)
    = Raise ZeroDivisionError.
Proof.
  apply (subsample_zero_budget cbrt_approx None (pane (1, 1, 1)%Q 0)
           (zeros (4, 4, 4)%nat)).
  reflexivity.
Defined.

(** An empty volume whose first axis is empty, and one whose second is. *)
Lemma subsample_empty_volume_witness :
  _subsample_array cbrt_approx None (pane (1, 1, 1)%Q 1) (zeros (0, 4, 4)%nat)
    = Raise ValueError /\
  _subsample_array cbrt_approx None (pane (1, 1, 1)%Q 1) (zeros (4, 0, 4)%nat)
    = Raise OverflowError.
Proof.
  split.
  - apply (subsample_empty_volume cbrt_approx None (pane (1, 1, 1)%Q 1)
             (zeros (0, 4, 4)%nat)).
    + reflexivity.
    + vm_compute. discriminate.
    + vm_compute. reflexivity.
  - apply (subsample_empty_volume cbrt_approx None (pane (1, 1, 1)%Q 1)
             (zeros (4, 0, 4)%nat)).
    + reflexivity.
    + vm_compute. discriminate.
    + vm_compute. reflexivity.
Defined.

(** A volume of 1 x 4 x 4 bytes against a budget of 2 bytes: the ratio is 2
    and the first axis is shorter. *)
Lemma subsample_short_axis_witness :
  _subsample_array cbrt_approx None (pane (1, 1, 1)%Q (2 # 1000000))
                   (zeros (1, 4, 4)%nat) = Raise ZeroDivisionError.
Proof.
  apply (subsample_short_axis cbrt_approx None (pane (1, 1, 1)%Q (2 # 1000000))
           (zeros (1, 4, 4)%nat)).
  - vm_compute. discriminate.
  - vm_compute. intros (H & _). apply H. reflexivity.
  - vm_compute. reflexivity.
Defined.

(** 64 bytes against a budget of 8 bytes: the result takes 8 bytes. *)
Lemma subsample_fits_budget_witness :
  exists sub self',
    _subsample_array cbrt_approx None (pane (1, 1, 1)%Q (8 # 1000000))
                     (zeros (4, 4, 4)%nat) = Ok (sub, self') /\
    nbytes sub = 8 /\
    (inject_Z (nbytes sub) / 1000000 <= 8 # 1000000)%Q.
Proof.
  eexists. eexists. split; [vm_compute; reflexivity|].
  split; [reflexivity|].
  eapply (subsample_fits_budget cbrt_approx None
            (pane (1, 1, 1)%Q (8 # 1000000)) _ (zeros (4, 4, 4)%nat) _).
  - vm_compute. reflexivity.
  - vm_compute. reflexivity.
  - vm_compute. discriminate.
  - vm_compute. repeat split.
  - vm_compute. reflexivity.
Defined.

(** 2 x 4 x 4 bytes against a budget of 4 bytes: the first axis is left with
    one sample. *)
Lemma subsample_one_sample_axis_witness :
  _subsample_array cbrt_approx None (pane (1, 1, 1)%Q (4 # 1000000))
                   (zeros (2, 4, 4)%nat) = Raise ZeroDivisionError.
Proof.
  eapply (subsample_one_sample_axis cbrt_approx None
            (pane (1, 1, 1)%Q (4 # 1000000)) (zeros (2, 4, 4)%nat) _ _).
  - vm_compute. reflexivity.
  - vm_compute. reflexivity.
  - vm_compute. reflexivity.
  - vm_compute. intros (H & _). apply H. reflexivity.
Defined.

Lemma subsample_frame_witness :
  exists sub self',
    _subsample_array cbrt_approx None (pane (1, 1, 1)%Q (8 # 1000000))
                     (zeros (4, 4, 4)%nat) = Ok (sub, self') /\
    dtype sub = uint8 /\
    spacing self' = (1, 1, 1)%Q /\
    _sub_spacing self' = (3, 3, 3)%Q /\
    buf sub = buf (zeros (4, 4, 4)%nat).
Proof.
  eexists. eexists. split; [vm_compute; reflexivity|].
  destruct (subsample_frame cbrt_approx None
              (pane (1, 1, 1)%Q (8 # 1000000)) _ (zeros (4, 4, 4)%nat) _
              ltac:(vm_compute; reflexivity))
    as (Hd & Hs & _ & _ & Hb).
  split; [exact Hd|]. split; [exact Hs|]. split; [reflexivity|].
  exact (Hb eq_refl).
Defined.

Lemma subsample_strided_samples_witness :
  exists sub self',
    _subsample_array cbrt_approx None (pane (1, 1, 1)%Q (8 # 1000000))
                     (c_array uint8 (4, 4, 4)%nat (Z.of_nat <$> seq 0 64))
      = Ok (sub, self') /\
    ravel_C sub = [0; 2; 8; 10; 32; 34; 40; 42] /\
    forall ix, in_range ix (shape sub) ->
      exists ix', in_range ix' (4, 4, 4)%nat /\
                  item sub ix = item (c_array uint8 (4, 4, 4)%nat (Z.of_nat <$> seq 0 64)) ix'.
Proof.
  eexists. eexists. split; [vm_compute; reflexivity|].
  split; [vm_compute; reflexivity|].
  eapply (subsample_strided_samples cbrt_approx None
            (pane (1, 1, 1)%Q (8 # 1000000)) _
            (c_array uint8 (4, 4, 4)%nat (Z.of_nat <$> seq 0 64)) _ eq_refl).
  vm_compute. reflexivity.
Defined.

(** A budget of minus one megabyte. *)
Lemma subsample_negative_ratio_witness :
  exists self',
    _subsample_array cbrt_approx None (pane (1, 1, 1)%Q (-1)) (zeros (4, 4, 4)%nat)
      = Ok (zeros (4, 4, 4)%nat, self') /\
    _sub_spacing self' = (1, 1, 1)%Q.
Proof.
  eexists. split; [vm_compute; reflexivity|].
  eapply (subsample_negative_ratio cbrt_approx None
            (pane (1, 1, 1)%Q (-1)) _ (zeros (4, 4, 4)%nat) (zeros (4, 4, 4)%nat)).
  - vm_compute. reflexivity.
  - vm_compute. reflexivity.
Defined.

(** ** The volume record *)

Lemma volume_record_of_transpose_witness :
  _volume_from_array (pane (1, 2 # 1, 3)%Q 1) arange24 =
  _volume_from_array (set_sub_spacing (pane (1, 2 # 1, 3)%Q 1) (3, 2 # 1, 1)%Q)
                     (transpose arange24).
Proof.
  apply (volume_record_of_transpose (pane (1, 2 # 1, 3)%Q 1) arange24);
    reflexivity.
Defined.

(** 24 bytes give 32 characters. *)
Lemma volume_buffer_length_witness :
  exists volume,
    _volume_from_array (pane (1, 1, 1)%Q 1) arange24 = Ok volume /\
    Z.of_nat (String.length (vd_buffer volume)) = 32.
Proof.
  eexists. split; [vm_compute; reflexivity|].
  eapply (volume_buffer_length (pane (1, 1, 1)%Q 1) arange24 _).
  vm_compute. reflexivity.
Defined.

(** ** The volume pane *)

Lemma volume_update_no_object_witness :
  exists self',
    Volume._update cbrt_approx None (Volume.init (pane (1, 1, 1)%Q 1) None)
                   (Some {| Volume.data := None |})
      = Ok (self', Some {| Volume.data := None |}) /\
    Volume._volume_data self' = None /\
    (Volume.slice_i self', Volume.slice_j self', Volume.slice_k self') = (0, 0, 0) /\
    Volume.slice_bounds self' = (None, None, None).
Proof.
  apply (volume_update_no_object cbrt_approx None
           (Volume.init (pane (1, 1, 1)%Q 1) None) (Some {| Volume.data := None |})).
  reflexivity.
Defined.

(** The volume [arange(24).reshape(2, 3, 4)]: the slices start at
    (0, 1, 1). *)
Lemma volume_update_slices_witness :
  exists volume self',
    Volume._update cbrt_approx None (Volume.init (pane (1, 1, 1)%Q 1) (Some arange24))
                   None = Ok (self', None) /\
    Volume._volume_data self' = Some volume /\
    Volume._orginal_dimensions self' = Some (2, 3, 4)%nat /\
    Volume._subsample_dimensions self' = Some (4, 3, 2)%nat /\
    Volume.slice_bounds self' = (Some (0, 1), Some (0, 2), Some (0, 3)) /\
    (Volume.slice_i self', Volume.slice_j self', Volume.slice_k self') = (0, 1, 1).
Proof.
  assert (Hvd : exists volume s1,
            Volume._get_volume_data cbrt_approx None
              (Volume.init (pane (1, 1, 1)%Q 1) (Some arange24)) = Ok (Some volume, s1) /\
            vd_dims volume = (4, 3, 2)%nat).
  { eexists. eexists. split; vm_compute; reflexivity. }
  destruct Hvd as (volume & s1 & Hvd & Hdims).
  destruct (volume_update_slices cbrt_approx None
              (Volume.init (pane (1, 1, 1)%Q 1) (Some arange24)) s1 None
              arange24 volume eq_refl Hvd)
    as (self' & Hup & _ & Hv & Ho & Hs & Hb & Hsl & _).
  exists volume, self'. split; [exact Hup|]. split; [exact Hv|].
  split; [exact Ho|]. split; [rewrite Hs, Hdims; reflexivity|].
  split; [exact Hb | exact Hsl].
Defined.

(** After [_update] of the pane over 4 x 4 x 4 bytes, subsampled to
    2 x 2 x 2: the axes become a model, and the last position of the first
    axis, 3, becomes 2, which is one past the last sample. *)
Lemma process_param_change_bounds_witness :
  exists self' msg',
    Volume._update cbrt_approx None toy_volume_pane None = Ok (self', None) /\
    Volume._process_param_change toy_PaneBase toy_VTKAxes self'
      [("slice_i"%string, Plain (PInt 3));
       ("axes"%string, Plain (PDict [("grid_opacity"%string, PInt 1)]));
       ("colormap"%string, Plain (PStr "jet"))] = Ok msg' /\
    msg' = [("slice_i"%string, Plain (PInt 2));
            ("axes"%string, Model [("grid_opacity"%string, PInt 1)]);
            ("colormap"%string, Plain (PStr "jet"))] /\
    exists msg0,
      AbstractVTK._process_param_change toy_PaneBase toy_VTKAxes
        [("slice_i"%string, Plain (PInt 3));
         ("axes"%string, Plain (PDict [("grid_opacity"%string, PInt 1)]));
         ("colormap"%string, Plain (PStr "jet"))] = Ok msg0 /\
      Forall2 (fun kv kv' =>
                 fst kv' = fst kv /\
                 match slice_params (fst kv) with
                 | None => snd kv' = snd kv
                 | Some index =>
                     forall n, snd kv = Plain (PInt n) ->
                       0 <= n <= Z.of_nat (nth3 (4, 4, 4)%nat index) - 1 ->
                       exists n', snd kv' = Plain (PInt n') /\
                                  0 <= n' <= Z.of_nat (nth3 (2, 2, 2)%nat index)
                 end) msg0 msg'.
Proof.
  eexists. eexists. split; [vm_compute; reflexivity|].
  match goal with
  | |- Volume._process_param_change _ _ ?s ?m = _ /\ _ =>
      pose proof (fun msg' =>
        process_param_change_bounds toy_PaneBase toy_VTKAxes s
          (zeros (4, 4, 4)%nat) m msg'
          (2, 2, 2)%nat (4, 4, 4)%nat eq_refl eq_refl eq_refl) as P
  end.
  split; [vm_compute; reflexivity|]. split; [reflexivity|].
  apply P. vm_compute. reflexivity.
Defined.

(** On the same pane, position 3 goes to 2 and comes back as 4. *)
Lemma slice_round_trip_witness :
  exists self' msg1 msg2,
    Volume._update cbrt_approx None toy_volume_pane None = Ok (self', None) /\
    Volume._process_param_change toy_PaneBase toy_VTKAxes self'
      [("slice_i"%string, Plain (PInt 3))] = Ok msg1 /\
    Volume._process_property_change toy_PaneBase self' msg1 = Ok msg2 /\
    msg2 = [("slice_i"%string, Plain (PInt 4))] /\
    exists msg0,
      AbstractVTK._process_param_change toy_PaneBase toy_VTKAxes
        [("slice_i"%string, Plain (PInt 3))] = Ok msg0 /\
      Forall2 (fun kv kv' =>
                 fst kv' = fst kv /\
                 match slice_params (fst kv) with
                 | None => snd kv' = snd kv
                 | Some index =>
                     forall n, snd kv = Plain (PInt n) ->
                       let s := Z.of_nat (nth3 (2, 2, 2)%nat index) in
                       let o := Z.of_nat (nth3 (4, 4, 4)%nat index) in
                       exists n2, snd kv' = Plain (PInt n2) /\
                                  2 * s * Z.abs (n2 - n) <= o + s /\
                                  (s = o -> n2 = n)
                 end) msg0 msg2.
Proof.
  eexists. eexists. eexists. split; [vm_compute; reflexivity|].
  match goal with
  | |- Volume._process_param_change _ _ ?s ?m = _ /\ _ =>
      pose proof (fun msg1 msg2 =>
        slice_round_trip toy_PaneBase toy_PaneBase toy_VTKAxes s
          (zeros (4, 4, 4)%nat) m msg1 msg2
          (2, 2, 2)%nat (4, 4, 4)%nat eq_refl eq_refl eq_refl) as P
  end.
  split; [vm_compute; reflexivity|]. split; [vm_compute; reflexivity|].
  split; [reflexivity|].
  eapply P; [vm_compute; reflexivity | reflexivity | vm_compute; reflexivity].
Defined.

(** The pane before [_update], and a pane without object. *)
Lemma process_param_change_unset_witness :
  Volume._process_param_change toy_PaneBase toy_VTKAxes toy_volume_pane
    [("colormap"%string, Plain (PStr "jet"))] = Raise AttributeError /\
  Volume._process_param_change toy_PaneBase toy_VTKAxes
    (Volume.init (pane (1, 1, 1)%Q 1) None) [("slice_i"%string, Plain (PInt 3))]
    = Ok [("slice_i"%string, Plain (PInt 3))].
Proof.
  split.
  - apply (proj1 (proj2 (process_param_change_unset toy_PaneBase toy_PaneBase
                           toy_VTKAxes toy_volume_pane
                           [("colormap"%string, Plain (PStr "jet"))])
                    (zeros (4, 4, 4)%nat) eq_refl (or_introl eq_refl))
             [("colormap"%string, Plain (PStr "jet"))]).
    + reflexivity.
    + discriminate.
  - refine (eq_trans
      (proj1 (proj1 (process_param_change_unset toy_PaneBase toy_PaneBase
                       toy_VTKAxes (Volume.init (pane (1, 1, 1)%Q 1) None)
                       [("slice_i"%string, Plain (PInt 3))]) eq_refl)) _).
    reflexivity.
Defined.

(** The volume [arange(24).reshape(2, 3, 4)], in C order and within the
    budget: position 1 of the two along the first axis becomes 2. *)
Lemma update_then_param_change_witness :
  exists self',
    Volume._update cbrt_approx None (Volume.init (pane (1, 1, 1)%Q 1) (Some arange24))
                   None = Ok (self', None) /\
    Volume._process_param_change toy_PaneBase toy_VTKAxes self'
      [("slice_i"%string, Plain (PInt 1))]
      = Ok [("slice_i"%string, Plain (PInt 2))].
Proof.
  eexists. split; [vm_compute; reflexivity|].
  refine (eq_trans
    (update_then_param_change cbrt_approx None toy_PaneBase toy_VTKAxes
       (Volume.init (pane (1, 1, 1)%Q 1) (Some arange24)) _ None None
       arange24 arange24 _ eq_refl _ _
       [("slice_i"%string, Plain (PInt 1))] "slice_i"%string 0%nat 1
       eq_refl eq_refl) _).
  - vm_compute. reflexivity.
  - vm_compute. reflexivity.
  - vm_compute. reflexivity.
Defined.

(** ** The scene in a file *)

Lemma vtkjs_cached_witness :
  exists self',
    VTKJS._get_vtkjs no_network toy_fs (VTKJS.init (Some (VTKJS.Str "scene.vtkjs")))
      = (VTKJS.Return (Some [x01; x02; x03]), self') /\
    VTKJS._get_vtkjs no_network ∅ self' = (VTKJS.Return (Some [x01; x02; x03]), self').
Proof.
  eexists. split; [reflexivity|].
  apply (vtkjs_cached no_network toy_fs
           (VTKJS.init (Some (VTKJS.Str "scene.vtkjs"))) _ [x01; x02; x03] eq_refl).
Defined.

(** The file has changed since the pane cached it. *)
Lemma vtkjs_update_rereads_witness :
  VTKJS._update no_network (<["scene.vtkjs"%string := [xff]]> toy_fs)
    {| VTKJS.object := Some (VTKJS.Str "scene.vtkjs");
       VTKJS._vtkjs := Some [x01; x02; x03] |}
  = (VTKJS.Return (Some "/w=="%string),
     {| VTKJS.object := Some (VTKJS.Str "scene.vtkjs"); VTKJS._vtkjs := Some [xff] |}).
Proof.
  apply (vtkjs_update_rereads no_network (<["scene.vtkjs"%string := [xff]]> toy_fs)
           {| VTKJS.object := Some (VTKJS.Str "scene.vtkjs");
              VTKJS._vtkjs := Some [x01; x02; x03] |}
           "scene.vtkjs" [xff]); reflexivity.
Defined.

(** A pane that has read its scene exports it; a pane that has not, exporting
    onto the file of its scene, loses it. *)
Lemma export_vtkjs_file_witness :
  (exists fs',
     VTKJS.export_vtkjs no_network toy_fs
       {| VTKJS.object := Some (VTKJS.Str "scene.vtkjs");
          VTKJS._vtkjs := Some [x01; x02; x03] |} "copy.vtkjs"
       = (VTKJS.Return tt,
          {| VTKJS.object := Some (VTKJS.Str "scene.vtkjs");
             VTKJS._vtkjs := Some [x01; x02; x03] |}, fs') /\
     fs' !! "copy.vtkjs"%string = Some [x01; x02; x03]) /\
  (exists fs',
     VTKJS.export_vtkjs no_network toy_fs
       (VTKJS.init (Some (VTKJS.Str "scene.vtkjs"))) "scene.vtkjs"
       = (VTKJS.Return tt,
          {| VTKJS.object := Some (VTKJS.Str "scene.vtkjs"); VTKJS._vtkjs := Some [] |},
          fs') /\
     toy_fs !! "scene.vtkjs"%string = Some [x01; x02; x03] /\
     fs' !! "scene.vtkjs"%string = Some []).
Proof.
  split.
  - apply (proj1 (export_vtkjs_file no_network toy_fs
                    {| VTKJS.object := Some (VTKJS.Str "scene.vtkjs");
                       VTKJS._vtkjs := Some [x01; x02; x03] |} "copy.vtkjs")
             [x01; x02; x03] eq_refl).
  - destruct (proj2 (export_vtkjs_file no_network toy_fs
                       (VTKJS.init (Some (VTKJS.Str "scene.vtkjs"))) "scene.vtkjs")
                eq_refl eq_refl eq_refl) as (fs' & E & Hw).
    exists fs'. split; [exact E|]. split; [reflexivity | exact Hw].
Defined.

Lemma export_vtkjs_no_object_witness :
  VTKJS.export_vtkjs no_network toy_fs (VTKJS.init None) "scene.vtkjs"
    = (VTKJS.Throw VTKJS.WriteTypeError, VTKJS.init None,
       <["scene.vtkjs"%string := []]> toy_fs).
Proof.
  apply (export_vtkjs_no_object no_network toy_fs (VTKJS.init None) "scene.vtkjs");
    reflexivity.
Defined.

(** A path to a file of another kind. *)
Lemma vtkjs_unsupported_object_witness :
  VTKJS.applies (VTKJS.Str "scene.vtk") = None /\
  VTKJS._get_vtkjs no_network toy_fs (VTKJS.init (Some (VTKJS.Str "scene.vtk")))
    = (VTKJS.Throw VTKJS.UnboundLocalError, VTKJS.init (Some (VTKJS.Str "scene.vtk"))).
Proof.
  destruct (vtkjs_unsupported_object no_network toy_fs
              (VTKJS.init (Some (VTKJS.Str "scene.vtk"))) (VTKJS.Str "scene.vtk")
              eq_refl eq_refl)
    as (Ha & Hg & _).
  - right. eexists. split; reflexivity.
  - split; [exact Ha | exact Hg].
Defined.

Lemma vtkjs_file_like_exhausted_witness :
  exists s1,
    VTKJS._get_vtkjs no_network toy_fs (VTKJS.init (Some (VTKJS.FileLike [x01; x02; x03])))
      = (VTKJS.Return (Some [x01; x02; x03]), s1) /\
    VTKJS._update no_network toy_fs s1 =
      (VTKJS.Return (Some ""%string),
       {| VTKJS.object := Some (VTKJS.FileLike []); VTKJS._vtkjs := Some [] |}).
Proof.
  apply (vtkjs_file_like_exhausted no_network toy_fs
           (VTKJS.init (Some (VTKJS.FileLike [x01; x02; x03]))) [x01; x02; x03]);
    reflexivity.
Defined.

(** ** Colours *)

Lemma rgb2hex_raises_iff_witness :
  _rgb2hex (PyInt 1) (PyFloat (1 # 2)) (PyFloat (1 # 2)) = Raise ValueError /\
  (forall e, _rgb2hex (PyInt 1) (PyInt 2) (PyFloat (1 # 2)) <> Raise e).
Proof.
  assert (Hhalf : finite_255 (PyFloat (1 # 2))) by (vm_compute; reflexivity).
  split.
  - apply (proj2 (rgb2hex_raises_iff (PyInt 1) (PyFloat (1 # 2)) (PyFloat (1 # 2))
                    ValueError I Hhalf Hhalf)).
    repeat split.
  - intros e H.
    apply (proj1 (rgb2hex_raises_iff (PyInt 1) (PyInt 2) (PyFloat (1 # 2)) e
                    I I Hhalf)) in H.
    destruct H as (_ & _ & H & _). discriminate.
Defined.

Lemma rgb2hex_ints_round_trip_witness :
  exists s,
    _rgb2hex (PyInt 255) (PyInt 127) (PyInt 0) = Ok s /\
    String.length s = 7%nat /\
    parse_hex_color s = Some (255, 127, 0).
Proof.
  apply (rgb2hex_ints_round_trip 255 127 0); lia.
Defined.

Lemma rgb2hex_floats_round_trip_witness :
  exists s,
    _rgb2hex (PyFloat 1) (PyFloat (1 # 2)) (PyFloat 0) = Ok s /\
    parse_hex_color s = Some (255, 127, 0).
Proof.
  destruct (rgb2hex_floats_round_trip 1 (1 # 2) 0)
    as (s & cr & cg & cb & E & _ & P & _ & _ & _ & Xr & Xg & Xb).
  - split; discriminate.
  - split; discriminate.
  - split; discriminate.
  - exists s. split; [exact E|]. rewrite P.
    rewrite Xr, Xg, Xb; [reflexivity| | |].
    + exists 0, 0%nat. split; [lia|]. split; reflexivity.
    + exists 1, 1%nat. split; [lia|]. split; reflexivity.
    + exists 1, 0%nat. split; [lia|]. split; reflexivity.
Defined.

(** A scalar bar without lookup table, after one with a table. *)
Lemma get_color_mappers_succeeds_iff_witness :
  get_color_mappers
    [mk_view_prop true (Some (mk_lut [x00; x0a; xff; xff] (0, 1)%Q)) "pressure";
     mk_view_prop true None "speed"] = Raise AttributeError /\
  exists cmaps,
    get_color_mappers
      [mk_view_prop true (Some (mk_lut [x00; x0a; xff; xff] (0, 1)%Q)) "pressure";
       mk_view_prop false None "axes"] = Ok cmaps.
Proof.
  split; [reflexivity|].
  apply (proj1 (get_color_mappers_succeeds_iff
    [mk_view_prop true (Some (mk_lut [x00; x0a; xff; xff] (0, 1)%Q)) "pressure";
     mk_view_prop false None "axes"])).
  repeat constructor.
  - intros _. eexists. split; reflexivity.
  - intros; discriminate.
Defined.

(** ** The render window *)

Lemma serialize_ren_win_frame_witness :
  exists d d',
    fst (walked toy_window (fun _ => 1%positive) id id id (list byte)
           toy_serializeInstance toy_window0 toy_context0) = PDict d /\
    toy_scene1 = PDict d' /\
    d'.*1 = d.*1 /\
    dict_get d' "arrays" = dict_get d "arrays".
Proof.
  destruct toy_first_walk as (arrays & H & _). unfold toy_serialize in H.
  destruct (serialize_ren_win_frame toy_window (fun _ => 1%positive) id id id
              (list byte) toy_serializeInstance toy_getCachedDataArray
              toy_window0 toy_context0 None toy_scene1 arrays toy_window0
              toy_context1 H)
    as (d & d' & props & props' & Hw & Hs & _ & Hk & Hd & _).
  exists d, d'. split; [rewrite Hw; reflexivity|]. split; [exact Hs|].
  split; [exact Hk|]. apply Hd. discriminate.
Defined.

Lemma serialize_ren_win_raises_witness :
  _serialize_ren_win toy_window (fun _ => 1%positive) id id id (list byte)
    toy_broken_walk toy_getCachedDataArray toy_window0 toy_context0 None
  = Raise TypeError.
Proof.
  apply (proj2 (serialize_ren_win_raises toy_window (fun _ => 1%positive) id id id
                  (list byte) toy_broken_walk toy_getCachedDataArray
                  toy_window0 toy_context0 None TypeError)).
  right. split; [reflexivity|]. left. discriminate.
Defined.

Lemma vtk_update_frame_witness :
  _update toy_window (fun _ => 1%positive) id id id (list byte)
    toy_serializeInstance toy_getCachedDataArray id toy_pane1
    {| model_id := "m2"; scene := PNone; arrays := ∅; arrays_processed := [] |}
  = Raise KeyError /\
  exists self' model',
    _update toy_window (fun _ => 1%positive) id id id (list byte)
      toy_serializeInstance toy_getCachedDataArray id toy_pane1 toy_model1
    = Ok (self', model') /\
    model_id model' = "m1"%string /\
    arrays_processed model' = ["a1b2"; "c3d4"]%string /\
    dom (_contexts _ _ self') = {["m1"%string]}.
Proof.
  split.
  - apply (proj1 (vtk_update_frame toy_window (fun _ => 1%positive) id id id
                    (list byte) toy_serializeInstance toy_getCachedDataArray id
                    toy_pane1
                    {| model_id := "m2"; scene := PNone; arrays := ∅;
                       arrays_processed := [] |})).
    reflexivity.
  - eexists. eexists. split; [reflexivity|].
    match goal with
    | |- model_id ?m = _ /\ _ /\ dom (_contexts _ _ ?s) = _ =>
        destruct (proj2 (vtk_update_frame toy_window (fun _ => 1%positive) id id id
                           (list byte) toy_serializeInstance toy_getCachedDataArray
                           id toy_pane1 toy_model1) s m eq_refl)
          as (Hid & Hproc & Hdom & _)
    end.
    split; [exact Hid|]. split; [exact Hproc|]. rewrite Hdom.
    unfold toy_pane1. cbn [_contexts]. apply dom_singleton_L.
Defined.

Lemma export_scene_filename_witness :
  exists zf,
    toy_export toy_pane1 toy_model1 "out/scene" = Ok ("out/scene.sync"%string, zf) /\
    toy_export toy_pane1 toy_model1 "out.d/scene" = Ok ("out.d/scene"%string, zf) /\
    toy_export toy_pane1 toy_model1 "out/scene.sync" = Ok ("out/scene.sync"%string, zf).
Proof.
  pose proof (export_scene_entries toy_window (list byte) toy_getCachedDataArray
                toy_dumps toy_deflate toy_pane1 toy_model1 "out/scene"
                toy_context1 eq_refl) as E1.
  pose proof (export_scene_entries toy_window (list byte) toy_getCachedDataArray
                toy_dumps toy_deflate toy_pane1 toy_model1 "out.d/scene"
                toy_context1 eq_refl) as E2.
  assert (N1 : (if has_dot "out/scene" then "out/scene" else "out/scene" ++ ".sync")%string
               = "out/scene.sync"%string) by reflexivity.
  assert (N2 : (if has_dot "out.d/scene" then "out.d/scene"
                else "out.d/scene" ++ ".sync")%string
               = "out.d/scene"%string) by reflexivity.
  rewrite N1 in E1. rewrite N2 in E2.
  eexists. split; [exact E1|]. split; [exact E2|].
  exact (proj1 (proj2 (proj2
           (proj2 (export_scene_filename toy_window (list byte)
                     toy_getCachedDataArray toy_dumps toy_deflate
                     toy_pane1 toy_model1 "out/scene") _ _ E1)))).
Defined.
